(** * Gaussian-process emulator (gpes_gsa/gpe.py): a shallow embedding

    The emulator of [gpe.py] is a Python object whose methods mutate its
    attributes, call into numpy / torch / gpytorch, write and read a
    checkpoint file and print progress.  The embedding keeps that shape:

    - floating-point numbers are an interface ([Float64]) with the
      comparison and the arithmetic the source uses;
    - the numerical kernels of torch and gpytorch are an interface
      ([Torch]): the code under verification only sequences them;
    - the helper classes of the repository's [utils] package are an
      interface ([Utils]) for [Scaler] and the metrics, and a concrete
      definition for [EarlyStopping];
    - methods are computations in a state-and-exception monad over the
      pair (object, world), the world being the random generator, the
      files and the printed lines. *)

From Stdlib Require Import ZArith QArith Reals Qreals Lra List Bool Lia.
From stdpp Require Import base option list strings gmap.

Local Open Scope Z_scope.

(** ** Floating-point numbers *)

(** What the source needs from IEEE doubles: numpy's comparison, the
    NaN test, the decimal literals, the operations used by [train_once]
    and [predict], and the transform gpytorch puts between a raw
    parameter and its positive value. *)
Class Float64 : Type := {
  float : Type;
  f_le : float -> float -> bool;           (* x <= y *)
  f_isnan : float -> bool;
  f_lit : Q -> float;                      (* a decimal literal *)
  f_add : float -> float -> float;
  f_sub : float -> float -> float;
  f_mul : float -> float -> float;
  np_log : float -> float;
  np_sqrt : float -> float;
  softplus : float -> float;               (* log(1 + exp x) *)
  inv_softplus : float -> float;           (* log(exp x - 1) *)
  np_mean : list float -> float;
  to_float32 : float -> float              (* Tensor.float() *)
}.

(** The order facts of IEEE comparison: NaN compares false with
    everything, the other values are totally preordered. *)
Class Float64Laws (F : Float64) : Prop := {
  f_le_nan_l : forall x y, f_isnan x = true -> f_le x y = false;
  f_le_nan_r : forall x y, f_isnan y = true -> f_le x y = false;
  f_le_total : forall x y, f_isnan x = false -> f_isnan y = false ->
                           f_le x y = true \/ f_le y x = true;
  f_le_trans : forall x y z, f_le x y = true -> f_le y z = true ->
                             f_le x z = true
}.

(** [x < y] on floats. *)
Definition f_lt `{Float64} (x y : float) : bool :=
  f_le x y && negb (f_le y x).

(** ** Exceptions *)

Inductive exn : Type :=
| RuntimeError      (* numerical failure inside torch / gpytorch *)
| ValueError        (* np.argmin of an empty sequence, a rate Adam refuses *)
| KeyError          (* metrics_dict[...] with an unknown name *)
| IndexError        (* list index out of range *)
| AttributeError    (* attribute read before it was assigned *)
| OSError           (* missing file *)
| UnpicklingError.  (* torch.load of a file that torch.save did not write *)

Inductive result (A : Type) : Type :=
| Ok (a : A)
| Raise (e : exn).
Arguments Ok {A} a.
Arguments Raise {A} e.

(** ** Arrays *)

Section Arrays.
Context `{F : Float64}.

(** A numpy array (or torch tensor) of one or two dimensions; a
    two-dimensional one carries its column count, as [shape[1]] does. *)
Inductive ndarray : Type :=
| Arr1 (v : list float)
| Arr2 (ncols : nat) (rows : list (list float)).

(** [X.shape[0]] *)
Definition shape0 (X : ndarray) : nat :=
  match X with
  | Arr1 v => length v
  | Arr2 _ rows => length rows
  end.

(** [len(X.shape)] *)
Definition ndim (X : ndarray) : nat :=
  match X with Arr1 _ => 1%nat | Arr2 _ _ => 2%nat end.

(** [X.shape[1]] *)
Definition shape1 (X : ndarray) : nat :=
  match X with Arr1 _ => 0%nat | Arr2 c _ => c end.

(** [X.ravel()] as a list *)
Definition flat (X : ndarray) : list float :=
  match X with
  | Arr1 v => v
  | Arr2 _ rows => concat rows
  end.

Definition ravel (X : ndarray) : ndarray := Arr1 (flat X).

(** [X.reshape(-1, 1)] *)
Definition reshape_col (X : ndarray) : ndarray :=
  Arr2 1 (map (fun x => [x]) (flat X)).

(** [torch.from_numpy(X).float()] *)
Definition tensorize (X : ndarray) : ndarray :=
  match X with
  | Arr1 v => Arr1 (map to_float32 v)
  | Arr2 c rows => Arr2 c (map (map to_float32) rows)
  end.

(** [np.argmin] on a sequence of floats, after numpy's loop: the running
    minimum is replaced when [not (mp <= x)], and a NaN ends the scan. *)
Fixpoint argmin_loop (mp : float) (min_ind i : nat) (l : list float) : nat :=
  match l with
  | [] => min_ind
  | x :: r =>
      if negb (f_le mp x)
      then (if f_isnan x then i else argmin_loop x i (S i) r)
      else argmin_loop mp min_ind (S i) r
  end.

Definition np_argmin (l : list float) : result nat :=
  match l with
  | [] => Raise ValueError
  | x :: r => if f_isnan x then Ok 0%nat else Ok (argmin_loop x 0 1 r)
  end.

(** What [state_dict()] of [ExactGPModel] holds that this code can
    change, one field per entry: the linear mean ([mean_module.weights],
    [mean_module.bias]), the raw parameters of the kernel
    ([covar_module.raw_outputscale],
    [covar_module.base_kernel.raw_lengthscale]) and of the likelihood
    ([likelihood.noise_covar.raw_noise]), and the lower bound of the
    noise constraint, which gpytorch keeps as a buffer of the state
    ([likelihood.noise_covar.raw_noise_constraint.lower_bound]) and
    which [load_state_dict] therefore restores.  All of them are
    single-precision tensors. *)
Record state_dict : Type := {
  weights : list float;
  bias : float;
  raw_outputscale : float;
  raw_lengthscale : list float;
  raw_noise : float;
  noise_lower_bound : float
}.

Definition set_raw_lengthscale (v : list float) (s : state_dict) : state_dict :=
  {| weights := weights s; bias := bias s;
     raw_outputscale := raw_outputscale s; raw_lengthscale := v;
     raw_noise := raw_noise s; noise_lower_bound := noise_lower_bound s |}.

(** [covar_module.base_kernel.lengthscale], the quantity [print_stats]
    shows: gpytorch derives it from [raw_lengthscale] through the
    kernel's default [Positive] constraint, whose transform is softplus. *)
Definition lengthscale (s : state_dict) : list float :=
  map softplus (raw_lengthscale s).

(** [covar_module.outputscale]: softplus of the raw value (the
    [Positive] constraint). *)
Definition outputscale (s : state_dict) : float :=
  softplus (raw_outputscale s).

(** [likelihood.noise]: the [GreaterThan] constraint maps the raw value
    to softplus of it plus the lower bound, in single precision. *)
Definition noise (s : state_dict) : float :=
  to_float32 (f_add (softplus (raw_noise s)) (noise_lower_bound s)).

(** What [likelihood.noise = v] stores as the raw value under the lower
    bound [b]: gpytorch casts [v] to the tensor's precision and applies
    the inverse of the constraint's transform. *)
Definition raw_noise_of (b v : float) : float :=
  inv_softplus (to_float32 (f_sub (to_float32 v) b)).

End Arrays.

(** ** torch and gpytorch *)

(** The numerical kernels the emulator calls.  Each runs on a device
    and on the global random generator, which gpytorch draws probe
    vectors from once the data are large (the Lanczos and
    conjugate-gradient paths that [fast_pred_var] and the marginal
    likelihood take above their size thresholds): a kernel returns a
    value or raises, together with the generator as it leaves it. *)
Class Torch (F : Float64) : Type := {
  Rng : Type;                              (* state of the global generator *)
  torch_rand : nat -> Rng -> list float * Rng;
  (* the generator after [ExactGPModel(in_dim, ...)] was built: the
     linear mean draws its weights and its bias with torch.randn *)
  module_init : nat -> Rng -> Rng;
  Device : Type;
  Optimizer : Type;
  Adam : float -> Optimizer;               (* a fresh optimizer, given lr *)
  (* what a fresh ExactGPModel / GaussianLikelihood holds before
     [initialize] replaces it *)
  default_state : nat -> state_dict;
  (* -criterion(model(X_train), y_train) in training mode *)
  mll_train : Device -> state_dict -> ndarray -> ndarray ->
              Rng -> result float * Rng;
  (* backward() and optimizer.step(); the boolean is [requires_grad] of
     the raw noise *)
  backward_step : Device -> bool -> Optimizer -> state_dict ->
                  ndarray -> ndarray ->
                  Rng -> result (Optimizer * state_dict) * Rng;
  (* -criterion(model(X_val), y_val) in evaluation mode *)
  mll_eval : Device -> state_dict -> ndarray -> ndarray -> ndarray ->
             ndarray -> Rng -> result float * Rng;
  (* likelihood(model(X)) in evaluation mode *)
  MultivariateNormal : Type;
  predictive : Device -> state_dict -> ndarray -> ndarray -> ndarray ->
               Rng -> result MultivariateNormal * Rng;
  mvn_mean : MultivariateNormal -> list float;
  mvn_variance : MultivariateNormal -> list float;
  (* predictions.sample(sample_shape=torch.Size([n])) *)
  mvn_sample : nat -> MultivariateNormal ->
               Rng -> result (list (list float)) * Rng
}.

(** ** The repository's utils package *)

Inductive Metric : Type := R2Score | MAPE | MSE.

(** [utils.preprocessing.Scaler] and [utils.metrics], by their
    signatures. *)
Class Utils (F : Float64) : Type := {
  Scaler : Type;
  Scaler_fit : ndarray -> Scaler;          (* Scaler() followed by fit *)
  transform : Scaler -> ndarray -> ndarray;
  inverse_transform : Scaler -> ndarray -> ndarray;
  inverse_transform_predictions :
    Scaler -> list float -> list float -> list float * list float;
  metric_fn : Metric -> ndarray -> ndarray -> float
}.

(** [metrics_dict = {'R2Score': R2Score, 'MAPE': MAPE, 'MSE': MSE}] *)
Definition metrics_dict (name : string) : option Metric :=
  if String.eqb name "R2Score" then Some R2Score
  else if String.eqb name "MAPE" then Some MAPE
  else if String.eqb name "MSE" then Some MSE
  else None.

(** ** EarlyStopping *)

Section EarlyStoppingModel.
Context `{F : Float64}.

(** Modelled from the spec: [utils.earlystopping.EarlyStopping], which
    the source imports and whose file is not part of the sources at
    hand.  The spec gives its contract: it is constructed with
    [(patience, checkpoint_path)], called once per epoch with the
    monitored loss and the model, persists the model state whenever the
    loss improves on the best seen so far, and exposes the flag
    [early_stop] once [patience] consecutive non-improving calls have
    occurred. *)
Record EarlyStopping : Type := {
  es_patience : Z;
  checkpoint_path : string;
  es_best : option float;
  es_counter : Z;
  early_stop : bool
}.

Definition EarlyStopping_init (patience : Z) (path : string) : EarlyStopping :=
  {| es_patience := patience; checkpoint_path := path; es_best := None;
     es_counter := 0; early_stop := false |}.

(** Modelled from the spec: a loss is a new best when nothing was seen
    before or when it is below the best seen so far. *)
Definition improves (loss : float) (best : option float) : bool :=
  match best with
  | None => true
  | Some b => f_lt loss b
  end.

(** Modelled from the spec: one call of the monitor; the boolean tells
    whether a checkpoint is to be written. *)
Definition EarlyStopping_observe (es : EarlyStopping) (loss : float)
  : EarlyStopping * bool :=
  if improves loss (es_best es)
  then ({| es_patience := es_patience es;
           checkpoint_path := checkpoint_path es;
           es_best := Some loss; es_counter := 0;
           early_stop := early_stop es |}, true)
  else ({| es_patience := es_patience es;
           checkpoint_path := checkpoint_path es;
           es_best := es_best es; es_counter := es_counter es + 1;
           early_stop := early_stop es
                         || (es_patience es <=? es_counter es + 1) |}, false).

(** The monitor state after a whole series of losses. *)
Definition EarlyStopping_feed (es : EarlyStopping) (losses : list float)
  : EarlyStopping :=
  fold_left (fun s x => fst (EarlyStopping_observe s x)) losses es.

End EarlyStoppingModel.

(** ** The emulator object and its world *)

Section Emulator.
Context {F : Float64} {T : Torch F} {U : Utils F}.

(** What [print] shows. *)
Inductive event : Type :=
| PrintRestart (i : Z)                   (* 'Restart {}...' *)
| PrintRepeat (i : Z)                    (* 'Repeating restart {} ...' *)
| PrintEpoch (epoch : Z) (train_loss : float) (val : option (float * float))
| PrintEarlyStopping                     (* 'Early stopping!' *)
| PrintLoading                           (* 'Loading trained emulator...' *)
| PrintDone                              (* 'Done. The fitted ...' *)
| PrintStats (bias0 : float) (weights0 : list float) (outputscale0 : float)
             (lengthscales : list float) (noise0 : option float)
             (score : option float).       (* the lines of print_stats *)

(** A file is a text array ([np.loadtxt]) or a saved state dictionary
    ([torch.save] / [torch.load]). *)
Inductive file : Type :=
| TxtFile (a : ndarray)
| PthFile (s : state_dict).

Record World : Type := {
  rng : Rng;
  disk : gmap string file;
  stdout : list event
}.

Definition set_rng (r : Rng) (w : World) : World :=
  {| rng := r; disk := disk w; stdout := stdout w |}.
Definition set_disk (d : gmap string file) (w : World) : World :=
  {| rng := rng w; disk := d; stdout := stdout w |}.
Definition set_stdout (o : list event) (w : World) : World :=
  {| rng := rng w; disk := disk w; stdout := o |}.

(** The attributes of a [GPEmul] object.  An attribute that a method
    creates is present from construction with a placeholder; [option]
    marks the ones whose absence a method could observe. *)
Record GPEmul : Type := {
  (* assigned by __init__ only *)
  scale_data : bool;
  scx : option Scaler;
  scy : option Scaler;
  X_train : ndarray;
  y_train : ndarray;
  device : Device;
  data_mean : float;
  n_samples : nat;
  n_in_features : nat;
  learn_noise : bool;
  raw_noise_requires_grad : bool;
  init_state : state_dict;
  (* the live hyperparameters and the train/eval mode flag *)
  model : state_dict;
  training : bool;
  (* assigned by train (some also by load_emulator) *)
  with_val : bool;
  X_val : ndarray;
  y_val : ndarray;
  watch_metric : string;
  metric : option Metric;
  n_restarts : Z;
  learning_rate : float;
  max_epochs : Z;
  patience : Z;
  savepath : string;
  (* assigned by train_once *)
  optimizer : option Optimizer;
  train_loss_list : list float;
  val_loss_list : list float;
  metric_score_list : list float;
  best_model : option state_dict;
  idx_best : nat;
  (* the retained score *)
  metric_score : option float
}.

Definition set_model (v : state_dict) (e : GPEmul) : GPEmul :=
  {| scale_data := scale_data e; scx := scx e; scy := scy e; X_train :=
     X_train e; y_train := y_train e; device := device e; data_mean :=
     data_mean e; n_samples := n_samples e; n_in_features := n_in_features
     e; learn_noise := learn_noise e; raw_noise_requires_grad :=
     raw_noise_requires_grad e; init_state := init_state e; model := v;
     training := training e; with_val := with_val e; X_val := X_val e; y_val
     := y_val e; watch_metric := watch_metric e; metric := metric e;
     n_restarts := n_restarts e; learning_rate := learning_rate e;
     max_epochs := max_epochs e; patience := patience e; savepath :=
     savepath e; optimizer := optimizer e; train_loss_list :=
     train_loss_list e; val_loss_list := val_loss_list e; metric_score_list
     := metric_score_list e; best_model := best_model e; idx_best :=
     idx_best e; metric_score := metric_score e |}.

Definition set_training (v : bool) (e : GPEmul) : GPEmul :=
  {| scale_data := scale_data e; scx := scx e; scy := scy e; X_train :=
     X_train e; y_train := y_train e; device := device e; data_mean :=
     data_mean e; n_samples := n_samples e; n_in_features := n_in_features
     e; learn_noise := learn_noise e; raw_noise_requires_grad :=
     raw_noise_requires_grad e; init_state := init_state e; model := model
     e; training := v; with_val := with_val e; X_val := X_val e; y_val :=
     y_val e; watch_metric := watch_metric e; metric := metric e; n_restarts
     := n_restarts e; learning_rate := learning_rate e; max_epochs :=
     max_epochs e; patience := patience e; savepath := savepath e; optimizer
     := optimizer e; train_loss_list := train_loss_list e; val_loss_list :=
     val_loss_list e; metric_score_list := metric_score_list e; best_model
     := best_model e; idx_best := idx_best e; metric_score := metric_score e |}.

Definition set_with_val (v : bool) (e : GPEmul) : GPEmul :=
  {| scale_data := scale_data e; scx := scx e; scy := scy e; X_train :=
     X_train e; y_train := y_train e; device := device e; data_mean :=
     data_mean e; n_samples := n_samples e; n_in_features := n_in_features
     e; learn_noise := learn_noise e; raw_noise_requires_grad :=
     raw_noise_requires_grad e; init_state := init_state e; model := model
     e; training := training e; with_val := v; X_val := X_val e; y_val :=
     y_val e; watch_metric := watch_metric e; metric := metric e; n_restarts
     := n_restarts e; learning_rate := learning_rate e; max_epochs :=
     max_epochs e; patience := patience e; savepath := savepath e; optimizer
     := optimizer e; train_loss_list := train_loss_list e; val_loss_list :=
     val_loss_list e; metric_score_list := metric_score_list e; best_model
     := best_model e; idx_best := idx_best e; metric_score := metric_score e |}.

Definition set_X_val (v : ndarray) (e : GPEmul) : GPEmul :=
  {| scale_data := scale_data e; scx := scx e; scy := scy e; X_train :=
     X_train e; y_train := y_train e; device := device e; data_mean :=
     data_mean e; n_samples := n_samples e; n_in_features := n_in_features
     e; learn_noise := learn_noise e; raw_noise_requires_grad :=
     raw_noise_requires_grad e; init_state := init_state e; model := model
     e; training := training e; with_val := with_val e; X_val := v; y_val :=
     y_val e; watch_metric := watch_metric e; metric := metric e; n_restarts
     := n_restarts e; learning_rate := learning_rate e; max_epochs :=
     max_epochs e; patience := patience e; savepath := savepath e; optimizer
     := optimizer e; train_loss_list := train_loss_list e; val_loss_list :=
     val_loss_list e; metric_score_list := metric_score_list e; best_model
     := best_model e; idx_best := idx_best e; metric_score := metric_score e |}.

Definition set_y_val (v : ndarray) (e : GPEmul) : GPEmul :=
  {| scale_data := scale_data e; scx := scx e; scy := scy e; X_train :=
     X_train e; y_train := y_train e; device := device e; data_mean :=
     data_mean e; n_samples := n_samples e; n_in_features := n_in_features
     e; learn_noise := learn_noise e; raw_noise_requires_grad :=
     raw_noise_requires_grad e; init_state := init_state e; model := model
     e; training := training e; with_val := with_val e; X_val := X_val e;
     y_val := v; watch_metric := watch_metric e; metric := metric e;
     n_restarts := n_restarts e; learning_rate := learning_rate e;
     max_epochs := max_epochs e; patience := patience e; savepath :=
     savepath e; optimizer := optimizer e; train_loss_list :=
     train_loss_list e; val_loss_list := val_loss_list e; metric_score_list
     := metric_score_list e; best_model := best_model e; idx_best :=
     idx_best e; metric_score := metric_score e |}.

Definition set_watch_metric (v : string) (e : GPEmul) : GPEmul :=
  {| scale_data := scale_data e; scx := scx e; scy := scy e; X_train :=
     X_train e; y_train := y_train e; device := device e; data_mean :=
     data_mean e; n_samples := n_samples e; n_in_features := n_in_features
     e; learn_noise := learn_noise e; raw_noise_requires_grad :=
     raw_noise_requires_grad e; init_state := init_state e; model := model
     e; training := training e; with_val := with_val e; X_val := X_val e;
     y_val := y_val e; watch_metric := v; metric := metric e; n_restarts :=
     n_restarts e; learning_rate := learning_rate e; max_epochs :=
     max_epochs e; patience := patience e; savepath := savepath e; optimizer
     := optimizer e; train_loss_list := train_loss_list e; val_loss_list :=
     val_loss_list e; metric_score_list := metric_score_list e; best_model
     := best_model e; idx_best := idx_best e; metric_score := metric_score e |}.

Definition set_metric (v : option Metric) (e : GPEmul) : GPEmul :=
  {| scale_data := scale_data e; scx := scx e; scy := scy e; X_train :=
     X_train e; y_train := y_train e; device := device e; data_mean :=
     data_mean e; n_samples := n_samples e; n_in_features := n_in_features
     e; learn_noise := learn_noise e; raw_noise_requires_grad :=
     raw_noise_requires_grad e; init_state := init_state e; model := model
     e; training := training e; with_val := with_val e; X_val := X_val e;
     y_val := y_val e; watch_metric := watch_metric e; metric := v;
     n_restarts := n_restarts e; learning_rate := learning_rate e;
     max_epochs := max_epochs e; patience := patience e; savepath :=
     savepath e; optimizer := optimizer e; train_loss_list :=
     train_loss_list e; val_loss_list := val_loss_list e; metric_score_list
     := metric_score_list e; best_model := best_model e; idx_best :=
     idx_best e; metric_score := metric_score e |}.

Definition set_n_restarts (v : Z) (e : GPEmul) : GPEmul :=
  {| scale_data := scale_data e; scx := scx e; scy := scy e; X_train :=
     X_train e; y_train := y_train e; device := device e; data_mean :=
     data_mean e; n_samples := n_samples e; n_in_features := n_in_features
     e; learn_noise := learn_noise e; raw_noise_requires_grad :=
     raw_noise_requires_grad e; init_state := init_state e; model := model
     e; training := training e; with_val := with_val e; X_val := X_val e;
     y_val := y_val e; watch_metric := watch_metric e; metric := metric e;
     n_restarts := v; learning_rate := learning_rate e; max_epochs :=
     max_epochs e; patience := patience e; savepath := savepath e; optimizer
     := optimizer e; train_loss_list := train_loss_list e; val_loss_list :=
     val_loss_list e; metric_score_list := metric_score_list e; best_model
     := best_model e; idx_best := idx_best e; metric_score := metric_score e |}.

Definition set_learning_rate (v : float) (e : GPEmul) : GPEmul :=
  {| scale_data := scale_data e; scx := scx e; scy := scy e; X_train :=
     X_train e; y_train := y_train e; device := device e; data_mean :=
     data_mean e; n_samples := n_samples e; n_in_features := n_in_features
     e; learn_noise := learn_noise e; raw_noise_requires_grad :=
     raw_noise_requires_grad e; init_state := init_state e; model := model
     e; training := training e; with_val := with_val e; X_val := X_val e;
     y_val := y_val e; watch_metric := watch_metric e; metric := metric e;
     n_restarts := n_restarts e; learning_rate := v; max_epochs :=
     max_epochs e; patience := patience e; savepath := savepath e; optimizer
     := optimizer e; train_loss_list := train_loss_list e; val_loss_list :=
     val_loss_list e; metric_score_list := metric_score_list e; best_model
     := best_model e; idx_best := idx_best e; metric_score := metric_score e |}.

Definition set_max_epochs (v : Z) (e : GPEmul) : GPEmul :=
  {| scale_data := scale_data e; scx := scx e; scy := scy e; X_train :=
     X_train e; y_train := y_train e; device := device e; data_mean :=
     data_mean e; n_samples := n_samples e; n_in_features := n_in_features
     e; learn_noise := learn_noise e; raw_noise_requires_grad :=
     raw_noise_requires_grad e; init_state := init_state e; model := model
     e; training := training e; with_val := with_val e; X_val := X_val e;
     y_val := y_val e; watch_metric := watch_metric e; metric := metric e;
     n_restarts := n_restarts e; learning_rate := learning_rate e;
     max_epochs := v; patience := patience e; savepath := savepath e;
     optimizer := optimizer e; train_loss_list := train_loss_list e;
     val_loss_list := val_loss_list e; metric_score_list :=
     metric_score_list e; best_model := best_model e; idx_best := idx_best
     e; metric_score := metric_score e |}.

Definition set_patience (v : Z) (e : GPEmul) : GPEmul :=
  {| scale_data := scale_data e; scx := scx e; scy := scy e; X_train :=
     X_train e; y_train := y_train e; device := device e; data_mean :=
     data_mean e; n_samples := n_samples e; n_in_features := n_in_features
     e; learn_noise := learn_noise e; raw_noise_requires_grad :=
     raw_noise_requires_grad e; init_state := init_state e; model := model
     e; training := training e; with_val := with_val e; X_val := X_val e;
     y_val := y_val e; watch_metric := watch_metric e; metric := metric e;
     n_restarts := n_restarts e; learning_rate := learning_rate e;
     max_epochs := max_epochs e; patience := v; savepath := savepath e;
     optimizer := optimizer e; train_loss_list := train_loss_list e;
     val_loss_list := val_loss_list e; metric_score_list :=
     metric_score_list e; best_model := best_model e; idx_best := idx_best
     e; metric_score := metric_score e |}.

Definition set_savepath (v : string) (e : GPEmul) : GPEmul :=
  {| scale_data := scale_data e; scx := scx e; scy := scy e; X_train :=
     X_train e; y_train := y_train e; device := device e; data_mean :=
     data_mean e; n_samples := n_samples e; n_in_features := n_in_features
     e; learn_noise := learn_noise e; raw_noise_requires_grad :=
     raw_noise_requires_grad e; init_state := init_state e; model := model
     e; training := training e; with_val := with_val e; X_val := X_val e;
     y_val := y_val e; watch_metric := watch_metric e; metric := metric e;
     n_restarts := n_restarts e; learning_rate := learning_rate e;
     max_epochs := max_epochs e; patience := patience e; savepath := v;
     optimizer := optimizer e; train_loss_list := train_loss_list e;
     val_loss_list := val_loss_list e; metric_score_list :=
     metric_score_list e; best_model := best_model e; idx_best := idx_best
     e; metric_score := metric_score e |}.

Definition set_optimizer (v : option Optimizer) (e : GPEmul) : GPEmul :=
  {| scale_data := scale_data e; scx := scx e; scy := scy e; X_train :=
     X_train e; y_train := y_train e; device := device e; data_mean :=
     data_mean e; n_samples := n_samples e; n_in_features := n_in_features
     e; learn_noise := learn_noise e; raw_noise_requires_grad :=
     raw_noise_requires_grad e; init_state := init_state e; model := model
     e; training := training e; with_val := with_val e; X_val := X_val e;
     y_val := y_val e; watch_metric := watch_metric e; metric := metric e;
     n_restarts := n_restarts e; learning_rate := learning_rate e;
     max_epochs := max_epochs e; patience := patience e; savepath :=
     savepath e; optimizer := v; train_loss_list := train_loss_list e;
     val_loss_list := val_loss_list e; metric_score_list :=
     metric_score_list e; best_model := best_model e; idx_best := idx_best
     e; metric_score := metric_score e |}.

Definition set_train_loss_list (v : list float) (e : GPEmul) : GPEmul :=
  {| scale_data := scale_data e; scx := scx e; scy := scy e; X_train :=
     X_train e; y_train := y_train e; device := device e; data_mean :=
     data_mean e; n_samples := n_samples e; n_in_features := n_in_features
     e; learn_noise := learn_noise e; raw_noise_requires_grad :=
     raw_noise_requires_grad e; init_state := init_state e; model := model
     e; training := training e; with_val := with_val e; X_val := X_val e;
     y_val := y_val e; watch_metric := watch_metric e; metric := metric e;
     n_restarts := n_restarts e; learning_rate := learning_rate e;
     max_epochs := max_epochs e; patience := patience e; savepath :=
     savepath e; optimizer := optimizer e; train_loss_list := v;
     val_loss_list := val_loss_list e; metric_score_list :=
     metric_score_list e; best_model := best_model e; idx_best := idx_best
     e; metric_score := metric_score e |}.

Definition set_val_loss_list (v : list float) (e : GPEmul) : GPEmul :=
  {| scale_data := scale_data e; scx := scx e; scy := scy e; X_train :=
     X_train e; y_train := y_train e; device := device e; data_mean :=
     data_mean e; n_samples := n_samples e; n_in_features := n_in_features
     e; learn_noise := learn_noise e; raw_noise_requires_grad :=
     raw_noise_requires_grad e; init_state := init_state e; model := model
     e; training := training e; with_val := with_val e; X_val := X_val e;
     y_val := y_val e; watch_metric := watch_metric e; metric := metric e;
     n_restarts := n_restarts e; learning_rate := learning_rate e;
     max_epochs := max_epochs e; patience := patience e; savepath :=
     savepath e; optimizer := optimizer e; train_loss_list :=
     train_loss_list e; val_loss_list := v; metric_score_list :=
     metric_score_list e; best_model := best_model e; idx_best := idx_best
     e; metric_score := metric_score e |}.

Definition set_metric_score_list (v : list float) (e : GPEmul) : GPEmul :=
  {| scale_data := scale_data e; scx := scx e; scy := scy e; X_train :=
     X_train e; y_train := y_train e; device := device e; data_mean :=
     data_mean e; n_samples := n_samples e; n_in_features := n_in_features
     e; learn_noise := learn_noise e; raw_noise_requires_grad :=
     raw_noise_requires_grad e; init_state := init_state e; model := model
     e; training := training e; with_val := with_val e; X_val := X_val e;
     y_val := y_val e; watch_metric := watch_metric e; metric := metric e;
     n_restarts := n_restarts e; learning_rate := learning_rate e;
     max_epochs := max_epochs e; patience := patience e; savepath :=
     savepath e; optimizer := optimizer e; train_loss_list :=
     train_loss_list e; val_loss_list := val_loss_list e; metric_score_list
     := v; best_model := best_model e; idx_best := idx_best e; metric_score
     := metric_score e |}.

Definition set_best_model (v : option state_dict) (e : GPEmul) : GPEmul :=
  {| scale_data := scale_data e; scx := scx e; scy := scy e; X_train :=
     X_train e; y_train := y_train e; device := device e; data_mean :=
     data_mean e; n_samples := n_samples e; n_in_features := n_in_features
     e; learn_noise := learn_noise e; raw_noise_requires_grad :=
     raw_noise_requires_grad e; init_state := init_state e; model := model
     e; training := training e; with_val := with_val e; X_val := X_val e;
     y_val := y_val e; watch_metric := watch_metric e; metric := metric e;
     n_restarts := n_restarts e; learning_rate := learning_rate e;
     max_epochs := max_epochs e; patience := patience e; savepath :=
     savepath e; optimizer := optimizer e; train_loss_list :=
     train_loss_list e; val_loss_list := val_loss_list e; metric_score_list
     := metric_score_list e; best_model := v; idx_best := idx_best e;
     metric_score := metric_score e |}.

Definition set_idx_best (v : nat) (e : GPEmul) : GPEmul :=
  {| scale_data := scale_data e; scx := scx e; scy := scy e; X_train :=
     X_train e; y_train := y_train e; device := device e; data_mean :=
     data_mean e; n_samples := n_samples e; n_in_features := n_in_features
     e; learn_noise := learn_noise e; raw_noise_requires_grad :=
     raw_noise_requires_grad e; init_state := init_state e; model := model
     e; training := training e; with_val := with_val e; X_val := X_val e;
     y_val := y_val e; watch_metric := watch_metric e; metric := metric e;
     n_restarts := n_restarts e; learning_rate := learning_rate e;
     max_epochs := max_epochs e; patience := patience e; savepath :=
     savepath e; optimizer := optimizer e; train_loss_list :=
     train_loss_list e; val_loss_list := val_loss_list e; metric_score_list
     := metric_score_list e; best_model := best_model e; idx_best := v;
     metric_score := metric_score e |}.

Definition set_metric_score (v : option float) (e : GPEmul) : GPEmul :=
  {| scale_data := scale_data e; scx := scx e; scy := scy e; X_train :=
     X_train e; y_train := y_train e; device := device e; data_mean :=
     data_mean e; n_samples := n_samples e; n_in_features := n_in_features
     e; learn_noise := learn_noise e; raw_noise_requires_grad :=
     raw_noise_requires_grad e; init_state := init_state e; model := model
     e; training := training e; with_val := with_val e; X_val := X_val e;
     y_val := y_val e; watch_metric := watch_metric e; metric := metric e;
     n_restarts := n_restarts e; learning_rate := learning_rate e;
     max_epochs := max_epochs e; patience := patience e; savepath :=
     savepath e; optimizer := optimizer e; train_loss_list :=
     train_loss_list e; val_loss_list := val_loss_list e; metric_score_list
     := metric_score_list e; best_model := best_model e; idx_best :=
     idx_best e; metric_score := v |}.

(** ** The monad of the methods *)

(** A method runs on the object and the world; it returns a value or
    raises, and what it changed before raising stays changed. *)
Definition St : Type := GPEmul * World.
Definition M (A : Type) : Type := St -> result A * St.

Definition ret {A} (a : A) : M A := fun s => (Ok a, s).

Definition bind {A B} (c : M A) (k : A -> M B) : M B :=
  fun s =>
    match c s with
    | (Ok a, s') => k a s'
    | (Raise ex, s') => (Raise ex, s')
    end.

Definition raise {A} (ex : exn) : M A := fun s => (Raise ex, s).

Definition lift {A} (r : result A) : M A := fun s => (r, s).

(** [try: c] with the outcome handed to the handler. *)
Definition try {A} (c : M A) : M (result A) :=
  fun s => let (r, s') := c s in (Ok r, s').

Definition self : M GPEmul := fun s => (Ok (fst s), s).
Definition world : M World := fun s => (Ok (snd s), s).
Definition assign (f : GPEmul -> GPEmul) : M unit :=
  fun s => (Ok tt, (f (fst s), snd s)).
Definition effect (f : World -> World) : M unit :=
  fun s => (Ok tt, (fst s, f (snd s))).

Notation "'let*' x ':=' c 'in' k" := (bind c (fun x => k))
  (at level 10, x pattern, c at level 100, k at level 200).
Notation "c ';;;' k" := (bind c (fun _ => k))
  (at level 100, k at level 200, right associativity).

Definition print (ev : event) : M unit :=
  effect (fun w => set_stdout (stdout w ++ [ev]) w).

(** [l[i]] on a Python list *)
Definition getitem {A} (l : list A) (i : nat) : M A :=
  match l !! i with
  | Some a => ret a
  | None => raise IndexError
  end.

(** An attribute that must have been assigned. *)
Definition attr {A} (o : option A) : M A :=
  match o with
  | Some a => ret a
  | None => raise AttributeError
  end.

(** [torch.save(state, path)], [torch.load(path)], [np.loadtxt(path)].
    A text file stands for the array [np.loadtxt] returns for it (a
    table of one column or of one row comes back one-dimensional).  A
    missing file is an [OSError] ([FileNotFoundError]); a file of the
    other kind fails the way each library fails on it. *)
Definition torch_save (s : state_dict) (path : string) : M unit :=
  effect (fun w => set_disk (<[path := PthFile s]> (disk w)) w).

Definition torch_load (path : string) : M state_dict :=
  let* w := world in
  match disk w !! path with
  | Some (PthFile s) => ret s
  | Some (TxtFile _) => raise UnpicklingError
  | None => raise OSError
  end.

Definition np_loadtxt (path : string) : M ndarray :=
  let* w := world in
  match disk w !! path with
  | Some (TxtFile a) => ret a
  | Some (PthFile _) => raise ValueError
  | None => raise OSError
  end.

(** A numerical kernel, run on the global generator. *)
Definition kernel {A} (f : Rng -> result A * Rng) : M A :=
  fun s =>
    let (r, g) := f (rng (snd s)) in (r, (fst s, set_rng g (snd s))).

(** [torch.rand(n)] on the global generator *)
Definition rand (n : nat) : M (list float) :=
  let* w := world in
  let (u, r) := torch_rand n (rng w) in
  effect (set_rng r) ;;;
  ret u.

(** [self.model.load_state_dict(s)]: every entry of the state is
    replaced, the bound of the noise constraint included.  torch
    refuses a state whose tensors have other sizes than the model's;
    the states given here are [init_state], a snapshot of this model,
    and in [load_emulator] the saved state, whose sizes the statements
    about it assume to fit. *)
Definition load_state_dict (s : state_dict) : M unit :=
  assign (set_model s).

(** ** Construction *)

(** [GPEmul.__init__] (lines 26-59): the object it leaves.  The
    hyperparameters are what [initialize] and the noise setter store:
    the bias is copied into a single-precision parameter, the
    output-scale 1 and (with [learn_noise] false) the noise 1e-4 go
    through the inverse of their constraints' transforms, the noise
    under the lower bound 1e-6 that [register_constraint] has put in
    place, and [requires_grad_(False)] switches the gradient of the raw
    noise off.  With [learn_noise] true the likelihood keeps what the
    library gives it. *)
Definition GPEmul_init (X_train0 y_train0 : ndarray) (device0 : Device)
    (learn_noise0 scale_data0 : bool) : GPEmul :=
  let scx0 := if scale_data0 then Some (Scaler_fit X_train0) else None in
  let scy0 :=
    if scale_data0 then Some (Scaler_fit (reshape_col y_train0)) else None in
  let X_t :=
    match scx0 with
    | Some sc => tensorize (transform sc X_train0)
    | None => tensorize X_train0
    end in
  let y_t :=
    match scy0 with
    | Some sc => tensorize (ravel (transform sc (reshape_col y_train0)))
    | None => tensorize y_train0
    end in
  let data_mean0 :=
    if scale_data0 then f_lit 0 else np_mean (flat y_train0) in
  let n_in :=
    if (1 <? ndim X_train0)%nat then shape1 X_train0 else 1%nat in
  let fresh := default_state n_in in
  let bound :=
    if learn_noise0 then noise_lower_bound fresh
    else to_float32 (f_lit (1 # 1000000)) in
  let hyperparameters :=
    {| weights := repeat (f_lit 0) n_in;
       bias := to_float32 data_mean0;
       raw_outputscale := inv_softplus (f_lit 1);
       raw_lengthscale := raw_lengthscale fresh;
       raw_noise := if learn_noise0 then raw_noise fresh
                    else raw_noise_of bound (f_lit (1 # 10000));
       noise_lower_bound := bound |} in
  {| scale_data := scale_data0; scx := scx0; scy := scy0;
     X_train := X_t; y_train := y_t; device := device0;
     data_mean := data_mean0; n_samples := shape0 X_train0;
     n_in_features := n_in; learn_noise := learn_noise0;
     raw_noise_requires_grad := learn_noise0;
     init_state := hyperparameters;
     model := hyperparameters; training := true;
     with_val := false; X_val := Arr1 []; y_val := Arr1 [];
     watch_metric := ""; metric := None; n_restarts := 0;
     learning_rate := f_lit 0; max_epochs := 0; patience := 0;
     savepath := ""; optimizer := None;
     train_loss_list := []; val_loss_list := []; metric_score_list := [];
     best_model := None; idx_best := 0%nat; metric_score := None |}.

(** The constructor as it runs in a world: building [ExactGPModel]
    (line 52) advances the generator, and [initialize] then replaces
    what was drawn, so that the object does not depend on the draw. *)
Definition GPEmul_new (X_train0 y_train0 : ndarray) (device0 : Device)
    (learn_noise0 scale_data0 : bool) (w : World) : GPEmul * World :=
  let e := GPEmul_init X_train0 y_train0 device0 learn_noise0 scale_data0 in
  (e, set_rng (module_init (n_in_features e) (rng w)) w).

(** ** One restart *)

(** [torch.optim.Adam(params, lr=lr)]: torch refuses a learning rate
    for which [0.0 <= lr] does not hold. *)
Definition Adam_new (lr : float) : result Optimizer :=
  if f_le (f_lit 0) lr then Ok (Adam lr) else Raise ValueError.

(** [train_step] (lines 168-178).  Tensors and model are taken to
    [self.device]; the optimizer steps the parameters that take
    gradients, which the raw noise does or does not by its flag. *)
Definition train_step : M float :=
  assign (set_training true) ;;;
  let* e := self in
  let* opt := attr (optimizer e) in
  let* train_loss :=
    kernel (mll_train (device e) (model e) (X_train e) (y_train e)) in
  let* st :=
    kernel (backward_step (device e) (raw_noise_requires_grad e) opt
                          (model e) (X_train e) (y_train e)) in
  assign (set_optimizer (Some (fst st))) ;;;
  assign (set_model (snd st)) ;;;
  ret train_loss.

(** [val_step] (lines 181-192) *)
Definition val_step : M (float * float) :=
  assign (set_training false) ;;;
  let* e := self in
  let* val_loss :=
    kernel (mll_eval (device e) (model e) (X_train e) (y_train e)
                     (X_val e) (y_val e)) in
  let* predictions :=
    kernel (predictive (device e) (model e) (X_train e) (y_train e)
                       (X_val e)) in
  let y_pred := Arr1 (mvn_mean predictions) in
  let* m := attr (metric e) in
  ret (val_loss, metric_fn m (y_val e) y_pred).

(** [early_stopping(loss, self.model)]: the monitor of the spec, its
    checkpoint written to the world's disk. *)
Definition EarlyStopping_call (es : EarlyStopping) (loss : float)
  : M EarlyStopping :=
  let* e := self in
  let obs := EarlyStopping_observe es loss in
  (if snd obs then torch_save (model e) (checkpoint_path es) else ret tt) ;;;
  ret (fst obs).

(** Line 120 on one drawn number [u]: [lsc_inf] and [lsc_sup] are
    doubles, [u] is an entry of a single-precision tensor, and each
    operation between a double scalar and such a tensor is done in
    single precision. *)
Definition raw_lengthscale_of (u : float) : float :=
  let lsc_inf := np_log (f_lit (1 # 10)) in
  let lsc_sup := np_log (f_lit 10) in
  to_float32
    (f_add (to_float32 (f_mul (to_float32 (f_sub lsc_sup lsc_inf)) u))
           (to_float32 lsc_inf)).

(** RESET (lines 116-133): the frozen initial state is loaded, the raw
    lengthscales are drawn, optimizer and monitor are created afresh and
    the per-epoch lists are emptied. *)
Definition reset : M EarlyStopping :=
  let* e := self in
  load_state_dict (init_state e) ;;;
  let* u := rand (n_in_features e) in
  assign (fun e => set_model (set_raw_lengthscale
            (map raw_lengthscale_of u) (model e)) e) ;;;
  let* opt := lift (Adam_new (learning_rate e)) in
  assign (set_optimizer (Some opt)) ;;;
  let early_stopping := EarlyStopping_init (patience e) (savepath e) in
  assign (set_train_loss_list []) ;;;
  (if with_val e
   then assign (set_val_loss_list []) ;;; assign (set_metric_score_list [])
   else ret tt) ;;;
  ret early_stopping.

(** One pass through the body of the epoch loop, up to the call of the
    monitor (lines 136-156). *)
Definition epoch_body (epoch : Z) (early_stopping : EarlyStopping)
  : M EarlyStopping :=
  let* train_loss := train_step in
  let* e := self in
  let* val :=
    if with_val e
    then (let* v := val_step in ret (Some v))
    else ret None in
  print (PrintEpoch epoch train_loss val) ;;;
  assign (fun e => set_train_loss_list (train_loss_list e ++ [train_loss]) e) ;;;
  match val with
  | Some (val_loss, metric_score0) =>
      assign (fun e => set_val_loss_list (val_loss_list e ++ [val_loss]) e) ;;;
      assign (fun e => set_metric_score_list
                         (metric_score_list e ++ [metric_score0]) e)
  | None => ret tt
  end ;;;
  match val with
  | Some (val_loss, _) => EarlyStopping_call early_stopping val_loss
  | None => EarlyStopping_call early_stopping train_loss
  end.

(** The epoch loop (lines 135-159): [n] epochs remain, [epoch] is the
    loop variable; the loop is left when the monitor raises its flag. *)
Fixpoint epoch_loop (n : nat) (epoch : Z) (early_stopping : EarlyStopping)
  : M EarlyStopping :=
  match n with
  | O => ret early_stopping
  | S n' =>
      let* es := epoch_body epoch early_stopping in
      if early_stop es
      then print PrintEarlyStopping ;;; ret es
      else epoch_loop n' (epoch + 1) es
  end.

(** STOPPED (lines 161-165) *)
Definition finish : M unit :=
  let* e := self in
  let* best := torch_load (savepath e) in
  assign (set_best_model (Some best)) ;;;
  let* idx :=
    lift (np_argmin (if with_val e then val_loss_list e
                     else train_loss_list e)) in
  assign (set_idx_best idx).

(** RESET and OPTIMIZING together (lines 116-159): the monitor is
    returned as the loop leaves it. *)
Definition run_epochs : M EarlyStopping :=
  let* early_stopping := reset in
  let* e := self in
  epoch_loop (Z.to_nat (max_epochs e)) 0 early_stopping.

(** [train_once] (lines 115-165) *)
Definition train_once : M unit :=
  run_epochs ;;;
  finish.

(** ** Training *)

(** The head of [train] (lines 63-81): validation data is taken when
    both arguments are arrays, the metric is looked up by name and the
    arguments are kept on the object. *)
Definition train_setup (X_val0 y_val0 : option ndarray) (n_restarts0 : Z)
    (learning_rate0 : float) (max_epochs0 patience0 : Z)
    (savepath0 watch_metric0 : string) : M unit :=
  let* e := self in
  match X_val0, y_val0 with
  | Some Xv, Some yv =>
      assign (set_with_val true) ;;;
      let* scaled :=
        if scale_data e
        then (let* sx := attr (scx e) in
              let* sy := attr (scy e) in
              ret (transform sx Xv, ravel (transform sy (reshape_col yv))))
        else ret (Xv, yv) in
      assign (set_X_val (tensorize (fst scaled))) ;;;
      assign (set_y_val (tensorize (snd scaled)))
  | _, _ => assign (set_with_val false)
  end ;;;
  assign (set_watch_metric watch_metric0) ;;;
  match metrics_dict watch_metric0 with
  | Some m => assign (set_metric (Some m))
  | None => raise KeyError
  end ;;;
  assign (set_n_restarts n_restarts0) ;;;
  assign (set_learning_rate learning_rate0) ;;;
  assign (set_max_epochs max_epochs0) ;;;
  assign (set_patience patience0) ;;;
  assign (set_savepath savepath0).

(** The four lists [train] fills, one entry per recorded restart. *)
Record Collected : Type := {
  c_train_loss : list float;
  c_model_state : list state_dict;
  c_val_loss : list float;
  c_metric_score : list float
}.

Definition no_restart : Collected :=
  {| c_train_loss := []; c_model_state := []; c_val_loss := [];
     c_metric_score := [] |}.

(** The [else] branch of the [try] (lines 99-103). *)
Definition record_restart (acc : Collected) : M Collected :=
  let* e := self in
  let* tl := getitem (train_loss_list e) (idx_best e) in
  let* bm := attr (best_model e) in
  if with_val e
  then (let* vl := getitem (val_loss_list e) (idx_best e) in
        let* ms := getitem (metric_score_list e) (idx_best e) in
        ret {| c_train_loss := c_train_loss acc ++ [tl];
               c_model_state := c_model_state acc ++ [bm];
               c_val_loss := c_val_loss acc ++ [vl];
               c_metric_score := c_metric_score acc ++ [ms] |})
  else ret {| c_train_loss := c_train_loss acc ++ [tl];
              c_model_state := c_model_state acc ++ [bm];
              c_val_loss := c_val_loss acc;
              c_metric_score := c_metric_score acc |}.

(** The [while i < n_restarts] loop (lines 89-103).  Nothing bounds the
    number of repetitions in the source; [fuel] bounds the number of
    passes through the body here, and [None] tells that it ran out.
    The handler prints [err.args[0]]: the [RuntimeError]s that torch
    and gpytorch raise carry their message, so that the handler itself
    does not fail. *)
Fixpoint restart_loop (n_restarts0 : Z) (fuel : nat) (i : Z) (acc : Collected)
  : M (option Collected) :=
  if i <? n_restarts0 then
    match fuel with
    | O => ret None
    | S fuel' =>
        print (PrintRestart (i + 1)) ;;;
        let* r := try train_once in
        match r with
        | Raise RuntimeError =>
            print (PrintRepeat (i + 1)) ;;;
            restart_loop n_restarts0 fuel' i acc
        | Raise ex => raise ex
        | Ok _ =>
            let* acc' := record_restart acc in
            restart_loop n_restarts0 fuel' (i + 1) acc'
        end
    end
  else ret (Some acc).

(** The selection (lines 105-112). *)
Definition select_best (acc : Collected) : M unit :=
  let* e := self in
  let* idx_min :=
    if with_val e
    then (let* idx := lift (np_argmin (c_val_loss acc)) in
          let* ms := getitem (c_metric_score acc) idx in
          assign (set_metric_score (Some ms)) ;;;
          ret idx)
    else lift (np_argmin (c_train_loss acc)) in
  let* bm := getitem (c_model_state acc) idx_min in
  assign (set_best_model (Some bm)) ;;;
  load_state_dict bm.

(** [train] (lines 62-112) *)
Definition train (fuel : nat) (X_val0 y_val0 : option ndarray)
    (n_restarts0 : Z) (learning_rate0 : float) (max_epochs0 patience0 : Z)
    (savepath0 watch_metric0 : string) : M (option unit) :=
  train_setup X_val0 y_val0 n_restarts0 learning_rate0 max_epochs0 patience0
              savepath0 watch_metric0 ;;;
  let* r := restart_loop n_restarts0 fuel 0 no_restart in
  match r with
  | None => ret None
  | Some acc => select_best acc ;;; ret (Some tt)
  end.

(** ** Prediction *)

(** [predict] (lines 209-225).  [model.eval()] and [likelihood.eval()]
    clear the one mode flag: the likelihood is a submodule of the model.
    The input is taken to [self.device], where the predictive
    distribution is evaluated. *)
Definition predict (X_new : ndarray) : M (list float * list float) :=
  assign (set_training false) ;;;
  let* e := self in
  let* X_new1 :=
    if scale_data e
    then (let* sx := attr (scx e) in ret (transform sx X_new))
    else ret X_new in
  let X_new2 := tensorize X_new1 in
  let* predictions :=
    kernel (predictive (device e) (model e) (X_train e) (y_train e)
                       X_new2) in
  let y_mean := mvn_mean predictions in
  let y_std := map np_sqrt (mvn_variance predictions) in
  if scale_data e
  then (let* sy := attr (scy e) in
        ret (inverse_transform_predictions sy y_mean y_std))
  else ret (y_mean, y_std).

(** [y_samples[i] = v] on a two-dimensional array with [ncols] columns:
    the row is replaced when the lengths agree, a one-element [v] is
    broadcast, anything else is refused. *)
Definition setitem_row (ncols i : nat) (v : list float)
    (rows : list (list float)) : result (list (list float)) :=
  if decide (i < length rows)%nat then
    if decide (length v = ncols) then Ok (<[i := v]> rows)
    else match v with
         | [x] => Ok (<[i := repeat x ncols]> rows)
         | _ => Raise ValueError
         end
  else Raise IndexError.

(** The loop of lines 241-242 over the indices still to visit.  The
    array of draws is single-precision, so that what is assigned to a
    row is cast to it. *)
Fixpoint unscale_rows (sy : Scaler) (ncols : nat) (idxs : list nat)
    (rows : list (list float)) : result (list (list float)) :=
  match idxs with
  | [] => Ok rows
  | i :: rest =>
      match rows !! i with
      | None => Raise IndexError
      | Some row =>
          let v :=
            map to_float32
                (flat (ravel (inverse_transform sy (reshape_col (Arr1 row)))))
          in
          match setitem_row ncols i v rows with
          | Ok rows' => unscale_rows sy ncols rest rows'
          | Raise ex => Raise ex
          end
      end
  end.

(** [sample] (lines 228-244) *)
Definition sample (X_new : ndarray) (n_draws : nat) : M ndarray :=
  assign (set_training false) ;;;
  let* e := self in
  let* X_new1 :=
    if scale_data e
    then (let* sx := attr (scx e) in ret (transform sx X_new))
    else ret X_new in
  let X_new2 := tensorize X_new1 in
  let* predictions :=
    kernel (predictive (device e) (model e) (X_train e) (y_train e)
                       X_new2) in
  let* y_samples := kernel (mvn_sample n_draws predictions) in
  let ncols := length (mvn_mean predictions) in
  if scale_data e
  then (let* sy := attr (scy e) in
        let* rows := lift (unscale_rows sy ncols (seq 0 n_draws) y_samples) in
        ret (Arr2 ncols rows))
  else ret (Arr2 ncols y_samples).

(** ** Loading *)

(** [print_stats] (lines 195-206) *)
Definition print_stats : M unit :=
  let* e := self in
  let* score :=
    if with_val e
    then (let* ms := attr (metric_score e) in ret (Some ms))
    else ret None in
  print (PrintStats (bias (model e)) (weights (model e))
                    (outputscale (model e)) (lengthscale (model e))
                    (if learn_noise e then Some (noise (model e)) else None)
                    score).

(** The part of [load_emulator] that runs on the constructed object
    (lines 264-284). *)
Definition load_into (outpath bestsplit : string) (with_val0 : bool)
    (watch_metric0 : string) : M unit :=
  let best_model0 := outpath +:+ bestsplit +:+ "_gpe.pth" in
  let* s := torch_load best_model0 in
  load_state_dict s ;;;
  assign (set_with_val with_val0) ;;;
  (if with_val0 then
     let* X_val0 := np_loadtxt (outpath +:+ bestsplit +:+ "_X_val.txt") in
     let* y_val0 := np_loadtxt (outpath +:+ bestsplit +:+ "_y_val.txt") in
     assign (set_watch_metric watch_metric0) ;;;
     match metrics_dict watch_metric0 with
     | Some m => assign (set_metric (Some m))
     | None => raise KeyError
     end ;;;
     let* p := predict X_val0 in
     let y_pred0 := Arr1 (fst p) in
     let* e := self in
     let* scaled :=
       if scale_data e
       then (let* sy := attr (scy e) in
             ret (ravel (transform sy (reshape_col y_val0)),
                  ravel (transform sy (reshape_col y_pred0))))
       else ret (y_val0, y_pred0) in
     let* m := attr (metric e) in
     assign (set_metric_score
               (Some (metric_fn m (tensorize (fst scaled))
                                  (tensorize (snd scaled)))))
   else ret tt) ;;;
  print PrintDone ;;;
  print_stats.

(** [GPEmulUtils.load_emulator] (lines 257-286): a class method, so it
    runs on the world alone and returns the object it builds. *)
Definition load_emulator (outpath bestsplit : string) (with_val0 : bool)
    (watch_metric0 : string) (device0 : Device) (w : World)
  : result GPEmul * World :=
  let w1 := set_stdout (stdout w ++ [PrintLoading]) w in
  match disk w1 !! (outpath +:+ bestsplit +:+ "_X_train.txt") with
  | Some (TxtFile X_train0) =>
      match disk w1 !! (outpath +:+ bestsplit +:+ "_y_train.txt") with
      | Some (TxtFile y_train0) =>
          match load_into outpath bestsplit with_val0 watch_metric0
                          (GPEmul_new X_train0 y_train0 device0 false true w1)
          with
          | (Ok _, (emul', w')) => (Ok emul', w')
          | (Raise ex, (_, w')) => (Raise ex, w')
          end
      | Some (PthFile _) => (Raise ValueError, w1)
      | None => (Raise OSError, w1)
      end
  | Some (PthFile _) => (Raise ValueError, w1)
  | None => (Raise OSError, w1)
  end.

End Emulator.

(** ** An executable backend

    Rationals with a NaN stand for the doubles, so that the methods can
    be run on concrete inputs.  Arithmetic is exact; the transcendental
    functions are replaced by their first-order expansions at 1 (and
    softplus by the ramp), which is all the control flow needs. *)
Module Toy.

Definition lift2 (f : Q -> Q -> Q) (x y : option Q) : option Q :=
  match x, y with
  | Some a, Some b => Some (Qred (f a b))
  | _, _ => None
  end.

Definition mean (l : list (option Q)) : option Q :=
  match l with
  | [] => None
  | _ => lift2 Qdiv (fold_right (lift2 Qplus) (Some 0%Q) l)
               (Some (Z.of_nat (length l) # 1))
  end.

#[export] Instance QFloat : Float64 := {|
  float := option Q;
  f_le := fun x y =>
            match x, y with
            | Some a, Some b => Qle_bool a b
            | _, _ => false
            end;
  f_isnan := fun x => match x with Some _ => false | None => true end;
  f_lit := fun q => Some q;
  f_add := lift2 Qplus;
  f_sub := lift2 Qminus;
  f_mul := lift2 Qmult;
  np_log := fun x => lift2 Qminus x (Some 1%Q);
  np_sqrt := fun x => lift2 Qdiv (lift2 Qplus x (Some 1%Q)) (Some 2%Q);
  softplus := fun x => match x with
                       | Some a => if Qle_bool a 0 then Some 0%Q else Some a
                       | None => None
                       end;
  inv_softplus := fun x => x;
  np_mean := mean;
  to_float32 := fun x => x
|}.

(** The generator counts its calls and draws [k / (k + 1)] at the
    [k]-th; building a model is one call.  The optimizer counts its
    steps and moves the bias down by one each time, and the raw noise
    up by one when it takes gradients; the loss is the squared bias; a
    raw lengthscale below zero makes the forward pass fail.  The
    predictive distribution draws once, and its variance shows the
    draw; sampling draws once more and refuses an empty sample. *)
Definition draw (k : nat) : option Q :=
  Some (Qred (Z.of_nat k # Pos.of_nat (S k))).

Definition sq (x : option Q) : option Q := lift2 Qmult x x.

Definition all_nonneg (l : list (option Q)) : bool :=
  forallb (fun x => match x with
                    | Some a => Qle_bool 0 a
                    | None => false
                    end) l.

#[export] Instance QTorch : Torch QFloat := {|
  Rng := nat;
  torch_rand := fun n k => (repeat (draw k) n, S k);
  module_init := fun _ k => S k;
  Device := unit;
  Optimizer := nat;
  Adam := fun _ => 0%nat;
  default_state := fun n =>
    {| weights := repeat (Some 1%Q) n; bias := Some 1%Q;
       raw_outputscale := Some 0%Q; raw_lengthscale := repeat (Some 0%Q) n;
       raw_noise := Some (1 # 100)%Q; noise_lower_bound := Some (1 # 10000)%Q |};
  mll_train := fun _ s _ _ k =>
    (if all_nonneg (raw_lengthscale s) then Ok (sq (bias s))
     else Raise RuntimeError, k);
  backward_step := fun _ grad opt s _ _ k =>
    (Ok (S opt,
         {| weights := weights s;
            bias := lift2 Qminus (bias s) (Some 1%Q);
            raw_outputscale := raw_outputscale s;
            raw_lengthscale := raw_lengthscale s;
            raw_noise := if grad then lift2 Qplus (raw_noise s) (Some 1%Q)
                         else raw_noise s;
            noise_lower_bound := noise_lower_bound s |}), k);
  mll_eval := fun _ s _ _ _ _ k =>
    (Ok (lift2 Qplus (sq (bias s)) (Some 1%Q)), k);
  MultivariateNormal := (list (option Q) * list (option Q))%type;
  predictive := fun _ s _ _ X k =>
    (Ok (repeat (bias s) (shape0 X),
         repeat (lift2 Qplus (noise s) (draw k)) (shape0 X)), S k);
  mvn_mean := fst;
  mvn_variance := snd;
  mvn_sample := fun n d k =>
    match n with
    | O => (Raise RuntimeError, k)
    | S _ => (Ok (repeat (fst d) n), S k)
    end
|}.

(** The scaler subtracts the first entry of the data it was fitted on. *)
Definition shift (c : option Q) (f : option Q -> option Q -> option Q)
    (X : ndarray) : ndarray :=
  match X with
  | Arr1 v => Arr1 (map (fun x => f x c) v)
  | Arr2 n rows => Arr2 n (map (map (fun x => f x c)) rows)
  end.

#[export] Instance QUtils : Utils QFloat := {|
  Scaler := option Q;
  Scaler_fit := fun X => hd (Some 0%Q) (flat X);
  transform := fun c X => shift c (lift2 Qminus) X;
  inverse_transform := fun c X => shift c (lift2 Qplus) X;
  inverse_transform_predictions := fun c m s =>
    (map (fun x => lift2 Qplus x c) m, s);
  metric_fn := fun _ y p =>
    mean (map sq (zip_with (lift2 Qminus) (flat y) (flat p)))
|}.

Definition world0 : World :=
  {| rng := 0%nat; disk := ∅; stdout := [] |}.

(** The same world once the generator has made its first draw. *)
Definition world1 : World :=
  {| rng := 1%nat; disk := ∅; stdout := [] |}.

(** Three samples of two features, and their targets. *)
Definition X3 : ndarray :=
  Arr2 2 [[Some 0%Q; Some 1%Q]; [Some 1%Q; Some 3%Q]; [Some 2%Q; Some 5%Q]].
Definition y3 : ndarray := Arr1 [Some 1%Q; Some 2%Q; Some 3%Q].

(** A world whose disk holds the artifacts of a fitted emulator under
    the prefix [out/] and the run identifier [1]. *)
Definition world_saved : World :=
  {| rng := 0%nat;
     disk := <["out/1_X_train.txt" := TxtFile X3]>
               (<["out/1_y_train.txt" := TxtFile y3]>
                  (<["out/1_gpe.pth" := PthFile (default_state 2)]> ∅));
     stdout := [] |}.

(** The one device. *)
Definition cpu : Device := tt.

(** A learning rate. *)
Definition rate : float := Some (1 # 10)%Q.

(** A learning rate that Adam refuses. *)
Definition negative_rate : float := Some (-1 # 10)%Q.

(** Two emulators on three samples, without and with scaling. *)
Definition emul_plain : GPEmul := GPEmul_init X3 y3 tt false false.
Definition emul_scaled : GPEmul := GPEmul_init X3 y3 tt false true.

(** The saved world with the validation arrays beside the training
    arrays. *)
Definition world_validated : World :=
  {| rng := 0%nat;
     disk := <["out/1_X_val.txt" := TxtFile X3]>
               (<["out/1_y_val.txt" := TxtFile y3]> (disk world_saved));
     stdout := [] |}.


End Toy.

(** ** The backend of the real numbers

    The doubles read as the real numbers they stand for, without
    rounding and without NaN: the arithmetic and the logarithm are those
    of the reals.  The torch side is the smallest there is, with a
    generator that always draws 0, the lowest value [torch.rand] can
    give. *)
Module Real.

Definition Rleb (x y : R) : bool := if Rle_dec x y then true else false.

#[export] Instance RFloat : Float64 := {|
  float := R;
  f_le := Rleb;
  f_isnan := fun _ => false;
  f_lit := Q2R;
  f_add := Rplus;
  f_sub := Rminus;
  f_mul := Rmult;
  np_log := ln;
  np_sqrt := sqrt;
  softplus := fun x => ln (1 + exp x);
  inv_softplus := fun x => ln (exp x - 1);
  np_mean := fun l => (fold_right Rplus 0 l / INR (length l))%R;
  to_float32 := fun x => x
|}.

Definition zeros (n : nat) : state_dict :=
  {| weights := repeat 0%R n; bias := 0%R; raw_outputscale := 0%R;
     raw_lengthscale := repeat 0%R n; raw_noise := 0%R;
     noise_lower_bound := 0%R |}.

#[export] Instance ZeroTorch : Torch RFloat := {|
  Rng := unit;
  torch_rand := fun n r => (repeat 0%R n, r);
  module_init := fun _ r => r;
  Device := unit;
  Optimizer := unit;
  Adam := fun _ => tt;
  default_state := zeros;
  mll_train := fun _ _ _ _ r => (Raise RuntimeError, r);
  backward_step := fun _ _ _ _ _ _ r => (Raise RuntimeError, r);
  mll_eval := fun _ _ _ _ _ _ r => (Raise RuntimeError, r);
  MultivariateNormal := unit;
  predictive := fun _ _ _ _ _ r => (Raise RuntimeError, r);
  mvn_mean := fun _ => [];
  mvn_variance := fun _ => [];
  mvn_sample := fun _ _ r => (Raise RuntimeError, r)
|}.

#[export] Instance NoUtils : Utils RFloat := {|
  Scaler := unit;
  Scaler_fit := fun _ => tt;
  transform := fun _ X => X;
  inverse_transform := fun _ X => X;
  inverse_transform_predictions := fun _ m s => (m, s);
  metric_fn := fun _ _ _ => 0%R
|}.

(** An emulator on one sample with one feature, and an empty world. *)
Definition X1 : ndarray := Arr2 1 [[0%R]].
Definition y1 : ndarray := Arr1 [0%R].

Definition emul_one : GPEmul := GPEmul_init X1 y1 tt false false.

Definition world0 : World := {| rng := tt; disk := ∅; stdout := [] |}.

End Real.

(** ** A backend that rounds to single precision

    Rationals stand for the doubles and [to_float32] rounds to the
    nearest number of 24 significant bits, ties to even, as the
    conversion to a single-precision tensor does within the normal
    range.  The arithmetic is exact, which is what the doubles give
    wherever the exact result is a double.  The torch side is the
    smallest there is. *)
Module Single.

(** [a / b] rounded to the nearest integer, ties to even *)
Definition round_half_even (a : Z) (b : positive) : Z :=
  let q := a / Z.pos b in
  match 2 * (a mod Z.pos b) ?= Z.pos b with
  | Lt => q
  | Gt => q + 1
  | Eq => if Z.even q then q else q + 1
  end.

(** [x * 2 ^ k] *)
Definition shift2 (x : Q) (k : Z) : Q :=
  match k with
  | Z0 => x
  | Zpos p => (x * (Z.pos (2 ^ p) # 1))%Q
  | Zneg p => (x * (1 # 2 ^ p))%Q
  end.

(** The exponent of a positive [x]: the [e] with [2 ^ e <= x < 2 ^ (e + 1)] *)
Definition exponent (x : Q) : Z :=
  let k := Z.log2 (Qnum x) - Z.log2 (Z.pos (Qden x)) in
  if Qle_bool (shift2 1 k) x then k else k - 1.

Definition round32_pos (x : Q) : Q :=
  let e := exponent x - 23 in
  let m := shift2 x (- e) in
  Qred (shift2 (round_half_even (Qnum m) (Qden m) # 1) e).

Definition round32 (x : Q) : Q :=
  match Qnum x with
  | Z0 => 0%Q
  | Zpos _ => round32_pos x
  | Zneg _ => Qred (- round32_pos (- x))
  end.

Definition mean (l : list Q) : Q :=
  Qred (fold_right Qplus 0%Q l / (Z.of_nat (length l) # 1)).

#[export] Instance SFloat : Float64 := {|
  float := Q;
  f_le := Qle_bool;
  f_isnan := fun _ => false;
  f_lit := fun q => q;
  f_add := fun x y => Qred (x + y);
  f_sub := fun x y => Qred (x - y);
  f_mul := fun x y => Qred (x * y);
  np_log := fun x => Qred (x - 1);
  np_sqrt := fun x => Qred ((x + 1) / 2);
  softplus := fun x => if Qle_bool x 0 then 0%Q else x;
  inv_softplus := fun x => x;
  np_mean := mean;
  to_float32 := round32
|}.

Definition zeros (n : nat) : state_dict :=
  {| weights := repeat 0%Q n; bias := 0%Q; raw_outputscale := 0%Q;
     raw_lengthscale := repeat 0%Q n; raw_noise := 0%Q;
     noise_lower_bound := 0%Q |}.

#[export] Instance STorch : Torch SFloat := {|
  Rng := unit;
  torch_rand := fun n r => (repeat 0%Q n, r);
  module_init := fun _ r => r;
  Device := unit;
  Optimizer := unit;
  Adam := fun _ => tt;
  default_state := zeros;
  mll_train := fun _ _ _ _ r => (Raise RuntimeError, r);
  backward_step := fun _ _ _ _ _ _ r => (Raise RuntimeError, r);
  mll_eval := fun _ _ _ _ _ _ r => (Raise RuntimeError, r);
  MultivariateNormal := unit;
  predictive := fun _ _ _ _ _ r => (Raise RuntimeError, r);
  mvn_mean := fun _ => [];
  mvn_variance := fun _ => [];
  mvn_sample := fun _ _ r => (Raise RuntimeError, r)
|}.

#[export] Instance SUtils : Utils SFloat := {|
  Scaler := unit;
  Scaler_fit := fun _ => tt;
  transform := fun _ X => X;
  inverse_transform := fun _ X => X;
  inverse_transform_predictions := fun _ m s => (m, s);
  metric_fn := fun _ _ _ => 0%Q
|}.

(** One sample whose target, [1 + 2 ^ -31], is a double and not a
    single-precision number. *)
Definition X1 : ndarray := Arr2 1 [[0%Q]].
Definition y1 : ndarray := Arr1 [(2147483649 # 2147483648)%Q].

Definition emul_one : GPEmul := GPEmul_init X1 y1 tt false false.

End Single.

(** * Vocabulary of the statements *)

Section Vocabulary.
Context {F : Float64} {T : Torch F} {U : Utils F}.

(** [wp c Q s]: running [c] from [s] ends, with a value or an
    exception, in a state satisfying [Q]. *)
Definition wp {A} (c : M A) (Q : result A -> St -> Prop) (s : St) : Prop :=
  Q (fst (c s)) (snd (c s)).

(** [preserved I c]: whatever [c] does and however it ends, [I] holds
    afterwards if it held before. *)
Definition preserved {A} (I : St -> Prop) (c : M A) : Prop :=
  forall s, I s -> wp c (fun _ s' => I s') s.

(** The attributes that only [__init__] assigns. *)
Definition frozen (e : GPEmul) :=
  (scale_data e, scx e, scy e, X_train e, y_train e, device e, data_mean e,
   n_samples e, n_in_features e, learn_noise e, raw_noise_requires_grad e,
   init_state e).

(** [keeps I]: an invariant of the object alone, as a state predicate. *)
Definition on_self (I : GPEmul -> Prop) : St -> Prop := fun s => I (fst s).

(** The arguments [train] keeps on the object. *)
Definition config (e : GPEmul) :=
  (with_val e, X_val e, y_val e, watch_metric e, metric e, n_restarts e,
   learning_rate e, max_epochs e, patience e, savepath e).

(** A view [g] of the object that no assignment made during a restart,
    a selection or a prediction changes. *)
Record run_stable {X} (g : GPEmul -> X) : Prop := {
  rs_model : forall v e, g (set_model v e) = g e;
  rs_training : forall v e, g (set_training v e) = g e;
  rs_optimizer : forall v e, g (set_optimizer v e) = g e;
  rs_train_loss_list : forall v e, g (set_train_loss_list v e) = g e;
  rs_val_loss_list : forall v e, g (set_val_loss_list v e) = g e;
  rs_metric_score_list : forall v e, g (set_metric_score_list v e) = g e;
  rs_best_model : forall v e, g (set_best_model v e) = g e;
  rs_idx_best : forall v e, g (set_idx_best v e) = g e;
  rs_metric_score : forall v e, g (set_metric_score v e) = g e
}.

(** The view [g] of the object has the value [x]. *)
Definition view_is {X} (g : GPEmul -> X) (x : X) : St -> Prop :=
  on_self (fun e => g e = x).

(** The order in which [np.argmin] looks for a minimum: NaN counts as
    lowest, the other values compare as floats. *)
Definition np_below (x y : float) : bool := f_isnan x || f_le x y.

(** [i] is the first position of [l] that holds a minimum. *)
Definition first_argmin (l : list float) (i : nat) : Prop :=
  exists x, l !! i = Some x /\
    (forall j y, l !! j = Some y -> np_below x y = true) /\
    (forall j y, (j < i)%nat -> l !! j = Some y -> np_below y x = false).

(** Whether [train] was given validation data. *)
Definition validation_supplied (X_val0 y_val0 : option ndarray) : bool :=
  match X_val0, y_val0 with
  | Some _, Some _ => true
  | _, _ => false
  end.

(** The loss series a restart is judged by. *)
Definition monitored (e : GPEmul) : list float :=
  if with_val e then val_loss_list e else train_loss_list e.

(** The loss series the selection is made on. *)
Definition selection_series (validated : bool) (acc : Collected) : list float :=
  if validated then c_val_loss acc else c_train_loss acc.

(** The world after [print ev]. *)
Definition printed (ev : event) (s : St) : St :=
  (fst s, set_stdout (stdout (snd s) ++ [ev]) (snd s)).

(** The restart that ended in the state [r] ran on the series that
    [validated] chooses, and [v] is its best loss: the entry of its
    series at [idx_best], which is the first minimum of the series. *)
Definition restart_best (validated : bool) (r : St) (v : float) : Prop :=
  let series :=
    if validated then val_loss_list (fst r) else train_loss_list (fst r) in
  with_val (fst r) = validated /\
  first_argmin series (idx_best (fst r)) /\
  series !! idx_best (fst r) = Some v.

(** [completed_restarts n i s runs s']: entered in the state [s] with
    the counter at [i], the loop of lines 90-103 leaves in the state
    [s'], and [runs] are the states in which its calls of [train_once]
    returned, in this order; the calls that raised a [RuntimeError] are
    repeated and leave no entry. *)
Inductive completed_restarts (n : Z) : Z -> St -> list St -> St -> Prop :=
| restarts_done i s :
    n <= i -> completed_restarts n i s [] s
| restarts_completed i s r runs s' :
    i < n ->
    train_once (printed (PrintRestart (i + 1)) s) = (Ok tt, r) ->
    completed_restarts n (i + 1) r runs s' ->
    completed_restarts n i s (r :: runs) s'
| restarts_repeated i s s1 runs s' :
    i < n ->
    train_once (printed (PrintRestart (i + 1)) s) = (Raise RuntimeError, s1) ->
    completed_restarts n i (printed (PrintRepeat (i + 1)) s1) runs s' ->
    completed_restarts n i s runs s'.

(** The per-epoch lists and the flag that chooses among them. *)
Definition lists_view (e : GPEmul) :=
  (with_val e, train_loss_list e, val_loss_list e, metric_score_list e).

(** What holds of a monitor with patience [p] after [m] calls. *)
Definition monitor_inv (p : Z) (m : nat) (es : EarlyStopping) : Prop :=
  es_patience es = p /\
  0 <= es_counter es /\
  (m = 0%nat -> es_best es = None /\ es_counter es = 0) /\
  ((0 < m)%nat -> es_best es <> None /\ es_counter es <= Z.of_nat m - 1) /\
  (early_stop es = true -> p <= Z.of_nat m - 1).

(** [e] is an emulator that [__init__] built from these arguments, at
    any later time: the constructor's attributes are as it left them. *)
Definition built_from (X y : ndarray) (dev : Device) (ln sd : bool)
    (e : GPEmul) : Prop :=
  frozen e = frozen (GPEmul_init X y dev ln sd).

(** The shapes torch and gpytorch guarantee: a predictive distribution
    has one component per row of the input, [n] draws of it are [n]
    vectors of that size, and an empty sample shape is refused. *)
Class TorchShapes : Prop := {
  predictive_size : forall dev s Xt yt X g d g',
    predictive dev s Xt yt X g = (Ok d, g') -> length (mvn_mean d) = shape0 X;
  mvn_sample_rows : forall n d g rows g',
    mvn_sample n d g = (Ok rows, g') -> length rows = n;
  mvn_sample_cols : forall n d g rows g',
    mvn_sample n d g = (Ok rows, g') ->
    Forall (fun row => length row = length (mvn_mean d)) rows;
  mvn_sample_empty : forall d g,
    fst (mvn_sample 0 d g) = Raise RuntimeError
}.

(** torch's contract for a parameter that takes no gradient and for a
    buffer: [backward] gives it no gradient, and [optimizer.step()]
    leaves it as it is. *)
Class TorchLaws : Prop := {
  step_keeps_frozen_noise : forall dev opt s X y g opt' s' g',
    backward_step dev false opt s X y g = (Ok (opt', s'), g') ->
    raw_noise s' = raw_noise s;
  step_keeps_bound : forall dev grad opt s X y g opt' s' g',
    backward_step dev grad opt s X y g = (Ok (opt', s'), g') ->
    noise_lower_bound s' = noise_lower_bound s
}.

(** The Scaler maps an array to one with as many rows. *)
Class ScalerShapes : Prop := {
  transform_rows : forall sc X, shape0 (transform sc X) = shape0 X
}.

(** What line 242 computes from one drawn vector. *)
Definition unscaled (sy : Scaler) (row : list float) : list float :=
  map to_float32
      (flat (ravel (inverse_transform sy (reshape_col (Arr1 row))))).

(** What a row of [ncols] entries holds after [v] was assigned to it:
    [v] itself, or its one element repeated. *)
Definition broadcast (ncols : nat) (v : list float) : list float :=
  if decide (length v = ncols) then v
  else match v with
       | [x] => repeat x ncols
       | _ => v
       end.


(** The per-epoch lists of a restart with validation have one entry per
    epoch each. *)
Definition aligned (e : GPEmul) : Prop :=
  with_val e = true ->
  length (val_loss_list e) = length (train_loss_list e) /\
  length (metric_score_list e) = length (train_loss_list e).


(** What [predict] and [sample] read of the object: the scalers, the
    training tensors, the device and the state of the model. *)
Definition fitted (e : GPEmul) :=
  (scale_data e, scx e, scy e, X_train e, y_train e, device e, model e).


(** The first of the files [load_emulator] reads, in the order in which
    it reads them, is not there. *)
Definition missing_file (outpath bestsplit : string) (with_val0 : bool)
    (d : gmap string file) : Prop :=
  d !! (outpath +:+ bestsplit +:+ "_X_train.txt") = None \/
  exists X,
    d !! (outpath +:+ bestsplit +:+ "_X_train.txt") = Some (TxtFile X) /\
    (d !! (outpath +:+ bestsplit +:+ "_y_train.txt") = None \/
     exists y,
       d !! (outpath +:+ bestsplit +:+ "_y_train.txt") = Some (TxtFile y) /\
       (d !! (outpath +:+ bestsplit +:+ "_gpe.pth") = None \/
        exists st,
          d !! (outpath +:+ bestsplit +:+ "_gpe.pth") = Some (PthFile st) /\
          with_val0 = true /\
          (d !! (outpath +:+ bestsplit +:+ "_X_val.txt") = None \/
           exists Xv,
             d !! (outpath +:+ bestsplit +:+ "_X_val.txt")
             = Some (TxtFile Xv) /\
             d !! (outpath +:+ bestsplit +:+ "_y_val.txt") = None))).


(** What only a run with validation data assigns. *)
Definition validation_state (e : GPEmul) :=
  (X_val e, y_val e, val_loss_list e, metric_score_list e, metric_score e).

(** The object is set for a run without validation, and what belongs to
    validation is [x]. *)
Definition without_validation
    (x : ndarray * ndarray * list float * list float * option float)
    (s : St) : Prop :=
  with_val (fst s) = false /\ validation_state (fst s) = x.

(** What the state holds of the noise: the raw value and the lower
    bound of its constraint. *)
Definition noise_state (s : state_dict) := (raw_noise s, noise_lower_bound s).

(** The raw noise takes no gradient, and the noise of the live model is
    [c]. *)
Definition noise_fixed (c : float * float) (s : St) : Prop :=
  raw_noise_requires_grad (fst s) = false /\
  noise_state (model (fst s)) = c.

(** Floats read without rounding: single precision loses nothing, the
    decimal literals are the numbers they name, and softplus and its
    inverse undo one another. *)
Class ExactArithmetic : Prop := {
  exact_float32 : forall x, to_float32 x = x;
  exact_lit_sub : forall p q, f_sub (f_lit p) (f_lit q) = f_lit (p - q);
  exact_lit_add : forall p q, f_add (f_lit p) (f_lit q) = f_lit (p + q);
  exact_lit_eq : forall p q, (p == q)%Q -> f_lit p = f_lit q;
  exact_lit_lt : forall p q, (p < q)%Q -> f_lt (f_lit p) (f_lit q) = true;
  exact_softplus : forall x,
    f_lt (f_lit 0) x = true -> softplus (inv_softplus x) = x
}.

(** Zero is a single-precision number. *)
Class RoundingLaws : Prop := {
  to_float32_zero : to_float32 (f_lit 0) = f_lit 0
}.

(** The saved state [st] has the sizes of a model of [n] input
    features, as [load_state_dict] requires of what it is given. *)
Definition fits (n : nat) (st : state_dict) : Prop :=
  length (weights st) = n /\ length (raw_lengthscale st) = n.

(** The generator as [predict] leaves it: the forward pass is not
    reached when the scaler of the inputs is missing. *)
Definition rng_after_predict (X_new : ndarray) (e : GPEmul) (g : Rng) : Rng :=
  if scale_data e
  then match scx e with
       | Some sx =>
           snd (predictive (device e) (model e) (X_train e) (y_train e)
                           (tensorize (transform sx X_new)) g)
       | None => g
       end
  else snd (predictive (device e) (model e) (X_train e) (y_train e)
                       (tensorize X_new) g).

End Vocabulary.

(** * Reasoning about methods *)

Section Logic.
Context {F : Float64} {T : Torch F} {U : Utils F}.

Lemma wp_run {A} (c : M A) Q s r s' :
  c s = (r, s') -> wp c Q s -> Q r s'.
Proof. unfold wp. intros ->. auto. Qed.

Lemma wp_intro {A} (c : M A) (Q : result A -> St -> Prop) s :
  (forall r s', c s = (r, s') -> Q r s') -> wp c Q s.
Proof. unfold wp. intros H. apply H. destruct (c s); reflexivity. Qed.

Lemma wp_mono {A} (c : M A) (Q Q' : result A -> St -> Prop) s :
  wp c Q s -> (forall r s', Q r s' -> Q' r s') -> wp c Q' s.
Proof. unfold wp. auto. Qed.

Lemma wp_ret {A} (a : A) Q s : Q (Ok a) s -> wp (ret a) Q s.
Proof. auto. Qed.

Lemma wp_raise {A} ex (Q : result A -> St -> Prop) s :
  Q (Raise ex) s -> wp (raise ex) Q s.
Proof. auto. Qed.

Lemma wp_lift {A} (r : result A) Q s : Q r s -> wp (lift r) Q s.
Proof. auto. Qed.

Lemma wp_self Q s : Q (Ok (fst s)) s -> wp self Q s.
Proof. auto. Qed.

Lemma wp_world Q s : Q (Ok (snd s)) s -> wp world Q s.
Proof. auto. Qed.

Lemma wp_assign f Q s : Q (Ok tt) (f (fst s), snd s) -> wp (assign f) Q s.
Proof. auto. Qed.

Lemma wp_effect f Q s : Q (Ok tt) (fst s, f (snd s)) -> wp (effect f) Q s.
Proof. auto. Qed.

Lemma wp_kernel {A} (f : Rng -> result A * Rng) Q s :
  Q (fst (f (rng (snd s))))
    (fst s, set_rng (snd (f (rng (snd s)))) (snd s)) ->
  wp (kernel f) Q s.
Proof. unfold wp, kernel. destruct (f (rng (snd s))); auto. Qed.

Lemma wp_bind {A B} (c : M A) (k : A -> M B) Q s :
  wp c (fun r s' => match r with
                    | Ok a => wp (k a) Q s'
                    | Raise ex => Q (Raise ex) s'
                    end) s ->
  wp (bind c k) Q s.
Proof.
  unfold wp, bind. destruct (c s) as [[a|ex] s']; simpl; auto.
Qed.

Lemma wp_try {A} (c : M A) Q s :
  wp c (fun r s' => Q (Ok r) s') s -> wp (try c) Q s.
Proof. unfold wp, try. destruct (c s); simpl; auto. Qed.

Lemma preserved_ret {A} I (a : A) : preserved I (ret a).
Proof. intros s H. exact H. Qed.

Lemma preserved_raise {A} I ex : preserved I (@raise _ _ _ A ex).
Proof. intros s H. exact H. Qed.

Lemma preserved_lift {A} I (r : result A) : preserved I (lift r).
Proof. intros s H. exact H. Qed.

Lemma preserved_self I : preserved I self.
Proof. intros s H. exact H. Qed.

Lemma preserved_world I : preserved I world.
Proof. intros s H. exact H. Qed.

Lemma preserved_bind {A B} I (c : M A) (k : A -> M B) :
  preserved I c -> (forall a, preserved I (k a)) -> preserved I (bind c k).
Proof.
  intros Hc Hk s H. apply wp_bind.
  eapply wp_mono; [apply Hc, H|].
  intros [a|ex] s' H'; [apply Hk, H' | exact H'].
Qed.

Lemma preserved_try {A} I (c : M A) : preserved I c -> preserved I (try c).
Proof. intros Hc s H. apply wp_try, Hc, H. Qed.

Lemma preserved_assign (I : St -> Prop) f :
  (forall e w, I (e, w) -> I (f e, w)) -> preserved I (assign f).
Proof. intros Hf [e w] H. apply Hf, H. Qed.

Lemma preserved_effect (I : St -> Prop) f :
  (forall e w, I (e, w) -> I (e, f w)) -> preserved I (effect f).
Proof. intros Hf [e w] H. apply Hf, H. Qed.

Lemma preserved_kernel {A} (I : St -> Prop) (f : Rng -> result A * Rng) :
  (forall e w g, I (e, w) -> I (e, set_rng g w)) -> preserved I (kernel f).
Proof. intros Hf [e w] H. apply wp_kernel, Hf, H. Qed.

Lemma preserved_getitem {A} I (l : list A) i : preserved I (getitem l i).
Proof.
  unfold getitem. destruct (l !! i); [apply preserved_ret | apply preserved_raise].
Qed.

Lemma preserved_attr {A} I (o : option A) : preserved I (attr o).
Proof.
  unfold attr. destruct o; [apply preserved_ret | apply preserved_raise].
Qed.

End Logic.

(** One step of a preservation proof: split a sequence, close a leaf,
    or branch on what the program branches on. *)
Ltac preserved_step :=
  match goal with
  | |- preserved _ (bind _ _) => apply preserved_bind; [| intros ?]
  | |- preserved _ (ret _) => apply preserved_ret
  | |- preserved _ (raise _) => apply preserved_raise
  | |- preserved _ (lift _) => apply preserved_lift
  | |- preserved _ self => apply preserved_self
  | |- preserved _ world => apply preserved_world
  | |- preserved _ (try _) => apply preserved_try
  | |- preserved _ (getitem _ _) => apply preserved_getitem
  | |- preserved _ (attr _) => apply preserved_attr
  | |- preserved _ (if ?b then _ else _) => destruct b
  | |- preserved _ (match ?x with _ => _ end) => destruct x
  | |- preserved _ (let (_, _) := ?x in _) => destruct x
  end.

(** * What a restart leaves alone *)

Section Stable.
Context {F : Float64} {T : Torch F} {U : Utils F}.
Context {X : Type} (g : GPEmul -> X) (Hg : run_stable g) (x : X).

Lemma stable_assign f :
  (forall e, g (f e) = g e) -> preserved (view_is g x) (assign f).
Proof.
  intros Hf. apply preserved_assign. unfold view_is, on_self. simpl.
  intros e w <-. apply Hf.
Qed.

Lemma stable_effect f : preserved (view_is g x) (effect f).
Proof. apply preserved_effect. auto. Qed.

Lemma stable_kernel {A} (f : Rng -> result A * Rng) :
  preserved (view_is g x) (kernel f).
Proof. apply preserved_kernel. auto. Qed.

Ltac stable_step :=
  first [ preserved_step
        | apply stable_effect
        | apply stable_kernel
        | apply stable_assign; intros ?;
          first [ apply (rs_model g Hg) | apply (rs_training g Hg)
                | apply (rs_optimizer g Hg)
                | apply (rs_train_loss_list g Hg)
                | apply (rs_val_loss_list g Hg)
                | apply (rs_metric_score_list g Hg)
                | apply (rs_best_model g Hg) | apply (rs_idx_best g Hg)
                | apply (rs_metric_score g Hg) ] ].

Lemma print_stable ev : preserved (view_is g x) (print ev).
Proof. apply stable_effect. Qed.

Lemma torch_load_stable path : preserved (view_is g x) (torch_load path).
Proof. unfold torch_load. repeat stable_step. Qed.

Lemma train_step_stable : preserved (view_is g x) train_step.
Proof. unfold train_step. repeat stable_step. Qed.

Lemma val_step_stable : preserved (view_is g x) val_step.
Proof. unfold val_step. repeat stable_step. Qed.

Lemma EarlyStopping_call_stable es loss :
  preserved (view_is g x) (EarlyStopping_call es loss).
Proof. unfold EarlyStopping_call, torch_save. repeat stable_step. Qed.

Lemma reset_stable : preserved (view_is g x) reset.
Proof. unfold reset, load_state_dict, rand. repeat stable_step. Qed.

Lemma epoch_body_stable epoch es :
  preserved (view_is g x) (epoch_body epoch es).
Proof.
  unfold epoch_body.
  repeat first [ apply train_step_stable | apply val_step_stable
               | apply EarlyStopping_call_stable | apply print_stable
               | stable_step ].
Qed.

Lemma epoch_loop_stable n : forall epoch es,
  preserved (view_is g x) (epoch_loop n epoch es).
Proof.
  induction n as [|n IH]; intros epoch es; simpl.
  - apply preserved_ret.
  - repeat first [ apply epoch_body_stable | apply print_stable
                 | apply IH | stable_step ].
Qed.

Lemma finish_stable : preserved (view_is g x) finish.
Proof.
  unfold finish. repeat first [ apply torch_load_stable | stable_step ].
Qed.

Lemma run_epochs_stable : preserved (view_is g x) run_epochs.
Proof.
  unfold run_epochs.
  repeat first [ apply reset_stable | apply epoch_loop_stable | stable_step ].
Qed.

Lemma train_once_stable : preserved (view_is g x) train_once.
Proof.
  unfold train_once.
  repeat first [ apply run_epochs_stable | apply finish_stable | stable_step ].
Qed.

Lemma record_restart_stable acc : preserved (view_is g x) (record_restart acc).
Proof. unfold record_restart. repeat stable_step. Qed.

Lemma restart_loop_stable n fuel : forall i acc,
  preserved (view_is g x) (restart_loop n fuel i acc).
Proof.
  induction fuel as [|fuel IH]; intros i acc; simpl.
  - destruct (i <? n); apply preserved_ret.
  - destruct (i <? n); [|apply preserved_ret].
    repeat first [ apply print_stable | apply train_once_stable
                 | apply record_restart_stable | apply IH | stable_step ].
Qed.

Lemma select_best_stable acc : preserved (view_is g x) (select_best acc).
Proof. unfold select_best, load_state_dict. repeat stable_step. Qed.

Lemma predict_stable X_new : preserved (view_is g x) (predict X_new).
Proof. unfold predict. repeat stable_step. Qed.

Lemma sample_stable X_new n : preserved (view_is g x) (sample X_new n).
Proof. unfold sample. repeat stable_step. Qed.

End Stable.

Section StableViews.
Context {F : Float64} {T : Torch F} {U : Utils F}.

Lemma frozen_stable : run_stable frozen.
Proof. split; reflexivity. Qed.

Lemma config_stable : run_stable config.
Proof. split; reflexivity. Qed.

(** [train] as a whole reassigns its own arguments, and nothing of
    what the constructor assigned. *)
Lemma train_setup_frozen fz Xv yv n lr me pa sp wm :
  preserved (view_is frozen fz) (train_setup Xv yv n lr me pa sp wm).
Proof.
  unfold train_setup.
  repeat first [ preserved_step
               | apply stable_assign; intros ?; reflexivity ].
Qed.

Lemma train_frozen fz fuel Xv yv n lr me pa sp wm :
  preserved (view_is frozen fz) (train fuel Xv yv n lr me pa sp wm).
Proof.
  unfold train.
  repeat first [ apply train_setup_frozen
               | apply (restart_loop_stable frozen frozen_stable)
               | apply (select_best_stable frozen frozen_stable)
               | preserved_step ].
Qed.

End StableViews.

(** * np.argmin returns the first minimum *)

Section Argmin.
Context {F : Float64} {L : Float64Laws F}.

Lemma f_le_not_nan x y : f_le x y = true -> f_isnan x = false /\ f_isnan y = false.
Proof.
  intros H. split.
  - destruct (f_isnan x) eqn:E; [|reflexivity].
    rewrite (f_le_nan_l x y E) in H. discriminate.
  - destruct (f_isnan y) eqn:E; [|reflexivity].
    rewrite (f_le_nan_r x y E) in H. discriminate.
Qed.

Lemma f_le_flip x y :
  f_isnan x = false -> f_isnan y = false -> f_le x y = false -> f_le y x = true.
Proof.
  intros Hx Hy H. destruct (f_le_total x y Hx Hy) as [H'|H']; congruence.
Qed.

Lemma argmin_loop_first : forall r pre mp k,
  f_isnan mp = false ->
  pre !! k = Some mp ->
  (forall j y, pre !! j = Some y -> f_le mp y = true) ->
  (forall j y, (j < k)%nat -> pre !! j = Some y -> f_le y mp = false) ->
  first_argmin (pre ++ r) (argmin_loop mp k (length pre) r).
Proof.
  induction r as [|x r IH]; intros pre mp k Hmp Hk Hmin Hfirst; simpl.
  - rewrite app_nil_r. exists mp. split; [exact Hk|]. split.
    + intros j y Hj. unfold np_below. rewrite (Hmin j y Hj). apply orb_true_r.
    + intros j y Hlt Hj. unfold np_below.
      destruct (f_le_not_nan _ _ (Hmin j y Hj)) as [_ ->].
      simpl. eauto.
  - assert (Hsnoc : pre ++ x :: r = (pre ++ [x]) ++ r)
      by (rewrite <- app_assoc; reflexivity).
    assert (Hlen : S (length pre) = length (pre ++ [x]))
      by (rewrite length_app; simpl; lia).
    destruct (f_le mp x) eqn:Hle; simpl.
    + (* the minimum stays *)
      rewrite Hsnoc, Hlen. apply IH; auto.
      * apply lookup_app_l_Some. exact Hk.
      * intros j y Hj. apply lookup_app_Some in Hj as [Hj|[_ Hj]]; eauto.
        apply list_lookup_singleton_Some in Hj as [_ <-]. exact Hle.
      * intros j y Hlt Hj. apply lookup_app_Some in Hj as [Hj|[Hge _]]; eauto.
        apply lookup_lt_Some in Hk. lia.
    + destruct (f_isnan x) eqn:Hx.
      * (* a NaN ends the scan *)
        exists x. split; [apply list_lookup_middle; reflexivity|]. split.
        -- intros j y _. unfold np_below. rewrite Hx. reflexivity.
        -- intros j y Hlt Hj. rewrite lookup_app_l in Hj by exact Hlt.
           unfold np_below. rewrite (f_le_nan_r y x Hx).
           destruct (f_le_not_nan _ _ (Hmin j y Hj)) as [_ ->]. reflexivity.
      * (* a new minimum *)
        assert (Hxm : f_le x mp = true) by (apply f_le_flip; auto).
        rewrite Hsnoc, Hlen. apply IH; auto.
        -- apply list_lookup_middle. reflexivity.
        -- intros j y Hj. apply lookup_app_Some in Hj as [Hj|[_ Hj]].
           ++ apply (f_le_trans x mp y); eauto.
           ++ apply list_lookup_singleton_Some in Hj as [_ <-].
              destruct (f_le_total x x Hx Hx); assumption.
        -- intros j y Hlt Hj. rewrite lookup_app_l in Hj by exact Hlt.
           destruct (f_le y x) eqn:Hyx; [|reflexivity].
           rewrite (f_le_trans mp y x (Hmin j y Hj) Hyx) in Hle. discriminate.
Qed.

Lemma np_argmin_first l i : np_argmin l = Ok i -> first_argmin l i.
Proof.
  destruct l as [|x r]; simpl; [discriminate|].
  destruct (f_isnan x) eqn:Hx; intros [= <-].
  - exists x. split; [reflexivity|]. split.
    + intros j y _. unfold np_below. rewrite Hx. reflexivity.
    + intros j y Hlt. lia.
  - apply (argmin_loop_first r [x] x 0); auto.
    + intros j y Hj. apply list_lookup_singleton_Some in Hj as [_ <-].
      destruct (f_le_total x x Hx Hx); assumption.
    + intros j y Hlt. lia.
Qed.

(** [np.argmin] fails on the empty sequence only. *)
Lemma np_argmin_nonempty (l : list float) :
  l <> [] -> exists i, np_argmin l = Ok i.
Proof.
  destruct l as [|x r]; [congruence|]. intros _. simpl.
  destruct (f_isnan x); eauto.
Qed.

End Argmin.

(** * Runs of sequenced computations *)

Ltac wp_step :=
  lazymatch goal with
  | |- wp (bind _ _) _ _ => apply wp_bind
  | |- wp (ret _) _ _ => apply wp_ret
  | |- wp (raise _) _ _ => apply wp_raise
  | |- wp (lift _) _ _ => apply wp_lift
  | |- wp self _ _ => apply wp_self
  | |- wp world _ _ => apply wp_world
  | |- wp (assign _) _ _ => apply wp_assign
  | |- wp (effect _) _ _ => apply wp_effect
  | |- wp (kernel ?f) _ ?s =>
      apply wp_kernel; destruct (f (rng (snd s))) as [? ?] eqn:?
  | |- wp (print _) _ _ => apply wp_effect
  | |- wp (load_state_dict _) _ _ => apply wp_assign
  | |- wp (torch_save _ _) _ _ => apply wp_effect
  | |- wp (attr ?o) _ _ => unfold attr; destruct o eqn:?
  | |- wp (getitem ?l ?i) _ _ => unfold getitem; destruct (l !! i) eqn:?
  | |- wp (if ?b then _ else _) _ _ => destruct b eqn:?
  | |- wp (match ?x with _ => _ end) _ _ => destruct x eqn:?
  | |- match ?x with Ok _ => _ | Raise _ => _ end => destruct x eqn:?
  end; cbv beta iota; cbn [fst snd].

Section Runs.
Context {F : Float64} {T : Torch F} {U : Utils F}.

Lemma bind_Ok_inv {A B} (c : M A) (k : A -> M B) s b s' :
  bind c k s = (Ok b, s') ->
  exists a s1, c s = (Ok a, s1) /\ k a s1 = (Ok b, s').
Proof.
  unfold bind. destruct (c s) as [[a|ex] s1]; [eauto | discriminate].
Qed.

Lemma bind_Ok {A B} (c : M A) (k : A -> M B) s a s1 :
  c s = (Ok a, s1) -> bind c k s = k a s1.
Proof. unfold bind. intros ->. reflexivity. Qed.

Lemma bind_Raise {A B} (c : M A) (k : A -> M B) s ex s1 :
  c s = (Raise ex, s1) -> bind c k s = (Raise ex, s1).
Proof. unfold bind. intros ->. reflexivity. Qed.

Lemma preserved_run {A} (I : St -> Prop) (c : M A) s r s' :
  preserved I c -> I s -> c s = (r, s') -> I s'.
Proof. intros Hc Hs Hrun. exact (wp_run c _ s r s' Hrun (Hc s Hs)). Qed.

(** What the head of [train] leaves on the object. *)
Lemma train_setup_config Xv yv n lr me pa sp wm s s1 :
  train_setup Xv yv n lr me pa sp wm s = (Ok tt, s1) ->
  with_val (fst s1) = validation_supplied Xv yv /\
  metric (fst s1) = metrics_dict wm /\
  metric (fst s1) <> None /\
  n_restarts (fst s1) = n /\ learning_rate (fst s1) = lr /\
  max_epochs (fst s1) = me /\ patience (fst s1) = pa /\
  savepath (fst s1) = sp /\ snd s1 = snd s.
Proof.
  intros Hrun.
  refine (wp_run _ (fun r s1 => r = Ok tt -> _) _ _ _ Hrun _ eq_refl).
  unfold train_setup. destruct s as [e w].
  repeat wp_step; try discriminate; intros _; cbn;
    repeat split; congruence.
Qed.

End Runs.

(** * The end of a restart and the selection *)

Section Selection.
Context {F : Float64} {T : Torch F} {U : Utils F}.

Lemma finish_result s s1 :
  finish s = (Ok tt, s1) ->
  np_argmin (monitored (fst s1)) = Ok (idx_best (fst s1)) /\
  (exists bm, best_model (fst s1) = Some bm /\
              disk (snd s) !! savepath (fst s) = Some (PthFile bm)) /\
  train_loss_list (fst s1) = train_loss_list (fst s) /\
  val_loss_list (fst s1) = val_loss_list (fst s) /\
  metric_score_list (fst s1) = metric_score_list (fst s) /\
  with_val (fst s1) = with_val (fst s) /\
  model (fst s1) = model (fst s).
Proof.
  intros Hrun.
  refine (wp_run _ (fun r s1 => r = Ok tt -> _) _ _ _ Hrun _ eq_refl).
  unfold finish, torch_load. destruct s as [e w].
  repeat wp_step; try discriminate; intros _; cbn.
  repeat split; eauto.
Qed.

Lemma train_once_idx_best s s1 :
  train_once s = (Ok tt, s1) ->
  np_argmin (monitored (fst s1)) = Ok (idx_best (fst s1)) /\
  is_Some (best_model (fst s1)).
Proof.
  unfold train_once. intros Hrun.
  apply bind_Ok_inv in Hrun as (es & s2 & _ & Hrun).
  apply finish_result in Hrun as (Hidx & (bm & Hbm & _) & _).
  split; [exact Hidx | rewrite Hbm; eauto].
Qed.

(** What [record_restart] appends. *)
Lemma record_restart_result acc s acc' s' :
  record_restart acc s = (Ok acc', s') ->
  s' = s /\
  exists tl bm,
    train_loss_list (fst s) !! idx_best (fst s) = Some tl /\
    best_model (fst s) = Some bm /\
    c_train_loss acc' = c_train_loss acc ++ [tl] /\
    c_model_state acc' = c_model_state acc ++ [bm] /\
    if with_val (fst s)
    then exists vl ms,
        val_loss_list (fst s) !! idx_best (fst s) = Some vl /\
        metric_score_list (fst s) !! idx_best (fst s) = Some ms /\
        c_val_loss acc' = c_val_loss acc ++ [vl] /\
        c_metric_score acc' = c_metric_score acc ++ [ms]
    else c_val_loss acc' = c_val_loss acc /\
         c_metric_score acc' = c_metric_score acc.
Proof.
  intros Hrun.
  refine (wp_run _ (fun r s' => forall a, r = Ok a -> _ /\ _) _ _ _ Hrun _
                 acc' eq_refl).
  unfold record_restart. destruct s as [e w].
  repeat wp_step; try discriminate; intros a [= <-]; cbn;
    (split; [reflexivity|]); do 2 eexists;
    repeat match goal with H : with_val _ = _ |- _ => rewrite H end;
    repeat split; eauto 10.
Qed.

(** The selection made on the collected lists. *)
Lemma select_best_result {L : Float64Laws F} acc s s' :
  select_best acc s = (Ok tt, s') ->
  exists idx bm,
    first_argmin (selection_series (with_val (fst s)) acc) idx /\
    c_model_state acc !! idx = Some bm /\
    best_model (fst s') = Some bm /\
    model (fst s') = bm /\
    with_val (fst s') = with_val (fst s) /\
    (with_val (fst s) = true ->
     exists ms, c_metric_score acc !! idx = Some ms /\
                metric_score (fst s') = Some ms).
Proof.
  intros Hrun.
  refine (wp_run _ (fun r s' => r = Ok tt -> _) _ _ _ Hrun _ eq_refl).
  unfold select_best. destruct s as [e w].
  repeat wp_step; try discriminate; intros _; cbn;
    match goal with
    | H : np_argmin _ = Ok ?i |- _ =>
        exists i; eexists; apply np_argmin_first in H
    end;
    repeat match goal with H : with_val _ = _ |- _ => rewrite H end;
    unfold selection_series; repeat split; eauto; discriminate.
Qed.

End Selection.

(** * The restart loop *)

Section RestartLoop.
Context {F : Float64} {T : Torch F} {U : Utils F}.

Lemma with_val_stable : run_stable with_val.
Proof. split; reflexivity. Qed.

(** One pass through the body of the [while]. *)
Lemma restart_loop_step n fuel i acc s :
  (i <? n) = true ->
  restart_loop n (S fuel) i acc s =
  match train_once (printed (PrintRestart (i + 1)) s) with
  | (Ok _, s1) =>
      match record_restart acc s1 with
      | (Ok acc', s2) => restart_loop n fuel (i + 1) acc' s2
      | (Raise ex, s2) => (Raise ex, s2)
      end
  | (Raise RuntimeError, s1) =>
      restart_loop n fuel i acc (printed (PrintRepeat (i + 1)) s1)
  | (Raise ex, s1) => (Raise ex, s1)
  end.
Proof.
  intros Hlt. simpl. rewrite Hlt.
  unfold bind at 1. unfold print at 1, effect at 1. cbn [fst snd].
  unfold bind at 1, try at 1, printed.
  destruct (train_once _) as [[[]|ex] s1]; [|destruct ex]; reflexivity.
Qed.

Lemma restart_loop_done n fuel i acc s :
  (i <? n) = false -> restart_loop n fuel i acc s = (Ok (Some acc), s).
Proof. intros Hge. destruct fuel; simpl; rewrite Hge; reflexivity. Qed.

Lemma restart_loop_no_fuel n i acc s :
  (i <? n) = true -> restart_loop n 0 i acc s = (Ok None, s).
Proof. intros Hlt. simpl. rewrite Hlt. reflexivity. Qed.

(** More fuel does not change a run that came to an end. *)
Lemma restart_loop_fuel_mono n fuel : forall i acc s r s',
  restart_loop n fuel i acc s = (r, s') -> r <> Ok None ->
  forall fuel', (fuel <= fuel')%nat -> restart_loop n fuel' i acc s = (r, s').
Proof.
  induction fuel as [|fuel IH]; intros i acc s r s' Hrun Hr fuel' Hle.
  - destruct (i <? n) eqn:Hlt.
    + rewrite restart_loop_no_fuel in Hrun by exact Hlt. congruence.
    + rewrite restart_loop_done in * by exact Hlt. exact Hrun.
  - destruct (i <? n) eqn:Hlt.
    + destruct fuel' as [|fuel']; [lia|].
      rewrite restart_loop_step in * by exact Hlt.
      destruct (train_once _) as [[[]|ex] s1].
      * destruct (record_restart acc s1) as [[acc'|ex] s2]; [|exact Hrun].
        apply IH; [exact Hrun | exact Hr | lia].
      * destruct ex; try exact Hrun. apply IH; [exact Hrun | exact Hr | lia].
    + rewrite restart_loop_done in * by exact Hlt. exact Hrun.
Qed.

(** What the loop has collected when it ends. *)
Lemma restart_loop_collects n b fuel : forall i acc s acc' s',
  with_val (fst s) = b ->
  restart_loop n fuel i acc s = (Ok (Some acc'), s') ->
  with_val (fst s') = b /\
  length (c_train_loss acc') = (length (c_train_loss acc) + Z.to_nat (n - i))%nat /\
  length (c_model_state acc') = (length (c_model_state acc) + Z.to_nat (n - i))%nat /\
  (if b
   then length (c_val_loss acc') = (length (c_val_loss acc) + Z.to_nat (n - i))%nat /\
        length (c_metric_score acc') = (length (c_metric_score acc) + Z.to_nat (n - i))%nat
   else c_val_loss acc' = c_val_loss acc /\
        c_metric_score acc' = c_metric_score acc).
Proof.
  induction fuel as [|fuel IH]; intros i acc s acc' s' Hb Hrun.
  - destruct (i <? n) eqn:Hlt.
    + rewrite restart_loop_no_fuel in Hrun by exact Hlt. discriminate.
    + rewrite restart_loop_done in Hrun by exact Hlt.
      injection Hrun as <- <-. apply Z.ltb_ge in Hlt.
      replace (Z.to_nat (n - i)) with 0%nat by lia. rewrite !Nat.add_0_r.
      repeat split; auto. destruct b; auto.
  - destruct (i <? n) eqn:Hlt.
    2:{ rewrite restart_loop_done in Hrun by exact Hlt.
        injection Hrun as <- <-. apply Z.ltb_ge in Hlt.
        replace (Z.to_nat (n - i)) with 0%nat by lia. rewrite !Nat.add_0_r.
        repeat split; auto. destruct b; auto. }
    rewrite restart_loop_step in Hrun by exact Hlt.
    destruct (train_once _) as [[[]|ex] s1] eqn:Honce.
    + assert (Hb1 : with_val (fst s1) = b).
      { eapply (preserved_run _ _ _ _ _
                  (train_once_stable with_val with_val_stable b)); [|exact Honce].
        exact Hb. }
      destruct (record_restart acc s1) as [[acc1|ex] s2] eqn:Hrec;
        [|discriminate].
      destruct (record_restart_result _ _ _ _ Hrec)
        as (-> & tl & bm & Htl & Hbm & Hctl & Hcbm & Hval).
      destruct (IH _ _ _ _ _ Hb1 Hrun) as (Hb' & Hl1 & Hl2 & Hl3).
      apply Z.ltb_lt in Hlt.
      replace (Z.to_nat (n - i)) with (S (Z.to_nat (n - (i + 1)))) by lia.
      rewrite Hctl, Hcbm, !length_app in *. cbn [length] in *.
      rewrite Hb1 in Hval.
      split; [exact Hb'|]. split; [lia|]. split; [lia|].
      destruct b.
      * destruct Hval as (vl & ms & Hvl & Hms & Hcvl & Hcms).
        rewrite Hcvl, Hcms, !length_app in *. cbn [length] in *. lia.
      * destruct Hval as [Hcvl Hcms]. rewrite Hcvl, Hcms in *. exact Hl3.
    + destruct ex; try discriminate.
      assert (Hb1 : with_val (fst s1) = b).
      { eapply (preserved_run _ _ _ _ _
                  (train_once_stable with_val with_val_stable b)); [|exact Honce].
        exact Hb. }
      apply (IH _ _ (printed _ s1) _ _ Hb1 Hrun).
Qed.

(** The loop files, restart by restart and in their order, the best
    losses, the snapshot and the score of the restarts that ran to
    their end. *)
Lemma restart_loop_trace {L : Float64Laws F} n b fuel :
  forall i acc s acc' s',
  with_val (fst s) = b ->
  restart_loop n fuel i acc s = (Ok (Some acc'), s') ->
  exists runs,
    completed_restarts n i s runs s' /\
    Forall (fun r => with_val (fst r) = b /\
                     first_argmin (monitored (fst r)) (idx_best (fst r)))
           runs /\
    map Some (c_train_loss acc') =
      map Some (c_train_loss acc) ++
      map (fun r => train_loss_list (fst r) !! idx_best (fst r)) runs /\
    map Some (c_model_state acc') =
      map Some (c_model_state acc) ++ map (fun r => best_model (fst r)) runs /\
    if b
    then map Some (c_val_loss acc') =
           map Some (c_val_loss acc) ++
           map (fun r => val_loss_list (fst r) !! idx_best (fst r)) runs /\
         map Some (c_metric_score acc') =
           map Some (c_metric_score acc) ++
           map (fun r => metric_score_list (fst r) !! idx_best (fst r)) runs
    else c_val_loss acc' = c_val_loss acc /\
         c_metric_score acc' = c_metric_score acc.
Proof.
  induction fuel as [|fuel IH]; intros i acc s acc' s' Hb Hrun.
  - destruct (i <? n) eqn:Hlt.
    + rewrite restart_loop_no_fuel in Hrun by exact Hlt. discriminate.
    + rewrite restart_loop_done in Hrun by exact Hlt.
      injection Hrun as <- <-. apply Z.ltb_ge in Hlt.
      exists []. split; [constructor; exact Hlt|]. split; [constructor|].
      cbn [map]. rewrite !app_nil_r. destruct b; auto.
  - destruct (i <? n) eqn:Hlt.
    2:{ rewrite restart_loop_done in Hrun by exact Hlt.
        injection Hrun as <- <-. apply Z.ltb_ge in Hlt.
        exists []. split; [constructor; exact Hlt|]. split; [constructor|].
        cbn [map]. rewrite !app_nil_r. destruct b; auto. }
    rewrite restart_loop_step in Hrun by exact Hlt.
    destruct (train_once _) as [[[]|ex] s1] eqn:Honce.
    + assert (Hb1 : with_val (fst s1) = b).
      { eapply (preserved_run _ _ _ _ _
                  (train_once_stable with_val with_val_stable b)); [|exact Honce].
        exact Hb. }
      destruct (record_restart acc s1) as [[acc1|ex] s2] eqn:Hrec;
        [|discriminate].
      destruct (record_restart_result _ _ _ _ Hrec)
        as (-> & tl & bm & Htl & Hbm & Hctl & Hcbm & Hval).
      destruct (IH _ _ _ _ _ Hb1 Hrun)
        as (runs & Htrace & Hbest & Htls & Hbms & Hvals).
      destruct (train_once_idx_best _ _ Honce) as [Hidx _].
      apply np_argmin_first in Hidx.
      apply Z.ltb_lt in Hlt.
      exists (s1 :: runs).
      split; [exact (restarts_completed n i s s1 runs s' Hlt Honce Htrace)|].
      split; [constructor; [split; [exact Hb1 | exact Hidx] | exact Hbest]|].
      rewrite Hctl, Hcbm, !map_app, <- !app_assoc in *.
      cbn [map app] in *. rewrite Htl, Hbm.
      split; [exact Htls|]. split; [exact Hbms|].
      rewrite Hb1 in Hval. destruct b.
      * destruct Hval as (vl & ms & Hvl & Hms & Hcvl & Hcms).
        rewrite Hcvl, Hcms, !map_app, <- !app_assoc in Hvals.
        cbn [map app] in Hvals. rewrite Hvl, Hms. exact Hvals.
      * destruct Hval as [Hcvl Hcms]. rewrite Hcvl, Hcms in Hvals.
        exact Hvals.
    + destruct ex; try discriminate.
      assert (Hb1 : with_val (fst s1) = b).
      { eapply (preserved_run _ _ _ _ _
                  (train_once_stable with_val with_val_stable b)); [|exact Honce].
        exact Hb. }
      destruct (IH _ _ (printed (PrintRepeat (i + 1)) s1) _ _ Hb1 Hrun)
        as (runs & Htrace & Hrest).
      apply Z.ltb_lt in Hlt.
      exists runs.
      split; [exact (restarts_repeated n i s s1 runs s' Hlt Honce Htrace)|].
      exact Hrest.
Qed.

End RestartLoop.

(** * The executable backend obeys the laws *)

Lemma QLaws : Float64Laws Toy.QFloat.
Proof.
  split.
  - intros [a|] [b|]; simpl; congruence.
  - intros [a|] [b|]; simpl; congruence.
  - intros [a|] [b|]; simpl; try congruence. intros _ _.
    destruct (Qlt_le_dec a b) as [H|H].
    + left. apply Qle_bool_iff, Qlt_le_weak, H.
    + right. apply Qle_bool_iff, H.
  - intros [a|] [b|] [c|]; simpl; try congruence.
    rewrite !Qle_bool_iff. apply Qle_trans.
Qed.

(** * Selection of the final model *)

Lemma lookup_map {A B} (f : A -> B) (l : list A) i :
  map f l !! i = option_map f (l !! i).
Proof.
  revert i. induction l as [|a l IH]; intros [|i]; simpl; auto.
Qed.

Section TrainSelection.
Context {F : Float64} {T : Torch F} {U : Utils F} {L : Float64Laws F}.

(** The entries of a list of options that are all there. *)
Lemma map_Some_lookup {A B} (f : A -> option B) (l : list B) (runs : list A)
    i x :
  map Some l = map f runs ->
  l !! i = Some x ->
  exists r, runs !! i = Some r /\ f r = Some x.
Proof.
  intros Heq Hl.
  assert (Hi : map f runs !! i = Some (Some x))
    by (rewrite <- Heq, lookup_map, Hl; reflexivity).
  rewrite lookup_map in Hi.
  destruct (runs !! i) as [r|]; [|discriminate].
  exists r. split; [reflexivity|]. injection Hi as Hi. exact Hi.
Qed.

Lemma map_Some_Forall2 {A B} (f : A -> option B) : forall l runs,
  map Some l = map f runs ->
  Forall2 (fun r v => f r = Some v) runs l.
Proof.
  induction l as [|v l IH]; intros [|r runs] Heq; try discriminate.
  - constructor.
  - injection Heq as Hv Heq. constructor; [congruence | exact (IH _ Heq)].
Qed.

(** C1.  A training run that completes has gone through restarts that
    ran to their end, [runs] in their order, each with its best loss:
    the validation loss at its best epoch when validation data was
    supplied, else the training loss.  The final model is selected by
    argmin over these losses, the first minimum winning a tie.  The
    snapshot of the restart selected, the one at the index of the
    minimum, is kept as [best_model] and loaded as the live state of
    the model, and with validation the metric score that this same
    restart had at its best epoch is retained. *)
Theorem train_selects_argmin fuel Xv yv n lr me pa sp wm s s' :
  train fuel Xv yv n lr me pa sp wm s = (Ok (Some tt), s') ->
  let validated := validation_supplied Xv yv in
  exists s1 s2 runs losses idx r,
    train_setup Xv yv n lr me pa sp wm s = (Ok tt, s1) /\
    completed_restarts n 0 s1 runs s2 /\
    length runs = Z.to_nat n /\
    Forall2 (restart_best validated) runs losses /\
    first_argmin losses idx /\
    runs !! idx = Some r /\
    best_model (fst r) = Some (model (fst s')) /\
    best_model (fst s') = Some (model (fst s')) /\
    with_val (fst s') = validated /\
    (validated = true ->
     is_Some (metric_score (fst s')) /\
     metric_score (fst s') = metric_score_list (fst r) !! idx_best (fst r)).
Proof.
  intros Hrun validated. unfold train in Hrun.
  apply bind_Ok_inv in Hrun as ([] & s1 & Hsetup & Hrun).
  apply bind_Ok_inv in Hrun as (res & s2 & Hloop & Hrun).
  destruct res as [acc|]; [|discriminate].
  apply bind_Ok_inv in Hrun as ([] & s3 & Hsel & Hret).
  injection Hret as <-.
  destruct (train_setup_config _ _ _ _ _ _ _ _ _ _ Hsetup) as (Hval & _).
  fold validated in Hval.
  destruct (restart_loop_collects _ _ _ _ _ _ _ _ Hval Hloop)
    as (Hval2 & Hlen & _).
  destruct (restart_loop_trace _ _ _ _ _ _ _ _ Hval Hloop)
    as (runs & Htrace & Hbest & Htls & Hbms & Hvals).
  destruct (select_best_result _ _ _ Hsel)
    as (idx & bm & Hmin & Hbm & Hkept & Hlive & Hval3 & Hms).
  rewrite Hval2 in *. cbn [no_restart c_train_loss c_model_state
                           c_val_loss c_metric_score map app] in *.
  destruct (map_Some_lookup _ _ _ _ _ Hbms Hbm) as (r & Hr & Hrbm).
  assert (Hruns : length runs = Z.to_nat n).
  { apply (f_equal (@length _)) in Htls. rewrite !length_map in Htls.
    cbn in Hlen. replace (n - 0) with n in Hlen by lia.
    exact (eq_trans (eq_sym Htls) Hlen). }
  assert (Hlosses : Forall2 (restart_best validated) runs
                            (selection_series validated acc)).
  { unfold selection_series, restart_best.
    assert (Hall : forall l,
              map Some l =
              map (fun r => (if validated then val_loss_list (fst r)
                             else train_loss_list (fst r))
                            !! idx_best (fst r)) runs ->
              Forall2 (fun r v =>
                         with_val (fst r) = validated /\
                         first_argmin (if validated then val_loss_list (fst r)
                                       else train_loss_list (fst r))
                                      (idx_best (fst r)) /\
                         (if validated then val_loss_list (fst r)
                          else train_loss_list (fst r))
                         !! idx_best (fst r) = Some v) runs l).
    { intros l Hl. apply map_Some_Forall2 in Hl.
      clear - Hl Hbest. induction Hl as [|r0 v runs0 l0 Hv Hl IH].
      - constructor.
      - apply Forall_cons_1 in Hbest as [[Hwv Hfirst] Hbest].
        constructor; [|exact (IH Hbest)].
        unfold monitored in Hfirst. rewrite Hwv in Hfirst.
        split; [exact Hwv|]. split; [exact Hfirst | exact Hv]. }
    destruct validated.
    - destruct Hvals as [Hvls _]. exact (Hall _ Hvls).
    - exact (Hall _ Htls). }
  exists s1, s2, runs, (selection_series validated acc), idx, r.
  split; [exact Hsetup|]. split; [exact Htrace|]. split; [exact Hruns|].
  split; [exact Hlosses|]. split; [exact Hmin|]. split; [exact Hr|].
  split; [rewrite Hrbm, Hlive; reflexivity|].
  split; [rewrite Hkept, Hlive; reflexivity|].
  split; [exact Hval3|].
  intros Hv. destruct (Hms Hv) as (ms & Hcms & Hscore).
  split; [rewrite Hscore; eauto|].
  rewrite Hv in Hvals. destruct Hvals as [_ Hmss].
  destruct (map_Some_lookup _ _ _ _ _ Hmss Hcms) as (r' & Hr' & Hrms).
  rewrite Hr in Hr'. injection Hr' as <-. rewrite Hscore, Hrms. reflexivity.
Qed.

End TrainSelection.

Module TrainSelectionRun.
Import Toy.

(** Two restarts with validation data; the first attempt fails on the
    lengthscales it drew and is repeated.  The two restarts that run to
    their end reach the same validation loss, and the first is selected:
    its lengthscales, not those of the second, are the ones of the
    final model. *)
Abbreviation scaled_run :=
  (train 10 (Some X3) (Some y3) 2 rate 5 2 "ck.pth" "R2Score"
         (emul_scaled, world0)).

Lemma train_selects_argmin_witness :
  fst scaled_run = Ok (Some tt) /\
  exists s1 s2 runs losses idx r,
    train_setup (Some X3) (Some y3) 2 rate 5 2
                "ck.pth" "R2Score" (emul_scaled, world0) = (Ok tt, s1) /\
    completed_restarts 2 0 s1 runs s2 /\
    length runs = 2%nat /\
    Forall2 (restart_best true) runs losses /\
    first_argmin losses idx /\
    runs !! idx = Some r /\
    best_model (fst r) = Some (model (fst (snd scaled_run))) /\
    best_model (fst (snd scaled_run)) = Some (model (fst (snd scaled_run))) /\
    with_val (fst (snd scaled_run)) = true /\
    metric_score (fst (snd scaled_run))
    = metric_score_list (fst r) !! idx_best (fst r) /\
    raw_lengthscale (model (fst (snd scaled_run)))
    = [Some (81 # 20)%Q; Some (81 # 20)%Q].
Proof.
  assert (Hfst : fst scaled_run = Ok (Some tt)) by (vm_compute; reflexivity).
  assert (Hsel : raw_lengthscale (model (fst (snd scaled_run)))
                 = [Some (81 # 20)%Q; Some (81 # 20)%Q])
    by (vm_compute; reflexivity).
  split; [exact Hfst|].
  pose proof (surjective_pairing scaled_run) as Hrun.
  rewrite Hfst in Hrun.
  destruct (train_selects_argmin (F := QFloat) (T := QTorch) (U := QUtils)
              (L := QLaws) 10 (Some X3) (Some y3) 2 rate 5 2 "ck.pth"
              "R2Score" (emul_scaled, world0) (snd scaled_run) Hrun)
    as (s1 & s2 & runs & losses & idx & r & Hsetup & Htrace & Hlen & Hbest
        & Hmin & Hr & Hsnap & Hkept & Hwv & Hscore).
  exists s1, s2, runs, losses, idx, r.
  split; [exact Hsetup|]. split; [exact Htrace|]. split; [exact Hlen|].
  split; [exact Hbest|]. split; [exact Hmin|]. split; [exact Hr|].
  split; [exact Hsnap|]. split; [exact Hkept|]. split; [exact Hwv|].
  split; [exact (proj2 (Hscore eq_refl)) | exact Hsel].
Defined.

End TrainSelectionRun.

(** * Failed restarts are repeated *)

Section Retry.
Context {F : Float64} {T : Torch F} {U : Utils F}.


End Retry.

Module RetryRun.
Import Toy.

(** The plain emulator with the arguments of a training call on it: two
    restarts, five epochs, patience two.  The first draw of the
    generator makes the forward pass fail. *)
Abbreviation start :=
  (set_savepath "ck.pth"
     (set_patience 2
        (set_max_epochs 5
           (set_learning_rate rate
              (set_metric (Some R2Score) emul_plain)))),
   world0).

Abbreviation first_attempt := (train_once (printed (PrintRestart (0 + 1)) start)).

Abbreviation whole_loop := (restart_loop 2 10 0 no_restart start).

Abbreviation collected :=
  (match fst whole_loop with
   | Ok (Some acc) => acc
   | _ => no_restart
   end).


End RetryRun.

(** * The epoch loop *)

Section EpochLoop.
Context {F : Float64} {T : Torch F} {U : Utils F}.

Lemma lists_assign x f :
  (forall e, lists_view (f e) = lists_view e) ->
  preserved (view_is lists_view x) (assign f).
Proof.
  intros Hf. apply preserved_assign. unfold view_is, on_self. simpl.
  intros e w <-. apply Hf.
Qed.

Ltac lists_step :=
  first [ preserved_step
        | apply preserved_effect; intros ? ? ?; assumption
        | apply preserved_kernel; intros ? ? ? ?; assumption
        | apply lists_assign; intros ?; reflexivity ].

Lemma train_step_lists x : preserved (view_is lists_view x) train_step.
Proof. unfold train_step. repeat lists_step. Qed.

Lemma val_step_lists x : preserved (view_is lists_view x) val_step.
Proof. unfold val_step. repeat lists_step. Qed.

(** A call that keeps a view of the object. *)
Lemma wp_call {A X} (c : M A) (g : GPEmul -> X)
    (Q : result A -> St -> Prop) s :
  (forall x, preserved (view_is g x) c) ->
  (forall r s', g (fst s') = g (fst s) -> Q r s') ->
  wp c Q s.
Proof.
  intros Hc HQ. apply wp_intro. intros r s' Hrun. apply HQ.
  exact (preserved_run _ c s r s' (Hc (g (fst s))) eq_refl Hrun).
Qed.

(** One epoch appends one loss to the monitored series and hands that
    same loss to the monitor. *)
Lemma epoch_body_result epoch es s es1 s1 :
  epoch_body epoch es s = (Ok es1, s1) ->
  exists x,
    monitored (fst s1) = monitored (fst s) ++ [x] /\
    length (train_loss_list (fst s1)) = S (length (train_loss_list (fst s))) /\
    with_val (fst s1) = with_val (fst s) /\
    es1 = fst (EarlyStopping_observe es x).
Proof.
  intros Hrun.
  refine (wp_run _ (fun r s1 => forall es1, r = Ok es1 -> _) _ _ _ Hrun _
                 es1 eq_refl).
  clear. unfold epoch_body, EarlyStopping_call.
  apply wp_bind. apply (wp_call _ lists_view); [apply train_step_lists|].
  intros [tl|ex] [e2 w2] Hv2; [|discriminate]. cbn [fst snd] in Hv2.
  apply wp_bind, wp_self. cbn [fst snd].
  unfold lists_view in Hv2. injection Hv2 as Hwv Htl Hvl Hms.
  destruct (with_val e2) eqn:Hwv2.
  - apply wp_bind, wp_bind.
    apply (wp_call _ lists_view); [apply val_step_lists|].
    intros [[vl ms]|ex] [e3 w3] Hv3; [|discriminate]. cbn [fst snd] in Hv3.
    unfold lists_view in Hv3. injection Hv3 as Hwv3 Htl3 Hvl3 Hms3.
    repeat wp_step; intros ? [= <-]; cbn;
      exists vl; unfold monitored; cbn;
      rewrite <- Hwv, Hwv3, Hwv2, Hvl3, Htl3, Hvl, Htl, length_app; cbn;
      repeat split; auto; lia.
  - repeat wp_step; intros ? [= <-]; cbn;
      exists tl; unfold monitored; cbn;
      rewrite <- Hwv, Hwv2, Htl, length_app; cbn;
      repeat split; auto; lia.
Qed.

End EpochLoop.

(** * The monitor *)

Section Monitor.
Context {F : Float64}.

Lemma feed_snoc es l x :
  EarlyStopping_feed es (l ++ [x]) =
  fst (EarlyStopping_observe (EarlyStopping_feed es l) x).
Proof. unfold EarlyStopping_feed. rewrite fold_left_app. reflexivity. Qed.

Lemma monitor_inv_init p path : monitor_inv p 0 (EarlyStopping_init p path).
Proof.
  unfold monitor_inv, EarlyStopping_init. simpl.
  repeat split; try lia; discriminate.
Qed.

Lemma monitor_inv_observe p m es x :
  monitor_inv p m es -> monitor_inv p (S m) (fst (EarlyStopping_observe es x)).
Proof.
  intros (Hp & H0 & Hzero & Hpos & Hflag).
  unfold EarlyStopping_observe, monitor_inv.
  destruct (improves x (es_best es)) eqn:Himp; simpl.
  - repeat split; try lia; try discriminate.
    intros Hstop. specialize (Hflag Hstop). lia.
  - assert (Hm : (0 < m)%nat).
    { destruct m; [|lia]. destruct (Hzero eq_refl) as [Hbest _].
      rewrite Hbest in Himp. discriminate. }
    destruct (Hpos Hm) as [Hbest Hcnt].
    repeat split; try lia; auto.
    intros Hstop. apply orb_true_iff in Hstop as [Hstop|Hstop].
    + specialize (Hflag Hstop). lia.
    + apply Z.leb_le in Hstop. lia.
Qed.

Lemma monitor_inv_feed p es l :
  monitor_inv p 0 es -> monitor_inv p (length l) (EarlyStopping_feed es l).
Proof.
  intros Hinit. induction l as [|x l IH] using rev_ind; [exact Hinit|].
  rewrite feed_snoc, length_app. simpl.
  replace (length l + 1)%nat with (S (length l)) by lia.
  apply monitor_inv_observe, IH.
Qed.

(** A fresh monitor does not raise its flag within [patience] calls. *)
Lemma fresh_monitor_patient p path l :
  (length l <= Z.to_nat p)%nat ->
  early_stop (EarlyStopping_feed (EarlyStopping_init p path) l) = false.
Proof.
  intros Hlen.
  destruct (monitor_inv_feed p _ l (monitor_inv_init p path))
    as (_ & _ & _ & _ & Hflag).
  destruct l as [|x l]; [reflexivity|]. cbn [length] in *.
  destruct (early_stop _); [|reflexivity].
  specialize (Hflag eq_refl). lia.
Qed.

End Monitor.

(** * RESET and the epochs of a restart *)

Section RunEpochs.
Context {F : Float64} {T : Torch F} {U : Utils F}.

(** RESET fails on a learning rate that Adam refuses, and on that
    only. *)
Lemma reset_Ok_inv s es s1 :
  reset s = (Ok es, s1) -> f_le (f_lit 0) (learning_rate (fst s)) = true.
Proof.
  intros Hrun.
  refine (wp_run _ (fun r _ => forall es, r = Ok es -> _) _ _ _ Hrun _
                 es eq_refl).
  clear. unfold reset, rand, load_state_dict, Adam_new. destruct s as [e w].
  cbn [fst]. repeat wp_step; intros; try discriminate;
    (destruct (f_le (f_lit 0) (learning_rate e));
     [reflexivity | discriminate]).
Qed.

Lemma reset_invalid_lr s :
  f_le (f_lit 0) (learning_rate (fst s)) = false ->
  exists s1,
    reset s = (Raise ValueError, s1) /\
    config (fst s1) = config (fst s) /\
    disk (snd s1) = disk (snd s) /\ stdout (snd s1) = stdout (snd s).
Proof.
  intros Hlr. destruct (reset s) as [r s1] eqn:Hrun. exists s1.
  refine (wp_run _ (fun r s1 => (r, s1) = (Raise ValueError, s1) /\
                                config (fst s1) = config (fst s) /\
                                disk (snd s1) = disk (snd s) /\
                                stdout (snd s1) = stdout (snd s))
                 _ _ _ Hrun _).
  clear Hrun. unfold reset, rand, load_state_dict, Adam_new.
  destruct s as [e w]. cbn [fst] in Hlr.
  repeat wp_step;
    match goal with
    | H : (if f_le _ _ then _ else _) = _ |- _ =>
        rewrite Hlr in H; try discriminate; injection H as <-
    end;
    repeat split; reflexivity.
Qed.

(** Otherwise it succeeds, and this is what it leaves. *)
Lemma reset_result s :
  f_le (f_lit 0) (learning_rate (fst s)) = true ->
  exists es s1,
    reset s = (Ok es, s1) /\
    es = EarlyStopping_init (patience (fst s)) (savepath (fst s)) /\
    model (fst s1) =
      set_raw_lengthscale
        (map raw_lengthscale_of
             (fst (torch_rand (n_in_features (fst s)) (rng (snd s)))))
        (init_state (fst s)) /\
    optimizer (fst s1) = Some (Adam (learning_rate (fst s))) /\
    train_loss_list (fst s1) = [] /\
    monitored (fst s1) = [] /\
    config (fst s1) = config (fst s) /\
    frozen (fst s1) = frozen (fst s) /\
    rng (snd s1) = snd (torch_rand (n_in_features (fst s)) (rng (snd s))) /\
    disk (snd s1) = disk (snd s) /\
    stdout (snd s1) = stdout (snd s).
Proof.
  intros Hlr. destruct (reset s) as [r s1] eqn:Hrun.
  refine (wp_run _ (fun r s1 => exists es s1', (r, s1) = (Ok es, s1') /\ _)
                 _ _ _ Hrun _).
  clear Hrun. unfold reset, rand, load_state_dict, Adam_new.
  destruct s as [e w]. cbn [fst] in Hlr.
  repeat wp_step;
    match goal with
    | H : (if f_le _ _ then _ else _) = _ |- _ =>
        rewrite Hlr in H; try discriminate; injection H as <-
    end;
    (do 2 eexists; split; [reflexivity|]); cbn;
    repeat match goal with H : torch_rand _ _ = _ |- _ => rewrite H end;
    unfold monitored; cbn;
    repeat match goal with H : with_val _ = _ |- _ => rewrite H end;
    repeat split; reflexivity.
Qed.

(** The loop: what was fed, how long it ran, why it ended. *)
Lemma epoch_loop_result n : forall epoch es s es' s',
  epoch_loop n epoch es s = (Ok es', s') ->
  exists fed,
    monitored (fst s') = monitored (fst s) ++ fed /\
    length (train_loss_list (fst s')) =
      (length (train_loss_list (fst s)) + length fed)%nat /\
    with_val (fst s') = with_val (fst s) /\
    es' = EarlyStopping_feed es fed /\
    (length fed <= n)%nat /\
    (early_stop es' = true \/ length fed = n) /\
    (forall k, (0 < k < length fed)%nat ->
               early_stop (EarlyStopping_feed es (take k fed)) = false).
Proof.
  induction n as [|n IH]; intros epoch es s es' s' Hrun; simpl in Hrun.
  - injection Hrun as <- <-. exists []. rewrite app_nil_r. simpl.
    repeat split; auto. intros k Hk. lia.
  - apply bind_Ok_inv in Hrun as (es1 & s1 & Hbody & Hrun).
    destruct (epoch_body_result _ _ _ _ _ Hbody) as (x & Hmon & Hlen & Hwv & Hes1).
    destruct (early_stop es1) eqn:Hstop.
    + apply bind_Ok_inv in Hrun as ([] & s2 & Hprint & Hret).
      injection Hprint as <-. injection Hret as <- <-.
      exists [x]. cbn [fst snd length]. repeat split; auto; try lia.
    + destruct (IH _ _ _ _ _ Hrun)
        as (fed & Hmon' & Hlen' & Hwv' & Hes' & Hle & Hend & Hbefore).
      exists (x :: fed). cbn [length].
      split; [rewrite Hmon', Hmon, <- app_assoc; reflexivity|].
      split; [lia|]. split; [congruence|].
      split; [rewrite Hes', Hes1; reflexivity|].
      split; [lia|]. split; [destruct Hend; [left; assumption | right; lia]|].
      intros k Hk. destruct k as [|k]; [lia|]. cbn [take].
      change (EarlyStopping_feed es (x :: take k fed))
        with (EarlyStopping_feed (fst (EarlyStopping_observe es x)) (take k fed)).
      rewrite <- Hes1. destruct k as [|k]; [exact Hstop|].
      apply Hbefore. lia.
Qed.

End RunEpochs.

(** * Early stopping within a restart *)

Section EarlyStoppingClaim.
Context {F : Float64} {T : Torch F} {U : Utils F}.

(** C4.  In a restart whose epochs run without an exception, the
    monitor is fed one loss per epoch, the validation loss when
    validation data is present and the training loss otherwise; the
    loop ends exactly when the monitor raises its flag or [max_epochs]
    epochs have run, not before; and with [patience = max_epochs] all
    [max_epochs] epochs run. *)
Theorem run_epochs_early_stopping s es' s' :
  run_epochs s = (Ok es', s') ->
  let e := fst s in
  let fresh := EarlyStopping_init (patience e) (savepath e) in
  let fed := if with_val e then val_loss_list (fst s')
             else train_loss_list (fst s') in
  with_val (fst s') = with_val e /\
  es' = EarlyStopping_feed fresh fed /\
  length (train_loss_list (fst s')) = length fed /\
  (length fed <= Z.to_nat (max_epochs e))%nat /\
  (early_stop es' = true \/ length fed = Z.to_nat (max_epochs e)) /\
  (forall k, (0 < k < length fed)%nat ->
             early_stop (EarlyStopping_feed fresh (take k fed)) = false) /\
  (patience e = max_epochs e -> length fed = Z.to_nat (max_epochs e)).
Proof.
  intros Hrun e fresh fed. unfold run_epochs in Hrun.
  apply bind_Ok_inv in Hrun as (es & s1 & Hreset & Hrun).
  apply bind_Ok_inv in Hrun as (e1 & s2 & Hself & Hrun).
  injection Hself as <- <-.
  destruct (reset_result s (reset_Ok_inv _ _ _ Hreset))
    as (es0 & s0 & Hreset' & Hes & _ & _ & Htl & Hmon & Hcfg & _).
  rewrite Hreset in Hreset'. injection Hreset' as <- <-.
  unfold config in Hcfg. injection Hcfg as Hwv _ _ _ _ _ _ Hme _ _.
  destruct (epoch_loop_result _ _ _ _ _ _ Hrun)
    as (fed' & Hmon' & Hlen & Hwv' & Hes' & Hle & Hend & Hbefore).
  rewrite Hmon in Hmon'. rewrite Htl in Hlen. cbn [app length Nat.add] in *.
  assert (Hfed : fed = fed').
  { subst fed. rewrite <- Hmon'. unfold monitored.
    rewrite Hwv', Hwv. reflexivity. }
  clearbody fed. subst fed' e fresh es fed. rewrite Hme in Hle, Hend.
  split; [congruence|]. split; [exact Hes'|]. split; [exact Hlen|].
  split; [exact Hle|]. split; [exact Hend|]. split; [exact Hbefore|].
  intros Hpat. destruct Hend as [Hstop|Hfull]; [|exact Hfull].
  rewrite Hes', Hpat in Hstop.
  rewrite fresh_monitor_patient in Hstop by exact Hle. discriminate.
Qed.

End EarlyStoppingClaim.

Module EarlyStoppingRun.
Import Toy.

(** The plain emulator set up for a restart of three epochs with
    patience three; the generator is past its failing first draw. *)
Abbreviation start :=
  (set_savepath "ck.pth"
     (set_patience 3
        (set_max_epochs 3
           (set_learning_rate rate
              (set_metric (Some R2Score) emul_plain)))),
   world1).

Abbreviation the_run := (run_epochs start).

Abbreviation monitor :=
  (match fst the_run with
   | Ok es => es
   | Raise _ => EarlyStopping_init 3 "ck.pth"
   end).

Lemma run_epochs_early_stopping_witness :
  with_val (fst (snd the_run)) = with_val (fst start) /\
  length (train_loss_list (fst (snd the_run))) = Z.to_nat 3.
Proof.
  assert (Hfst : fst the_run = Ok monitor) by (vm_compute; reflexivity).
  pose proof (eq_trans (surjective_pairing the_run)
                (f_equal (fun r => (r, snd the_run)) Hfst)) as Hrun.
  cbv beta in Hrun.
  destruct (run_epochs_early_stopping (F := QFloat) (T := QTorch) (U := QUtils) start monitor
              (snd the_run) Hrun)
    as (Hwv & _ & Hlen & _ & _ & _ & Hfull).
  split; [exact Hwv|].
  rewrite Hlen. exact (Hfull eq_refl).
Defined.

End EarlyStoppingRun.

(** * Prediction *)

Section Predict.
Context {F : Float64} {T : Torch F} {U : Utils F}.

Lemma built_from_scaling X y dev ln sd e :
  built_from X y dev ln sd e ->
  scale_data e = sd /\
  scx e = (if sd then Some (Scaler_fit X) else None) /\
  scy e = (if sd then Some (Scaler_fit (reshape_col y)) else None).
Proof.
  unfold built_from, frozen, GPEmul_init. cbn.
  intros [= -> -> -> _ _ _ _ _ _ _ _ _]. auto.
Qed.

Lemma built_from_device X y dev ln sd e :
  built_from X y dev ln sd e -> device e = dev.
Proof.
  unfold built_from, frozen, GPEmul_init. cbn.
  intros [= _ _ _ _ _ -> _ _ _ _ _ _]. reflexivity.
Qed.

(** C5.  On an emulator built by the constructor, [predict] scales the
    input with the Scaler fitted on the training inputs exactly when
    scaling is enabled, evaluates the predictive distribution on the
    emulator's device, takes its mean and the square root of its
    variance, maps the pair back with the joint inverse transform of
    the Scaler fitted on the training targets exactly when scaling is
    enabled, and returns the pair; it raises what the evaluation
    raises.  On the object it only clears the mode flag, and the
    generator is left where the evaluation left it. *)
Theorem predict_returns_mean_and_std X y dev ln sd e w X_new :
  built_from X y dev ln sd e ->
  let evaluation :=
    predictive dev (model e) (X_train e) (y_train e)
      (tensorize (if sd then transform (Scaler_fit X) X_new else X_new))
      (rng w) in
  predict X_new (e, w) =
  (match fst evaluation with
   | Ok d =>
       Ok (if sd
           then inverse_transform_predictions (Scaler_fit (reshape_col y))
                  (mvn_mean d) (map np_sqrt (mvn_variance d))
           else (mvn_mean d, map np_sqrt (mvn_variance d)))
   | Raise ex => Raise ex
   end,
   (set_training false e, set_rng (snd evaluation) w)).
Proof.
  intros Hbuilt evaluation. subst evaluation.
  destruct (built_from_scaling _ _ _ _ _ _ Hbuilt) as (Hsd & Hscx & Hscy).
  pose proof (built_from_device _ _ _ _ _ _ Hbuilt) as Hdev.
  unfold predict.
  rewrite (bind_Ok _ _ _ tt (set_training false e, w)) by reflexivity.
  rewrite (bind_Ok _ _ _ (set_training false e) (set_training false e, w))
    by reflexivity.
  change (scale_data (set_training false e)) with (scale_data e).
  change (scx (set_training false e)) with (scx e).
  change (scy (set_training false e)) with (scy e).
  change (model (set_training false e)) with (model e).
  change (X_train (set_training false e)) with (X_train e).
  change (y_train (set_training false e)) with (y_train e).
  change (device (set_training false e)) with (device e).
  rewrite Hsd, Hscx, Hscy, Hdev. unfold attr, kernel, bind, ret.
  destruct sd; cbn [fst snd];
    destruct (predictive _ _ _ _ _ _) as [[d|ex] g]; reflexivity.
Qed.

End Predict.

Module PredictRun.
Import Toy.

Abbreviation evaluation :=
  (predictive cpu (model emul_scaled) (X_train emul_scaled)
              (y_train emul_scaled)
              (tensorize (if true then transform (Scaler_fit X3) X3 else X3))
              (rng world1)).

Lemma predict_returns_mean_and_std_witness :
  predict X3 (emul_scaled, world1) =
  (match fst evaluation with
   | Ok d =>
       Ok (if true
           then inverse_transform_predictions (Scaler_fit (reshape_col y3))
                  (mvn_mean d) (map np_sqrt (mvn_variance d))
           else (mvn_mean d, map np_sqrt (mvn_variance d)))
   | Raise ex => Raise ex
   end,
   (set_training false emul_scaled, set_rng (snd evaluation) world1)).
Proof.
  exact (predict_returns_mean_and_std (F := QFloat) (T := QTorch)
           (U := QUtils) X3 y3 cpu false true emul_scaled world1 X3 eq_refl).
Defined.

End PredictRun.

(** * Sampling *)

Section Sample.
Context {F : Float64} {T : Torch F} {U : Utils F}.

Lemma tensorize_rows X : shape0 (tensorize X) = shape0 X.
Proof. destruct X; simpl; rewrite ?length_map; reflexivity. Qed.

Lemma setitem_row_result ncols i v rows rows' :
  setitem_row ncols i v rows = Ok rows' ->
  (i < length rows)%nat /\
  rows' = <[i := broadcast ncols v]> rows /\
  length (broadcast ncols v) = ncols.
Proof.
  unfold setitem_row, broadcast.
  destruct (decide (i < length rows)%nat) as [Hi|]; [|discriminate].
  destruct (decide (length v = ncols)) as [Hv|Hv].
  - intros [= <-]. auto.
  - destruct v as [|x [|? ?]]; try discriminate.
    intros [= <-]. rewrite repeat_length. auto.
Qed.

(** The loop over the rows [a, a + k). *)
Lemma unscale_rows_result sy ncols : forall k a rows rows',
  unscale_rows sy ncols (seq a k) rows = Ok rows' ->
  length rows' = length rows /\
  (forall i, (i < a \/ a + k <= i)%nat -> rows' !! i = rows !! i) /\
  (forall i row, (a <= i < a + k)%nat -> rows !! i = Some row ->
     rows' !! i = Some (broadcast ncols (unscaled sy row))) /\
  (forall i, (a <= i < a + k)%nat ->
     exists row', rows' !! i = Some row' /\ length row' = ncols).
Proof.
  induction k as [|k IH]; intros a rows rows' Hrun;
    cbn [unscale_rows seq] in Hrun.
  - injection Hrun as <-. repeat split; auto; intros; lia.
  - destruct (rows !! a) as [row|] eqn:Hrow; [|discriminate].
    change (map to_float32
                (flat (ravel (inverse_transform sy (reshape_col (Arr1 row))))))
      with (unscaled sy row) in Hrun.
    destruct (setitem_row ncols a (unscaled sy row) rows) as [rows1|ex] eqn:Hset;
      [|discriminate].
    destruct (setitem_row_result _ _ _ _ _ Hset) as (Ha & -> & Hlen).
    destruct (IH _ _ _ Hrun) as (Hl & Hout & Hin & Hsz).
    rewrite length_insert in Hl.
    assert (Hat : rows' !! a = Some (broadcast ncols (unscaled sy row))).
    { rewrite Hout by lia. apply list_lookup_insert_eq. exact Ha. }
    split; [exact Hl|]. split; [|split].
    + intros i Hi. rewrite Hout by lia. apply list_lookup_insert_ne. lia.
    + intros i row0 Hi Hrow0. destruct (decide (i = a)) as [->|Hne].
      * rewrite Hrow in Hrow0. injection Hrow0 as <-. exact Hat.
      * apply Hin; [lia|]. rewrite list_lookup_insert_ne by lia. exact Hrow0.
    + intros i Hi. destruct (decide (i = a)) as [->|Hne].
      * eauto.
      * apply Hsz. lia.
Qed.

(** A call of [sample] that returns has drawn from a predictive
    distribution. *)
Lemma sample_Ok_draws X_new n_draws s Y s' :
  sample X_new n_draws s = (Ok Y, s') ->
  exists d g draws g', mvn_sample n_draws d g = (Ok draws, g').
Proof.
  intros Hrun.
  refine (wp_run _ (fun r _ => forall Y, r = Ok Y ->
            exists d g draws g', mvn_sample n_draws d g = (Ok draws, g'))
          _ _ _ Hrun _ Y eq_refl).
  clear. unfold sample. repeat wp_step; intros; try discriminate; eauto.
Qed.

(** With an empty sample shape the draw is refused, and [sample] with
    it. *)
Lemma sample_no_draws {TS : TorchShapes} X_new s Y :
  fst (sample X_new 0 s) <> Ok Y.
Proof.
  destruct (sample X_new 0 s) as [r s'] eqn:Hrun. cbn [fst]. intros ->.
  destruct (sample_Ok_draws _ _ _ _ _ Hrun) as (d & g & draws & g' & Hdraw).
  pose proof (mvn_sample_empty d g) as Hempty.
  rewrite Hdraw in Hempty. discriminate.
Qed.

(** C6.  On an emulator built by the constructor, a call of [sample]
    that returns was asked for at least one draw, and returns an array
    of exactly [n_draws] rows, each as long as [X_new] has rows: the
    vectors drawn from the predictive distribution, as they are without
    scaling, and with scaling each mapped back, on its own, with the
    plain [inverse_transform] of the Scaler fitted on the training
    targets (and stored in single precision).  The object has its mode
    flag cleared and the generator is where the draw left it. *)
Theorem sample_returns_n_draws_unscaled
    {TS : TorchShapes} {SS : ScalerShapes}
    X y dev ln sd e w X_new n_draws Y s' :
  built_from X y dev ln sd e ->
  sample X_new n_draws (e, w) = (Ok Y, s') ->
  (0 < n_draws)%nat /\
  exists d g1 draws g2 rows,
    predictive dev (model e) (X_train e) (y_train e)
      (tensorize (if sd then transform (Scaler_fit X) X_new else X_new))
      (rng w) = (Ok d, g1) /\
    mvn_sample n_draws d g1 = (Ok draws, g2) /\
    s' = (set_training false e, set_rng g2 w) /\
    Y = Arr2 (shape0 X_new) rows /\
    length rows = n_draws /\
    Forall (fun row => length row = shape0 X_new) rows /\
    rows =
      if sd
      then map (fun drawn =>
                  broadcast (shape0 X_new)
                            (unscaled (Scaler_fit (reshape_col y)) drawn))
               draws
      else draws.
Proof.
  intros Hbuilt Hrun.
  assert (Hpos : (0 < n_draws)%nat).
  { destruct n_draws; [|lia].
    exfalso. apply (sample_no_draws X_new (e, w) Y). rewrite Hrun. reflexivity. }
  split; [exact Hpos|].
  destruct (built_from_scaling _ _ _ _ _ _ Hbuilt) as (Hsd & Hscx & Hscy).
  pose proof (built_from_device _ _ _ _ _ _ Hbuilt) as Hdev.
  unfold sample in Hrun.
  rewrite (bind_Ok _ _ _ tt (set_training false e, w)) in Hrun by reflexivity.
  rewrite (bind_Ok _ _ _ (set_training false e) (set_training false e, w))
    in Hrun by reflexivity.
  change (scale_data (set_training false e)) with (scale_data e) in Hrun.
  change (scx (set_training false e)) with (scx e) in Hrun.
  change (scy (set_training false e)) with (scy e) in Hrun.
  change (model (set_training false e)) with (model e) in Hrun.
  change (X_train (set_training false e)) with (X_train e) in Hrun.
  change (y_train (set_training false e)) with (y_train e) in Hrun.
  change (device (set_training false e)) with (device e) in Hrun.
  rewrite Hsd, Hscx, Hscy, Hdev in Hrun.
  set (X1 := if sd then transform (Scaler_fit X) X_new else X_new).
  assert (HX1 : shape0 (tensorize X1) = shape0 X_new).
  { rewrite tensorize_rows. subst X1.
    destruct sd; [apply transform_rows|reflexivity]. }
  assert (Hrun' :
    bind (kernel (predictive dev (model e) (X_train e) (y_train e)
                             (tensorize X1)))
      (fun predictions =>
         bind (kernel (mvn_sample n_draws predictions)) (fun y_samples =>
           if sd
           then bind (attr (Some (Scaler_fit (reshape_col y)))) (fun sy =>
                  bind (lift (unscale_rows sy (length (mvn_mean predictions))
                                (seq 0 n_draws) y_samples))
                       (fun rows =>
                          ret (Arr2 (length (mvn_mean predictions)) rows)))
           else ret (Arr2 (length (mvn_mean predictions)) y_samples)))
      (set_training false e, w) = (Ok Y, s')).
  { subst X1. destruct sd; exact Hrun. }
  clear Hrun.
  apply bind_Ok_inv in Hrun' as (d & s1 & Hpred & Hrun).
  unfold kernel in Hpred. cbn [fst snd] in Hpred.
  destruct (predictive dev (model e) (X_train e) (y_train e) (tensorize X1)
                       (rng w)) as [rd g1] eqn:Hcall.
  injection Hpred as -> <-.
  apply bind_Ok_inv in Hrun as (draws & s2 & Hdraw & Hrun).
  unfold kernel in Hdraw. cbn [fst snd rng set_rng] in Hdraw.
  destruct (mvn_sample n_draws d g1) as [rs g2] eqn:Hsample.
  injection Hdraw as -> <-.
  pose proof (predictive_size _ _ _ _ _ _ _ _ Hcall) as Hsize.
  rewrite HX1 in Hsize.
  pose proof (mvn_sample_rows _ _ _ _ _ Hsample) as Hrows.
  pose proof (mvn_sample_cols _ _ _ _ _ Hsample) as Hcols.
  rewrite Hsize in *.
  exists d, g1, draws, g2.
  destruct sd.
  - apply bind_Ok_inv in Hrun as (sy & s4 & Hsy & Hrun).
    injection Hsy as <- <-.
    apply bind_Ok_inv in Hrun as (rows & s5 & Hloop & Hret).
    unfold lift in Hloop. injection Hloop as Hloop <-.
    injection Hret as <- <-.
    destruct (unscale_rows_result _ _ _ _ _ _ Hloop) as (Hl & _ & Hin & Hsz).
    exists rows. split; [reflexivity|]. split; [exact Hsample|].
    split; [reflexivity|]. split; [reflexivity|].
    split; [congruence|]. split.
    + apply Forall_lookup_2. intros i row Hi.
      destruct (Hsz i) as (row' & Hrow' & Hlen').
      { apply lookup_lt_Some in Hi. lia. }
      congruence.
    + apply list_eq. intros i. rewrite lookup_map.
      destruct (draws !! i) as [drawn|] eqn:Hi; cbn [option_map].
      * apply Hin; [|exact Hi]. apply lookup_lt_Some in Hi. lia.
      * apply lookup_ge_None. apply lookup_ge_None in Hi. lia.
  - injection Hrun as <- <-.
    exists draws. split; [reflexivity|]. split; [exact Hsample|].
    split; [reflexivity|]. split; [reflexivity|].
    split; [exact Hrows|]. split; [exact Hcols|reflexivity].
Qed.

End Sample.

Lemma QTorchShapes : TorchShapes (T := Toy.QTorch).
Proof.
  split.
  - intros dev s Xt yt X g d g' [= <- _]. simpl. apply repeat_length.
  - intros [|n] d g rows g'; simpl; [discriminate|].
    intros [= <- _]. rewrite length_cons, repeat_length. reflexivity.
  - intros [|n] d g rows g'; simpl; [discriminate|].
    intros [= <- _]. apply Forall_forall. intros row Hrow.
    apply list_elem_of_In in Hrow.
    change (In row (repeat (fst d) (S n))) in Hrow.
    apply repeat_spec in Hrow. subst row. reflexivity.
  - reflexivity.
Qed.

Lemma QScalerShapes : ScalerShapes (U := Toy.QUtils).
Proof.
  split. intros sc [v|c rows]; simpl; rewrite length_map; reflexivity.
Qed.

Module SampleRun.
Import Toy.

Abbreviation the_run := (sample X3 2 (emul_scaled, world0)).

Abbreviation drawn_array :=
  (match fst the_run with
   | Ok Y => Y
   | Raise _ => Arr1 []
   end).

Lemma the_run_returns : the_run = (Ok drawn_array, snd the_run).
Proof.
  assert (Hok : match fst the_run with Ok _ => true | Raise _ => false end
                = true) by (vm_compute; reflexivity).
  destruct the_run as [[Y|ex] s]; [reflexivity | discriminate].
Qed.

Lemma sample_returns_n_draws_unscaled_witness :
  exists Y s',
    sample X3 2 (emul_scaled, world0) = (Ok Y, s') /\
    (0 < 2)%nat /\
    exists d g1 draws g2 rows,
      predictive cpu (model emul_scaled) (X_train emul_scaled)
        (y_train emul_scaled)
        (tensorize (if true then transform (Scaler_fit X3) X3 else X3))
        (rng world0) = (Ok d, g1) /\
      mvn_sample 2 d g1 = (Ok draws, g2) /\
      s' = (set_training false emul_scaled, set_rng g2 world0) /\
      Y = Arr2 (shape0 X3) rows /\
      length rows = 2%nat /\
      Forall (fun row => length row = shape0 X3) rows /\
      rows =
        if true
        then map (fun drawn =>
                    broadcast (shape0 X3)
                              (unscaled (Scaler_fit (reshape_col y3)) drawn))
                 draws
        else draws.
Proof.
  exists drawn_array, (snd the_run). split; [exact the_run_returns|].
  exact (sample_returns_n_draws_unscaled (F := QFloat) (T := QTorch)
           (U := QUtils) (TS := QTorchShapes) (SS := QScalerShapes)
           X3 y3 cpu false true emul_scaled world0 X3 2
           drawn_array (snd the_run) eq_refl the_run_returns).
Defined.

(** No draws: the call of [sample] the claim covers, and which raises. *)
Lemma sample_no_draws_counterexample :
  ~ exists Y s',
      sample X3 0 (emul_scaled, world0) = (Ok Y, s') /\
      exists rows, Y = Arr2 (shape0 X3) rows /\ length rows = 0%nat.
Proof.
  intros (Y & s' & Hrun & _).
  apply (sample_no_draws (F := QFloat) (T := QTorch) (U := QUtils)
           (TS := QTorchShapes) X3 (emul_scaled, world0) Y).
  rewrite Hrun. reflexivity.
Qed.

End SampleRun.


(** * The noise when it is not learnt *)

Section Views.
Context {F : Float64} {T : Torch F} {U : Utils F}.

Lemma frozen_noise_attrs e1 e :
  frozen e1 = frozen e ->
  raw_noise_requires_grad e1 = raw_noise_requires_grad e /\
  init_state e1 = init_state e.
Proof. unfold frozen. intros [= _ _ _ _ _ _ _ _ _ _ -> ->]. auto. Qed.

Lemma config_savepath e1 e :
  config e1 = config e ->
  savepath e1 = savepath e /\ with_val e1 = with_val e /\
  max_epochs e1 = max_epochs e /\ patience e1 = patience e.
Proof. unfold config. intros [= -> _ _ _ _ _ _ -> -> ->]. auto. Qed.

(** The state the selection loads is one of the collected snapshots. *)
Lemma select_best_model acc s s' :
  select_best acc s = (Ok tt, s') ->
  exists idx, c_model_state acc !! idx = Some (model (fst s')).
Proof.
  intros Hrun.
  refine (wp_run _ (fun r s' => r = Ok tt ->
            exists idx, c_model_state acc !! idx = Some (model (fst s')))
          _ _ _ Hrun _ eq_refl).
  clear. unfold select_best. destruct s as [e w].
  repeat wp_step; try discriminate; intros _; cbn; eauto.
Qed.

End Views.

Section Noise.
Context {F : Float64} {T : Torch F} {U : Utils F} {TL : TorchLaws}.
Context (c : float * float).

Ltac noise_keep :=
  first [ preserved_step
        | apply preserved_effect; intros ? ? H; exact H
        | apply preserved_kernel; intros ? ? ? H; exact H
        | apply preserved_assign; intros ? ? H; exact H ].

(** An optimizer step leaves a noise that takes no gradient where it
    is: this is where torch's contract enters. *)
Lemma train_step_noise_fixed : preserved (noise_fixed c) train_step.
Proof.
  intros [e w] [Hg Hn]. cbn [fst] in Hg, Hn. unfold train_step.
  repeat wp_step; (split; [exact Hg|]); try exact Hn.
  match goal with
  | H : backward_step _ _ _ _ _ _ _ = (Ok ?p, _) |- _ =>
      destruct p as [opt' s']; cbn in H; rewrite Hg in H;
      pose proof (step_keeps_frozen_noise _ _ _ _ _ _ _ _ _ H) as Hraw;
      pose proof (step_keeps_bound _ _ _ _ _ _ _ _ _ _ H) as Hbound
  end.
  cbn. unfold noise_state in *. rewrite Hraw, Hbound. exact Hn.
Qed.

Lemma val_step_noise_fixed : preserved (noise_fixed c) val_step.
Proof. unfold val_step. repeat noise_keep. Qed.

Lemma EarlyStopping_call_noise_fixed es loss :
  preserved (noise_fixed c) (EarlyStopping_call es loss).
Proof. unfold EarlyStopping_call, torch_save. repeat noise_keep. Qed.

Lemma epoch_body_noise_fixed epoch es :
  preserved (noise_fixed c) (epoch_body epoch es).
Proof.
  unfold epoch_body, print.
  repeat first [ apply train_step_noise_fixed | apply val_step_noise_fixed
               | apply EarlyStopping_call_noise_fixed | noise_keep ].
Qed.

Lemma epoch_loop_noise_fixed n : forall epoch es,
  preserved (noise_fixed c) (epoch_loop n epoch es).
Proof.
  induction n as [|n IH]; intros epoch es; simpl.
  - apply preserved_ret.
  - unfold print.
    repeat first [ apply epoch_body_noise_fixed | apply IH | noise_keep ].
Qed.

Lemma finish_noise_fixed : preserved (noise_fixed c) finish.
Proof. unfold finish, torch_load. repeat noise_keep. Qed.

(** RESET puts the noise of the initial state back. *)
Lemma reset_noise_fixed s :
  raw_noise_requires_grad (fst s) = false ->
  noise_state (init_state (fst s)) = c ->
  wp reset (fun _ s' => noise_fixed c s') s.
Proof.
  destruct s as [e w]. cbn [fst]. intros Hg Hn.
  unfold reset, rand, load_state_dict.
  repeat wp_step; (split; [exact Hg | exact Hn]).
Qed.

(** A whole restart, however it ends. *)
Lemma train_once_noise_fixed s :
  raw_noise_requires_grad (fst s) = false ->
  noise_state (init_state (fst s)) = c ->
  wp train_once (fun _ s' => noise_fixed c s') s.
Proof.
  intros Hg Hn. unfold train_once, run_epochs.
  apply wp_bind, wp_bind.
  apply (wp_mono _ (fun _ s' => noise_fixed c s'));
    [apply reset_noise_fixed; assumption|].
  intros [es|ex] s1 H1; [|exact H1].
  apply wp_bind, wp_self. cbn [fst snd].
  apply (wp_mono _ (fun _ s' => noise_fixed c s'));
    [apply epoch_loop_noise_fixed; exact H1|].
  intros [es'|ex] s2 H2; [|exact H2].
  apply finish_noise_fixed. exact H2.
Qed.

End Noise.

Section NoiseClaim.
Context {F : Float64} {T : Torch F} {U : Utils F} {TL : TorchLaws}.


End NoiseClaim.

Lemma QTorchLaws : TorchLaws (T := Toy.QTorch).
Proof.
  split.
  - intros dev opt s X y g opt' s' g' [= _ <- _]. reflexivity.
  - intros dev grad opt s X y g opt' s' g' [= _ <- _]. reflexivity.
Qed.

Lemma ZeroTorchLaws : TorchLaws (T := Real.ZeroTorch).
Proof. split; intros; discriminate. Qed.

(** The reals are floats without rounding. *)
Lemma RExact : ExactArithmetic (F := Real.RFloat).
Proof.
  split; simpl.
  - reflexivity.
  - intros p q. symmetry. apply Q2R_minus.
  - intros p q. symmetry. apply Q2R_plus.
  - intros p q. apply Qeq_eqR.
  - intros p q Hlt. apply Qlt_Rlt in Hlt. unfold f_lt. simpl.
    unfold Real.Rleb.
    destruct (Rle_dec (Q2R p) (Q2R q)) as [_|Hn]; [|lra].
    destruct (Rle_dec (Q2R q) (Q2R p)) as [Hn|_]; [lra|reflexivity].
  - intros x Hx. unfold f_lt in Hx. simpl in Hx. unfold Real.Rleb in Hx.
    assert (H0 : (0 < x)%R).
    { replace (Q2R 0) with 0%R in Hx by (unfold Q2R; simpl; lra).
      destruct (Rle_dec 0 x) as [H1|]; [|discriminate].
      destruct (Rle_dec x 0) as [|H2]; [discriminate|]. lra. }
    assert (H1 : (1 < exp x)%R).
    { rewrite <- exp_0. apply exp_increasing. exact H0. }
    rewrite exp_ln by lra.
    replace (1 + (exp x - 1))%R with (exp x) by lra. apply ln_exp.
Qed.

Module NoiseRun.
Import Toy.

(** An emulator set for a restart of three epochs. *)
Abbreviation ready :=
  (set_max_epochs 3 (set_learning_rate rate (set_patience 2
     (set_savepath "ck.pth" emul_plain)))).

Abbreviation one_restart := (train_once (ready, world1)).

Abbreviation one_step :=
  (train_step (set_optimizer (Some 0%nat) emul_plain, world0)).


End NoiseRun.

(** * The frozen initial state *)

Section InitialState.
Context {F : Float64} {T : Torch F} {U : Utils F} {RL : RoundingLaws}.

(** C8.  The initial state captured by the constructor has one zero
    weight per input feature, the bias 0 with scaling and, without,
    the mean of the training targets rounded to single precision, and
    the output-scale 1, kept as the raw value that the constraint maps
    to it; read without rounding the bias is the mean itself and the
    output-scale is 1.  It is the state of the model at that moment,
    and neither training nor prediction nor sampling assigns it
    again. *)
Theorem initial_state_captured_once X y dev ln sd :
  let e0 := GPEmul_init X y dev ln sd in
  let n := if (1 <? ndim X)%nat then shape1 X else 1%nat in
  (n_in_features e0 = n /\
   weights (init_state e0) = repeat (f_lit 0) n /\
   bias (init_state e0) =
     (if sd then f_lit 0 else to_float32 (np_mean (flat y))) /\
   raw_outputscale (init_state e0) = inv_softplus (f_lit 1) /\
   model e0 = init_state e0 /\
   (ExactArithmetic ->
    bias (init_state e0) = (if sd then f_lit 0 else np_mean (flat y)) /\
    outputscale (init_state e0) = f_lit 1)) /\
  (forall e w fuel Xv yv nr lr me pa sp wm,
     built_from X y dev ln sd e ->
     init_state (fst (snd (train fuel Xv yv nr lr me pa sp wm (e, w)))) =
     init_state e0) /\
  (forall e w X_new,
     built_from X y dev ln sd e ->
     init_state (fst (snd (predict X_new (e, w)))) = init_state e0) /\
  (forall e w X_new n_draws,
     built_from X y dev ln sd e ->
     init_state (fst (snd (sample X_new n_draws (e, w)))) = init_state e0).
Proof.
  intros e0 n. split; [|split; [|split]].
  - split; [reflexivity|]. split; [reflexivity|]. split.
    { subst e0. cbn. destruct sd; [apply to_float32_zero | reflexivity]. }
    split; [reflexivity|]. split; [reflexivity|].
    intros E. split.
    + subst e0. cbn. rewrite exact_float32. reflexivity.
    + subst e0. unfold outputscale. cbn. apply exact_softplus.
      apply exact_lit_lt. reflexivity.
  - intros e w fuel Xv yv nr lr me pa sp wm Hbuilt.
    pose proof (train_frozen (frozen e) fuel Xv yv nr lr me pa sp wm (e, w)
                  eq_refl) as Hfz.
    unfold wp, view_is, on_self in Hfz. rewrite Hbuilt in Hfz.
    exact (proj2 (frozen_noise_attrs _ _ Hfz)).
  - intros e w X_new Hbuilt.
    pose proof (predict_stable frozen frozen_stable (frozen e) X_new (e, w)
                  eq_refl) as Hfz.
    unfold wp, view_is, on_self in Hfz. rewrite Hbuilt in Hfz.
    exact (proj2 (frozen_noise_attrs _ _ Hfz)).
  - intros e w X_new n_draws Hbuilt.
    pose proof (sample_stable frozen frozen_stable (frozen e) X_new n_draws
                  (e, w) eq_refl) as Hfz.
    unfold wp, view_is, on_self in Hfz. rewrite Hbuilt in Hfz.
    exact (proj2 (frozen_noise_attrs _ _ Hfz)).
Qed.

End InitialState.

Lemma QRounding : RoundingLaws (F := Toy.QFloat).
Proof. split. reflexivity. Qed.

Lemma SRounding : RoundingLaws (F := Single.SFloat).
Proof. split. reflexivity. Qed.

Module InitialStateRun.
Import Toy.

Lemma initial_state_captured_once_witness :
  bias (init_state emul_plain) = to_float32 (np_mean (flat y3)) /\
  init_state (fst (snd (train 10 None None 2 rate 5 2 "ck.pth" "R2Score"
                              (emul_plain, world0)))) =
    init_state emul_plain /\
  init_state (fst (snd (predict X3 (emul_plain, world0)))) =
    init_state emul_plain /\
  init_state (fst (snd (sample X3 2 (emul_plain, world0)))) =
    init_state emul_plain.
Proof.
  destruct (initial_state_captured_once (F := QFloat) (T := QTorch)
              (U := QUtils) (RL := QRounding) X3 y3 cpu false false)
    as ((_ & _ & Hbias & _) & Htrain & Hpredict & Hsample).
  split; [exact Hbias|]. split; [|split].
  - exact (Htrain emul_plain world0 10%nat None None 2 rate 5 2
                  "ck.pth" "R2Score" eq_refl).
  - exact (Hpredict emul_plain world0 X3 eq_refl).
  - exact (Hsample emul_plain world0 X3 2%nat eq_refl).
Defined.

End InitialStateRun.

Module RoundedBias.
Import Single.

(** Without scaling, on the one target [1 + 2 ^ -31]: the captured bias
    is 1, the mean of the targets is the target. *)
Lemma bias_is_the_mean_counterexample :
  bias (init_state emul_one) = 1%Q /\
  ~ (bias (init_state emul_one) == np_mean (flat y1))%Q.
Proof.
  split; [vm_compute; reflexivity|].
  intros H. vm_compute in H. discriminate.
Qed.

End RoundedBias.

(** * Loading a persisted emulator *)

Section Load.
Context {F : Float64} {T : Torch F} {U : Utils F}.

Lemma load_into_frozen fz outpath bestsplit wv wm :
  preserved (view_is frozen fz) (load_into outpath bestsplit wv wm).
Proof.
  unfold load_into, print_stats, np_loadtxt, torch_load, load_state_dict.
  repeat first [ apply (predict_stable frozen frozen_stable)
               | apply (print_stable frozen)
               | preserved_step
               | apply stable_assign; intros ?; reflexivity ].
Qed.

(** The object [load_emulator] returns was built by the constructor
    from the two training files, with scaling and without noise
    learning. *)
Lemma load_emulator_built outpath bestsplit wv wm dev w e' w' :
  load_emulator outpath bestsplit wv wm dev w = (Ok e', w') ->
  exists X y,
    disk w !! (outpath +:+ bestsplit +:+ "_X_train.txt") = Some (TxtFile X) /\
    disk w !! (outpath +:+ bestsplit +:+ "_y_train.txt") = Some (TxtFile y) /\
    built_from X y dev false true e'.
Proof.
  unfold load_emulator. cbn [disk set_stdout].
  destruct (disk w !! (outpath +:+ bestsplit +:+ "_X_train.txt"))
    as [[X|]|]; try discriminate.
  destruct (disk w !! (outpath +:+ bestsplit +:+ "_y_train.txt"))
    as [[y|]|]; try discriminate.
  destruct (load_into _ _ _ _ _) as [r [e1 w1]] eqn:Hinto.
  destruct r; intros [= <- <-].
  exists X, y. split; [reflexivity|]. split; [reflexivity|].
  exact (preserved_run _ _ _ _ _
           (load_into_frozen _ outpath bestsplit wv wm) eq_refl Hinto).
Qed.

Lemma built_from_flags X y dev ln sd e :
  built_from X y dev ln sd e -> scale_data e = sd /\ learn_noise e = ln.
Proof.
  unfold built_from, frozen, GPEmul_init. cbn.
  intros [= -> _ _ _ _ _ _ _ _ -> _ _]. auto.
Qed.

(** Without validation, a load that finds its three files goes
    through. *)
Lemma load_emulator_succeeds outpath bestsplit wm dev w X y st :
  disk w !! (outpath +:+ bestsplit +:+ "_X_train.txt") = Some (TxtFile X) ->
  disk w !! (outpath +:+ bestsplit +:+ "_y_train.txt") = Some (TxtFile y) ->
  disk w !! (outpath +:+ bestsplit +:+ "_gpe.pth") = Some (PthFile st) ->
  exists e' w', load_emulator outpath bestsplit false wm dev w = (Ok e', w').
Proof.
  intros HX Hy Hpth. unfold load_emulator. cbn [disk set_stdout].
  rewrite HX, Hy.
  unfold GPEmul_new, load_into, torch_load, print_stats, load_state_dict,
    print, bind, world, self, assign, effect, ret.
  cbn [fst snd disk set_rng set_stdout]. rewrite Hpth.
  cbn. eauto.
Qed.

(** C9.  [load_emulator] rebuilds the scaling state by fitting the
    Scalers on the arrays it reads from the two training files; no
    persisted Scaler enters it.  When the training files and a
    snapshot of fitting sizes are there, a load without validation goes
    through, and every load that goes through returns the Scalers
    fitted on the arrays of the files: the Scalers of every emulator
    that was constructed with scaling from these arrays and then
    trained. *)
Theorem load_emulator_refits_scalers outpath bestsplit dev w X y st :
  disk w !! (outpath +:+ bestsplit +:+ "_X_train.txt") = Some (TxtFile X) ->
  disk w !! (outpath +:+ bestsplit +:+ "_y_train.txt") = Some (TxtFile y) ->
  disk w !! (outpath +:+ bestsplit +:+ "_gpe.pth") = Some (PthFile st) ->
  fits (n_in_features (GPEmul_init X y dev false true)) st ->
  (forall wm, exists e' w',
     load_emulator outpath bestsplit false wm dev w = (Ok e', w')) /\
  (forall wv wm e' w',
     load_emulator outpath bestsplit wv wm dev w = (Ok e', w') ->
     scx e' = Some (Scaler_fit X) /\
     scy e' = Some (Scaler_fit (reshape_col y)) /\
     forall dev0 ln fuel Xv yv n lr me pa sp wm0 w0,
       let trained :=
         fst (snd (train fuel Xv yv n lr me pa sp wm0
                         (GPEmul_init X y dev0 ln true, w0))) in
       scx e' = scx trained /\ scy e' = scy trained).
Proof.
  intros HX Hy Hpth Hfits. split.
  - intros wm. exact (load_emulator_succeeds _ _ wm dev _ _ _ _ HX Hy Hpth).
  - intros wv wm e' w' Hload.
    destruct (load_emulator_built _ _ _ _ _ _ _ _ Hload)
      as (X' & y' & HX' & Hy' & Hb).
    rewrite HX in HX'. injection HX' as <-.
    rewrite Hy in Hy'. injection Hy' as <-.
    destruct (built_from_scaling _ _ _ _ _ _ Hb) as (_ & Hscx & Hscy).
    split; [exact Hscx|]. split; [exact Hscy|].
    intros dev0 ln fuel Xv yv n lr me pa sp wm0 w0 trained.
    pose proof (train_frozen (frozen (GPEmul_init X y dev0 ln true))
                  fuel Xv yv n lr me pa sp wm0
                  (GPEmul_init X y dev0 ln true, w0) eq_refl) as Hfz.
    unfold wp, view_is, on_self in Hfz. fold trained in Hfz.
    destruct (built_from_scaling X y dev0 ln true trained Hfz)
      as (_ & Hscx' & Hscy').
    split; congruence.
Qed.


End Load.

Module LoadRun.
Import Toy.

Abbreviation the_load :=
  (load_emulator "out/" "1" false "R2Score" cpu world_saved).

Abbreviation loaded :=
  (match fst the_load with
   | Ok e => e
   | Raise _ => emul_scaled
   end).

Lemma the_load_succeeds : the_load = (Ok loaded, snd the_load).
Proof.
  assert (Hok : match fst the_load with Ok _ => true | Raise _ => false end
                = true) by (vm_compute; reflexivity).
  destruct the_load as [[e|ex] w]; [reflexivity | discriminate].
Qed.

(** The emulator that was fitted on the arrays of the files. *)
Abbreviation trained :=
  (fst (snd (train 10 None None 2 rate 5 2 "ck.pth" "R2Score"
                   (emul_scaled, world0)))).

Lemma load_emulator_refits_scalers_witness :
  exists e' w',
    load_emulator "out/" "1" false "R2Score" cpu world_saved = (Ok e', w') /\
    scx e' = Some (Scaler_fit X3) /\
    scy e' = Some (Scaler_fit (reshape_col y3)) /\
    scx e' = scx trained /\ scy e' = scy trained.
Proof.
  assert (HX : disk world_saved !! ("out/" +:+ "1" +:+ "_X_train.txt")
               = Some (TxtFile X3)) by (vm_compute; reflexivity).
  assert (Hy : disk world_saved !! ("out/" +:+ "1" +:+ "_y_train.txt")
               = Some (TxtFile y3)) by (vm_compute; reflexivity).
  assert (Hpth : disk world_saved !! ("out/" +:+ "1" +:+ "_gpe.pth")
                 = Some (PthFile (default_state 2)))
    by (vm_compute; reflexivity).
  assert (Hfits : fits (n_in_features (GPEmul_init X3 y3 cpu false true))
                       (default_state 2)) by (split; reflexivity).
  destruct (load_emulator_refits_scalers (F := QFloat) (T := QTorch)
              (U := QUtils) "out/" "1" cpu world_saved X3 y3
              (default_state 2) HX Hy Hpth Hfits) as [Hgoes Hfit].
  destruct (Hgoes "R2Score") as (e' & w' & Hload).
  destruct (Hfit false "R2Score" e' w' Hload) as (Hscx & Hscy & Hsame).
  exists e', w'. split; [exact Hload|]. split; [exact Hscx|].
  split; [exact Hscy|].
  exact (Hsame cpu false 10%nat None None 2 rate 5 2 "ck.pth" "R2Score"
               world0).
Defined.


End LoadRun.

(** * The draw of the lengthscales *)

Section LogUniform.
Import Real.
Local Open Scope R_scope.

Lemma lit_tenth : f_lit (1 # 10) = / 10.
Proof. cbn. unfold Q2R. cbn. lra. Qed.

Lemma lit_ten : f_lit 10 = 10.
Proof. cbn. unfold Q2R. cbn. lra. Qed.

(** Line 120 read on the reals, where nothing is rounded. *)
Lemma raw_lengthscale_of_real (u : R) :
  raw_lengthscale_of u = ln (/ 10) + (ln 10 - ln (/ 10)) * u.
Proof.
  unfold raw_lengthscale_of. rewrite lit_tenth, lit_ten. cbn. lra.
Qed.

Lemma ln_tenth_lt_ln_ten : ln (/ 10) < ln 10.
Proof. apply ln_increasing; lra. Qed.

Lemma raw_lengthscale_range (u : R) :
  0 <= u < 1 -> ln (/ 10) <= raw_lengthscale_of u < ln 10.
Proof.
  intros Hu. rewrite raw_lengthscale_of_real.
  pose proof ln_tenth_lt_ln_ten. nra.
Qed.

Lemma softplus_le (x y : R) : x <= y -> softplus x <= softplus y.
Proof.
  intros [Hlt | ->]; [|apply Rle_refl]. cbn. left.
  apply ln_increasing.
  - pose proof (exp_pos x). lra.
  - pose proof (exp_increasing x y Hlt). lra.
Qed.

Lemma softplus_lt (x y : R) : x < y -> softplus x < softplus y.
Proof.
  intros Hlt. cbn. apply ln_increasing.
  - pose proof (exp_pos x). lra.
  - pose proof (exp_increasing x y Hlt). lra.
Qed.

Lemma softplus_ln (a : R) : 0 < a -> softplus (ln a) = ln (1 + a).
Proof. intros Ha. cbn. rewrite exp_ln by exact Ha. reflexivity. Qed.

(** The smallest lengthscale that can be drawn is below 0.1. *)
Lemma softplus_ln_tenth_small : softplus (ln (/ 10)) < / 10.
Proof.
  rewrite softplus_ln by lra.
  rewrite <- (ln_exp (/ 10)) at 2.
  apply ln_increasing; [lra|].
  apply exp_ineq1. lra.
Qed.

(** The largest stays below 10. *)
Lemma ln_eleven_small : ln 11 < 10.
Proof.
  assert (H : 10 <> 0) by lra.
  pose proof (exp_ineq1 10 H) as Hexp.
  assert (Hln : ln 11 < ln (exp 10)) by (apply ln_increasing; lra).
  rewrite ln_exp in Hln. exact Hln.
Qed.

End LogUniform.

(** What RESET leaves, on any backend. *)
Lemma reset_model {F : Float64} {T : Torch F} {U : Utils F} s es s1 :
  reset s = (Ok es, s1) ->
  model (fst s1) =
    set_raw_lengthscale
      (map raw_lengthscale_of
           (fst (torch_rand (n_in_features (fst s)) (rng (snd s)))))
      (init_state (fst s)) /\
  optimizer (fst s1) = Some (Adam (learning_rate (fst s))).
Proof.
  intros Hrun.
  destruct (reset_result s (reset_Ok_inv _ _ _ Hrun))
    as (es' & s1' & Hreset & _ & Hmodel & Hopt & _).
  rewrite Hrun in Hreset. injection Hreset as <- <-. auto.
Qed.

(** C3, as the code has it.  On every backend, a RESET that goes
    through (the learning rate being one that Adam accepts) has loaded
    the frozen initial state and changed nothing of it but the raw
    lengthscales, has created a fresh optimizer, and has set each raw
    lengthscale from its own draw [u] of [torch.rand] by line 120,
    computed in single precision; each lengthscale is the softplus of
    its raw value.  Read on the reals, where nothing is rounded, the
    raw value is [log 0.1 + (log 10 - log 0.1) * u], between [log 0.1]
    and [log 10] for [u] in [0, 1), and the lengthscale lies between
    [log 1.1] and [log 11]: below 0.1 at the lower end and never as
    large as 10. *)
Theorem reset_draws_raw_lengthscales :
  (forall (F : Float64) (T : Torch F) (U : Utils F) (s : St) es s1,
     reset s = (Ok es, s1) ->
     let draws := fst (torch_rand (n_in_features (fst s)) (rng (snd s))) in
     f_le (f_lit 0) (learning_rate (fst s)) = true /\
     model (fst s1) =
       set_raw_lengthscale (map raw_lengthscale_of draws)
                           (init_state (fst s)) /\
     optimizer (fst s1) = Some (Adam (learning_rate (fst s))) /\
     lengthscale (model (fst s1)) =
       map (fun u => softplus (raw_lengthscale_of u)) draws) /\
  (forall (T : Torch Real.RFloat) (U : Utils Real.RFloat) (s : St) es s1,
     reset s = (Ok es, s1) ->
     let draws := fst (torch_rand (n_in_features (fst s)) (rng (snd s))) in
     Forall (fun u => 0 <= u < 1)%R draws ->
     raw_lengthscale (model (fst s1)) =
       map (fun u => ln (/ 10) + (ln 10 - ln (/ 10)) * u)%R draws /\
     Forall (fun x => ln (/ 10) <= x < ln 10)%R
            (raw_lengthscale (model (fst s1))) /\
     Forall (fun l => ln (11 / 10) <= l < ln 11 /\ l < 10)%R
            (lengthscale (model (fst s1)))).
Proof.
  split.
  - intros F T U s es s1 Hrun draws.
    destruct (reset_model _ _ _ Hrun) as [Hmodel Hopt].
    split; [exact (reset_Ok_inv _ _ _ Hrun)|].
    split; [exact Hmodel|]. split; [exact Hopt|].
    rewrite Hmodel. unfold lengthscale. cbn. apply map_map.
  - intros T U s es s1 Hrun draws Hdraws.
    destruct (reset_model _ _ _ Hrun) as [Hmodel _].
    assert (Hraw : raw_lengthscale (model (fst s1)) =
                   map raw_lengthscale_of draws)
      by (rewrite Hmodel; reflexivity).
    assert (Hrange : Forall (fun x => ln (/ 10) <= x < ln 10)%R
                            (raw_lengthscale (model (fst s1)))).
    { rewrite Hraw. apply Forall_map.
      eapply Forall_impl; [exact Hdraws|].
      intros u Hu. apply raw_lengthscale_range. exact Hu. }
    split.
    + rewrite Hraw. apply map_ext. intros u. apply raw_lengthscale_of_real.
    + split; [exact Hrange|].
      unfold lengthscale. apply Forall_map.
      eapply Forall_impl; [exact Hrange|].
      intros x [Hlo Hhi]. cbn beta.
      assert (H1 : (@softplus Real.RFloat (ln (/ 10)) = ln (11 / 10))%R)
        by (rewrite softplus_ln by lra; f_equal; lra).
      assert (H2 : (@softplus Real.RFloat (ln 10) = ln 11)%R)
        by (rewrite softplus_ln by lra; f_equal; lra).
      pose proof (softplus_le _ _ Hlo) as Hl.
      pose proof (softplus_lt _ _ Hhi) as Hh.
      pose proof ln_eleven_small.
      rewrite H1 in Hl. rewrite H2 in Hh. repeat split; lra.
Qed.

Module LogUniformRun.
Import Real.
Local Open Scope R_scope.

Abbreviation the_reset := (reset (emul_one, world0)).

Lemma the_reset_goes_through :
  exists es, the_reset = (Ok es, snd the_reset).
Proof.
  assert (Hlr : f_le (f_lit 0) (learning_rate (fst (emul_one, world0)))
                = true).
  { cbn. unfold Rleb. destruct (Rle_dec (Q2R 0) (Q2R 0)) as [|Hn];
      [reflexivity | exfalso; apply Hn; lra]. }
  destruct (reset_result (emul_one, world0) Hlr) as (es & s1 & Hreset & _).
  exists es. rewrite Hreset. reflexivity.
Qed.

Lemma reset_draws_raw_lengthscales_witness :
  Forall (fun x => ln (/ 10) <= x < ln 10)
         (raw_lengthscale (model (fst (snd the_reset)))) /\
  Forall (fun l => ln (11 / 10) <= l < ln 11 /\ l < 10)
         (lengthscale (model (fst (snd the_reset)))).
Proof.
  destruct the_reset_goes_through as [es Hreset].
  assert (Hdraws : Forall (fun u => 0 <= u < 1)
            (fst (torch_rand (n_in_features (fst (emul_one, world0)))
                             (rng (snd (emul_one, world0)))))).
  { cbn. constructor; [lra | constructor]. }
  destruct (proj2 reset_draws_raw_lengthscales ZeroTorch NoUtils
              (emul_one, world0) es (snd the_reset) Hreset Hdraws)
    as (_ & Hrange & Hlen).
  split; [exact Hrange | exact Hlen].
Defined.

(** At the draw 0 the lengthscale is [log 1.1], which is below 0.1: it
    is not in the interval the bounds of line 117-118 aim at, and its
    logarithm is not the value drawn between [log 0.1] and [log 10]. *)
Lemma lengthscale_log_uniform_counterexample :
  ~ Forall (fun l => / 10 <= l <= 10)
           (lengthscale (model (fst (snd the_reset)))).
Proof.
  destruct the_reset_goes_through as [es Hreset].
  destruct (reset_model _ _ _ Hreset) as [Hmodel _].
  rewrite Hmodel.
  unfold lengthscale. cbn. intros Hall.
  apply Forall_cons_1 in Hall as [[Hlo _] _].
  change (/ 10 <= softplus (raw_lengthscale_of 0)) in Hlo.
  rewrite raw_lengthscale_of_real in Hlo.
  replace (ln (/ 10) + (ln 10 - ln (/ 10)) * 0) with (ln (/ 10)) in Hlo by lra.
  pose proof softplus_ln_tenth_small. lra.
Qed.

End LogUniformRun.
(** * Further properties of the code *)

(** ** The head of [train] and the degenerate arguments *)

Section TrainEdges.
Context {F : Float64} {T : Torch F} {U : Utils F}.

(** X1.  [train] with a metric name that [metrics_dict] does not know
    raises [KeyError] at line 75, before any restart: nothing is
    printed, written or drawn, the model is untouched, and of the
    arguments only the validation data and the name itself have been
    kept on the object. *)
Theorem train_unknown_metric_raises_KeyError
    X y dev ln sd e w fuel Xv yv n lr me pa sp wm :
  built_from X y dev ln sd e ->
  metrics_dict wm = None ->
  exists e',
    train fuel Xv yv n lr me pa sp wm (e, w) = (Raise KeyError, (e', w)) /\
    model e' = model e /\
    frozen e' = frozen e /\
    with_val e' = validation_supplied Xv yv /\
    watch_metric e' = wm /\
    metric e' = metric e /\
    (n_restarts e', learning_rate e', max_epochs e', patience e', savepath e')
    = (n_restarts e, learning_rate e, max_epochs e, patience e, savepath e).
Proof.
  intros Hbuilt Hname.
  destruct (built_from_scaling _ _ _ _ _ _ Hbuilt) as (Hsd & Hscx & Hscy).
  destruct (train fuel Xv yv n lr me pa sp wm (e, w)) as [r [e' w']] eqn:Hrun.
  exists e'.
  refine (wp_run _ (fun r s' =>
            (r, s') = (Raise KeyError, (fst s', w)) /\
            model (fst s') = model e /\ frozen (fst s') = frozen e /\
            with_val (fst s') = validation_supplied Xv yv /\
            watch_metric (fst s') = wm /\ metric (fst s') = metric e /\
            (n_restarts (fst s'), learning_rate (fst s'), max_epochs (fst s'),
             patience (fst s'), savepath (fst s'))
            = (n_restarts e, learning_rate e, max_epochs e, patience e,
               savepath e))
          _ _ _ Hrun _).
  clear Hrun. unfold train, train_setup. rewrite Hname.
  apply wp_bind. apply wp_bind, wp_self. cbn [fst snd].
  rewrite Hsd, Hscx, Hscy.
  destruct Xv as [Xv|], yv as [yv|], sd; cbn [validation_supplied];
    repeat wp_step; cbn; repeat split; reflexivity.
Qed.

(** X2.  With [n_restarts <= 0] the [while] loop does not run and the
    selection fails: [np.argmin] of the empty list raises [ValueError].
    No restart was made; the object is as the head of [train] left it. *)
Theorem train_without_restarts_raises_ValueError
    fuel Xv yv n lr me pa sp wm s s1 :
  train_setup Xv yv n lr me pa sp wm s = (Ok tt, s1) ->
  n <= 0 ->
  train fuel Xv yv n lr me pa sp wm s = (Raise ValueError, s1).
Proof.
  intros Hsetup Hn. unfold train.
  rewrite (bind_Ok _ _ _ _ _ Hsetup).
  assert (Hdone : (0 <? n) = false) by (apply Z.ltb_ge; exact Hn).
  rewrite (bind_Ok _ _ _ _ _ (restart_loop_done n fuel 0 no_restart s1 Hdone)).
  unfold select_best, bind, self, lift. cbn [fst snd].
  destruct (with_val (fst s1)); reflexivity.
Qed.

End TrainEdges.


Section NoEpochs.
Context {F : Float64} {T : Torch F} {U : Utils F}.

(** With no epoch to run, a restart fails: in RESET when Adam refuses
    the learning rate, and otherwise in STOPPED, on the missing or
    unreadable checkpoint, or, when an older checkpoint is in the way,
    on the empty loss list. *)
Lemma train_once_no_epochs s :
  max_epochs (fst s) <= 0 ->
  exists ex s1,
    train_once s = (Raise ex, s1) /\
    ((f_le (f_lit 0) (learning_rate (fst s)) = false /\ ex = ValueError) \/
     (f_le (f_lit 0) (learning_rate (fst s)) = true /\
      ((ex = OSError /\ disk (snd s) !! savepath (fst s) = None) \/
       (ex = UnpicklingError /\
        exists a, disk (snd s) !! savepath (fst s) = Some (TxtFile a)) \/
       (ex = ValueError /\
        exists st, disk (snd s) !! savepath (fst s) = Some (PthFile st) /\
                   best_model (fst s1) = Some st)))).
Proof.
  intros Hme.
  destruct (f_le (f_lit 0) (learning_rate (fst s))) eqn:Hlr.
  - destruct (reset_result s Hlr)
      as (es & sr & Hreset & _ & _ & _ & _ & Hmon & Hcfg & _ & _ & Hdisk & _).
    destruct (config_savepath _ _ Hcfg) as (Hsp & _ & Hme' & _).
    unfold train_once, run_epochs.
    unfold bind at 1 2. rewrite Hreset. cbv beta iota.
    unfold bind at 1. unfold self at 1. cbn [fst snd].
    replace (Z.to_nat (max_epochs (fst sr))) with 0%nat by lia.
    cbn [epoch_loop]. unfold ret at 1. cbv beta iota.
    rewrite <- Hdisk, <- Hsp. destruct sr as [e3 w3]. cbn [fst snd] in *.
    unfold monitored in Hmon.
    unfold finish, torch_load, bind, self, world, assign, lift, raise, ret.
    cbn [fst snd].
    destruct (disk w3 !! savepath e3) as [[a|st]|] eqn:Hfile; cbn [fst snd].
    + do 2 eexists. split; [reflexivity|]. right. split; [reflexivity|].
      right. left. split; [reflexivity|]. exists a. reflexivity.
    + rewrite Hmon. cbn. do 2 eexists. split; [reflexivity|]. right.
      split; [reflexivity|]. right. right.
      split; [reflexivity|]. exists st. split; reflexivity.
    + do 2 eexists. split; [reflexivity|]. right. split; [reflexivity|].
      left. split; reflexivity.
  - destruct (reset_invalid_lr s Hlr) as (sr & Hreset & _).
    exists ValueError, sr. split; [|left; split; reflexivity].
    unfold train_once, run_epochs.
    apply bind_Raise. apply bind_Raise. exact Hreset.
Qed.

(** X3.  With [max_epochs <= 0] no restart can complete, and [train]
    ends with the exception of the first one.  When the learning rate
    is one that Adam refuses (line 125) this is its [ValueError].
    Otherwise it comes from STOPPED: [OSError] when there is no file at
    [savepath] for [torch.load] (line 161), [UnpicklingError] when the
    file there is not a saved state, and [ValueError], from [np.argmin]
    of the empty loss list (lines 163-165), when an older checkpoint is
    there.  None is a [RuntimeError], so the restart is not
    repeated. *)
Theorem train_without_epochs_fails fuel Xv yv n lr me pa sp wm s s1 :
  train_setup Xv yv n lr me pa sp wm s = (Ok tt, s1) ->
  0 < n -> me <= 0 -> (0 < fuel)%nat ->
  (f_le (f_lit 0) lr = false ->
   exists s', train fuel Xv yv n lr me pa sp wm s = (Raise ValueError, s')) /\
  (f_le (f_lit 0) lr = true ->
   (disk (snd s1) !! sp = None ->
    exists s', train fuel Xv yv n lr me pa sp wm s = (Raise OSError, s')) /\
   (forall a, disk (snd s1) !! sp = Some (TxtFile a) ->
    exists s',
      train fuel Xv yv n lr me pa sp wm s = (Raise UnpicklingError, s')) /\
   (forall st, disk (snd s1) !! sp = Some (PthFile st) ->
    exists s',
      train fuel Xv yv n lr me pa sp wm s = (Raise ValueError, s'))).
Proof.
  intros Hsetup Hn Hme Hfuel.
  destruct (train_setup_config _ _ _ _ _ _ _ _ _ _ Hsetup)
    as (_ & _ & _ & _ & Hlr1 & Hme1 & _ & Hsp1 & _).
  destruct fuel as [|fuel]; [lia|].
  destruct (train_once_no_epochs (printed (PrintRestart (0 + 1)) s1))
    as (ex & s' & Honce & Hex).
  { cbn [fst printed]. lia. }
  cbn [fst snd printed set_stdout disk] in Hex.
  rewrite Hsp1, Hlr1 in Hex.
  assert (Htrain : ex <> RuntimeError ->
            train (S fuel) Xv yv n lr me pa sp wm s = (Raise ex, s')).
  { intros Hex'. unfold train. rewrite (bind_Ok _ _ _ _ _ Hsetup).
    apply bind_Raise.
    rewrite restart_loop_step by (apply Z.ltb_lt; exact Hn).
    rewrite Honce. destruct ex; try reflexivity. congruence. }
  split.
  - intros Hlr. exists s'.
    destruct Hex as [[_ ->]|[Hlr' _]]; [|congruence].
    apply Htrain. discriminate.
  - intros Hlr.
    destruct Hex as [[Hlr' _]|[_ Hex]]; [congruence|].
    split; [|split].
    + intros Hnone. exists s'.
      destruct Hex as [[-> _]|[[_ (a & Ha)]|[_ (st & Hst & _)]]];
        [apply Htrain; discriminate | congruence | congruence].
    + intros a Ha. exists s'.
      destruct Hex as [[_ Hno]|[[-> _]|[_ (st & Hst & _)]]];
        [congruence | apply Htrain; discriminate | congruence].
    + intros st Hst. exists s'.
      destruct Hex as [[_ Hno]|[[_ (a & Ha)]|[-> _]]];
        [congruence | congruence | apply Htrain; discriminate].
Qed.

End NoEpochs.


(** ** What a completed restart hands to [train] *)

Section Recording.
Context {F : Float64} {T : Torch F} {U : Utils F}.

Lemma argmin_loop_in_range : forall l mp k i,
  (k < i)%nat -> (argmin_loop mp k i l < i + length l)%nat.
Proof.
  induction l as [|x r IH]; intros mp k i Hk; simpl.
  - lia.
  - destruct (f_le mp x); simpl.
    + specialize (IH mp k (S i)). lia.
    + destruct (f_isnan x); [lia|]. specialize (IH x i (S i)). lia.
Qed.

(** The index [np.argmin] returns is an index of its argument. *)
Lemma np_argmin_in_range l i : np_argmin l = Ok i -> (i < length l)%nat.
Proof.
  destruct l as [|x r]; simpl; [discriminate|].
  destruct (f_isnan x); intros [= <-]; [lia|].
  pose proof (argmin_loop_in_range r x 0 1). lia.
Qed.

(** RESET empties the lists the restart is going to fill. *)
Lemma reset_aligned s es s1 :
  reset s = (Ok es, s1) -> train_loss_list (fst s1) = [] /\ aligned (fst s1).
Proof.
  intros Hrun.
  refine (wp_run _ (fun r s1 => forall es, r = Ok es ->
                                train_loss_list (fst s1) = [] /\
                                aligned (fst s1)) _ _ _ Hrun _ es eq_refl).
  clear. unfold reset, rand, load_state_dict, aligned. destruct s as [e w].
  repeat wp_step; intros; try discriminate; cbn;
    (split; [reflexivity|]); intros; try congruence; split; reflexivity.
Qed.

(** An epoch appends to each of the lists in use. *)
Lemma epoch_body_aligned epoch es s es1 s1 :
  epoch_body epoch es s = (Ok es1, s1) -> aligned (fst s) -> aligned (fst s1).
Proof.
  intros Hrun.
  refine (wp_run _ (fun r s1 => forall es1, r = Ok es1 ->
                                aligned (fst s) -> aligned (fst s1))
                 _ _ _ Hrun _ es1 eq_refl).
  clear. unfold epoch_body, EarlyStopping_call.
  apply wp_bind. apply (wp_call _ lists_view); [apply train_step_lists|].
  intros [tl|ex] [e2 w2] Hv2; [|discriminate]. cbn [fst snd] in Hv2.
  apply wp_bind, wp_self. cbn [fst snd].
  unfold lists_view in Hv2. injection Hv2 as Hwv Htl Hvl Hms.
  destruct (with_val e2) eqn:Hwv2.
  - apply wp_bind, wp_bind.
    apply (wp_call _ lists_view); [apply val_step_lists|].
    intros [[vl ms]|ex] [e3 w3] Hv3; [|discriminate]. cbn [fst snd] in Hv3.
    unfold lists_view in Hv3. injection Hv3 as Hwv3 Htl3 Hvl3 Hms3.
    repeat wp_step; intros ? [= <-] Ha; unfold aligned in *; cbn; intros _;
      rewrite !length_app, Hvl3, Htl3, Hms3, Hvl, Htl, Hms; cbn;
      destruct (Ha (eq_sym Hwv)) as [-> ->]; split; reflexivity.
  - repeat wp_step; intros ? [= <-] _; unfold aligned; cbn; congruence.
Qed.

Lemma epoch_loop_aligned n : forall epoch es s es' s',
  epoch_loop n epoch es s = (Ok es', s') -> aligned (fst s) -> aligned (fst s').
Proof.
  induction n as [|n IH]; intros epoch es s es' s' Hrun Ha; simpl in Hrun.
  - injection Hrun as <- <-. exact Ha.
  - apply bind_Ok_inv in Hrun as (es1 & s1 & Hbody & Hrun).
    pose proof (epoch_body_aligned _ _ _ _ _ Hbody Ha) as Ha1.
    destruct (early_stop es1).
    + apply bind_Ok_inv in Hrun as ([] & s2 & Hprint & Hret).
      injection Hprint as <-. injection Hret as <- <-. exact Ha1.
    + exact (IH _ _ _ _ _ Hrun Ha1).
Qed.

(** A restart that completes leaves its lists aligned. *)
Lemma train_once_aligned s s1 :
  train_once s = (Ok tt, s1) -> aligned (fst s1).
Proof.
  unfold train_once, run_epochs. intros Hrun.
  apply bind_Ok_inv in Hrun as (es' & s3 & Hrun & Hfin).
  apply bind_Ok_inv in Hrun as (es & s2 & Hreset & Hrun).
  apply bind_Ok_inv in Hrun as (e & s2' & [= <- <-] & Hloop).
  apply reset_aligned in Hreset as [_ Ha].
  pose proof (epoch_loop_aligned _ _ _ _ _ _ Hloop Ha) as Ha3.
  destruct (finish_result _ _ Hfin) as (_ & _ & Htl & Hvl & Hms & Hwv & _).
  unfold aligned in *. rewrite Htl, Hvl, Hms, Hwv. exact Ha3.
Qed.

(** The entries lines 99-103 read are there. *)
Lemma record_restart_succeeds acc s :
  aligned (fst s) ->
  (idx_best (fst s) < length (monitored (fst s)))%nat ->
  is_Some (best_model (fst s)) ->
  exists acc',
    record_restart acc s = (Ok acc', s) /\
    length (c_model_state acc') = S (length (c_model_state acc)).
Proof.
  destruct s as [e w]. unfold aligned, monitored. cbn [fst].
  intros Ha Hidx [bm Hbm].
  unfold record_restart, bind, self, getitem, attr, ret. cbn [fst snd].
  rewrite Hbm.
  destruct (with_val e) eqn:Hwv.
  - destruct (Ha eq_refl) as [Hvl Hms].
    destruct (lookup_lt_is_Some_2 (train_loss_list e) (idx_best e)) as [tl ->];
      [lia|].
    destruct (lookup_lt_is_Some_2 (val_loss_list e) (idx_best e)) as [vl ->];
      [lia|].
    destruct (lookup_lt_is_Some_2 (metric_score_list e) (idx_best e))
      as [ms ->]; [lia|].
    eexists. split; [reflexivity|]. cbn. rewrite length_app. cbn. lia.
  - destruct (lookup_lt_is_Some_2 (train_loss_list e) (idx_best e)) as [tl ->];
      [lia|].
    eexists. split; [reflexivity|]. cbn. rewrite length_app. cbn. lia.
Qed.

(** X6.  After a restart that ran to its end the per-epoch lists have
    one entry per epoch each, [idx_best] is an index of them and
    [best_model] is set: the reads of lines 99-103 cannot fail, and
    [train] records the restart without touching the object. *)
Theorem completed_restart_is_recorded acc s s1 :
  train_once s = (Ok tt, s1) ->
  aligned (fst s1) /\
  (idx_best (fst s1) < length (train_loss_list (fst s1)))%nat /\
  exists acc',
    record_restart acc s1 = (Ok acc', s1) /\
    length (c_model_state acc') = S (length (c_model_state acc)).
Proof.
  intros Hrun.
  pose proof (train_once_aligned _ _ Hrun) as Ha.
  destruct (train_once_idx_best _ _ Hrun) as [Hidx Hbm].
  apply np_argmin_in_range in Hidx.
  split; [exact Ha|]. split.
  - unfold monitored, aligned in *.
    destruct (with_val (fst s1)); [|exact Hidx].
    destruct (Ha eq_refl) as [Hvl _]. lia.
  - apply record_restart_succeeds; assumption.
Qed.

(** X7.  The [while] loop of [train] fails only with an exception that
    [train_once] raised, and never with a [RuntimeError]: that one is
    caught and the restart repeated, and recording a completed restart
    raises nothing. *)
Theorem restart_loop_fails_only_in_train_once n fuel i acc s ex s' :
  restart_loop n fuel i acc s = (Raise ex, s') ->
  ex <> RuntimeError /\ exists s0, train_once s0 = (Raise ex, s').
Proof.
  revert i acc s. induction fuel as [|fuel IH]; intros i acc s Hrun.
  - destruct (i <? n) eqn:Hlt.
    + rewrite restart_loop_no_fuel in Hrun by exact Hlt. discriminate.
    + rewrite restart_loop_done in Hrun by exact Hlt. discriminate.
  - destruct (i <? n) eqn:Hlt.
    2:{ rewrite restart_loop_done in Hrun by exact Hlt. discriminate. }
    rewrite restart_loop_step in Hrun by exact Hlt.
    destruct (train_once _) as [[[]|ex0] s1] eqn:Honce.
    + pose proof (train_once_aligned _ _ Honce) as Ha.
      destruct (train_once_idx_best _ _ Honce) as [Hidx Hbm].
      apply np_argmin_in_range in Hidx.
      destruct (record_restart_succeeds acc s1 Ha Hidx Hbm)
        as (acc1 & Hrec & _).
      rewrite Hrec in Hrun. exact (IH _ _ _ Hrun).
    + destruct ex0; try (injection Hrun as <- <-;
                         split; [discriminate | eexists; exact Honce]).
      exact (IH _ _ _ Hrun).
Qed.

End Recording.

(** ** The checkpoint file after training *)

Section Checkpoint.
Context {F : Float64} {T : Torch F} {U : Utils F}.

Lemma finish_world s r s1 : finish s = (r, s1) -> snd s1 = snd s.
Proof.
  intros Hrun.
  refine (wp_run _ (fun _ s1 => snd s1 = snd s) _ _ _ Hrun _).
  clear. unfold finish, torch_load. repeat wp_step; reflexivity.
Qed.

Lemma select_best_world acc s r s1 :
  select_best acc s = (r, s1) -> snd s1 = snd s.
Proof.
  intros Hrun.
  refine (wp_run _ (fun _ s1 => snd s1 = snd s) _ _ _ Hrun _).
  clear. unfold select_best. repeat wp_step; reflexivity.
Qed.

(** What STOPPED loaded is what the file holds when the restart ends. *)
Lemma train_once_checkpoint s s1 :
  train_once s = (Ok tt, s1) ->
  exists bm, best_model (fst s1) = Some bm /\
             disk (snd s1) !! savepath (fst s1) = Some (PthFile bm).
Proof.
  unfold train_once. intros Hrun.
  apply bind_Ok_inv in Hrun as (es' & s3 & _ & Hfin).
  destruct (finish_result _ _ Hfin) as (_ & (bm & Hbm & Hfile) & _).
  exists bm. split; [exact Hbm|].
  rewrite (finish_world _ _ _ Hfin).
  pose proof (preserved_run _ _ _ _ _
                (finish_stable config config_stable (config (fst s3)))
                eq_refl Hfin) as Hcfg.
  destruct (config_savepath _ _ Hcfg) as [-> _]. exact Hfile.
Qed.

Lemma restart_loop_last n fuel : forall i acc s acc' s',
  restart_loop n fuel i acc s = (Ok (Some acc'), s') ->
  i < n \/
  (exists bm, last (c_model_state acc) = Some bm /\
              disk (snd s) !! savepath (fst s) = Some (PthFile bm)) ->
  exists bm, last (c_model_state acc') = Some bm /\
             disk (snd s') !! savepath (fst s') = Some (PthFile bm).
Proof.
  induction fuel as [|fuel IH]; intros i acc s acc' s' Hrun Hinv.
  - destruct (i <? n) eqn:Hlt.
    + rewrite restart_loop_no_fuel in Hrun by exact Hlt. discriminate.
    + rewrite restart_loop_done in Hrun by exact Hlt.
      injection Hrun as <- <-. apply Z.ltb_ge in Hlt.
      destruct Hinv as [Hin|Hinv]; [lia | exact Hinv].
  - destruct (i <? n) eqn:Hlt.
    2:{ rewrite restart_loop_done in Hrun by exact Hlt.
        injection Hrun as <- <-. apply Z.ltb_ge in Hlt.
        destruct Hinv as [Hin|Hinv]; [lia | exact Hinv]. }
    rewrite restart_loop_step in Hrun by exact Hlt.
    destruct (train_once _) as [[[]|ex] s1] eqn:Honce.
    + destruct (record_restart acc s1) as [[acc1|ex] s2] eqn:Hrec;
        [|discriminate].
      destruct (record_restart_result _ _ _ _ Hrec)
        as (-> & tl & bm & _ & Hbm & _ & Hcbm & _).
      destruct (train_once_checkpoint _ _ Honce) as (bm' & Hbm' & Hfile).
      apply (IH _ _ _ _ _ Hrun). right. exists bm. split.
      * rewrite Hcbm. apply last_snoc.
      * congruence.
    + destruct ex; try discriminate.
      apply (IH _ _ (printed (PrintRepeat (i + 1)) s1) _ _ Hrun).
      left. apply Z.ltb_lt. exact Hlt.
Qed.

(** The selected state is kept on the object twice. *)
Lemma select_best_kept acc s s' :
  select_best acc s = (Ok tt, s') ->
  best_model (fst s') = Some (model (fst s')).
Proof.
  intros Hrun.
  refine (wp_run _ (fun r s' => r = Ok tt ->
                                best_model (fst s') = Some (model (fst s')))
                 _ _ _ Hrun _ eq_refl).
  clear. unfold select_best, load_state_dict. destruct s as [e w].
  repeat wp_step; try discriminate; intros _; reflexivity.
Qed.

(** X8.  When [train] returns, the file at [savepath] holds the
    snapshot of the last restart, the last entry of the list the
    selection was made on.  The selected state, an entry of the same
    list, is kept on the object, as [best_model] and loaded into the
    model (lines 111-112); it is not written back to the file, which
    therefore holds another state whenever the last restart is not the
    selected one. *)
Theorem train_leaves_last_checkpoint fuel Xv yv n lr me pa sp wm s s' :
  train fuel Xv yv n lr me pa sp wm s = (Ok (Some tt), s') ->
  exists s1 s2 acc bm,
    train_setup Xv yv n lr me pa sp wm s = (Ok tt, s1) /\
    restart_loop n fuel 0 no_restart s1 = (Ok (Some acc), s2) /\
    last (c_model_state acc) = Some bm /\
    disk (snd s') !! sp = Some (PthFile bm) /\
    best_model (fst s') = Some (model (fst s')) /\
    (exists idx, c_model_state acc !! idx = Some (model (fst s'))) /\
    (model (fst s') <> bm ->
     disk (snd s') !! sp <> Some (PthFile (model (fst s')))).
Proof.
  unfold train. intros Hrun.
  apply bind_Ok_inv in Hrun as ([] & s1 & Hsetup & Hrun).
  apply bind_Ok_inv in Hrun as (r & s2 & Hloop & Hrun).
  destruct r as [acc|]; [|discriminate].
  apply bind_Ok_inv in Hrun as ([] & s3 & Hsel & Hret).
  injection Hret as <-.
  destruct (train_setup_config _ _ _ _ _ _ _ _ _ _ Hsetup)
    as (_ & _ & _ & _ & _ & _ & _ & Hsp & _).
  assert (Hn : 0 < n).
  { destruct (0 <? n) eqn:Hlt; [apply Z.ltb_lt; exact Hlt|].
    rewrite restart_loop_done in Hloop by exact Hlt.
    injection Hloop as <- <-.
    unfold select_best, bind, self, lift in Hsel. cbn in Hsel.
    destruct (with_val (fst s1)); discriminate. }
  destruct (restart_loop_last _ _ _ _ _ _ _ Hloop (or_introl Hn))
    as (bm & Hlast & Hfile).
  pose proof (preserved_run _ _ _ _ _
                (restart_loop_stable config config_stable
                   (config (fst s1)) n fuel 0 no_restart)
                eq_refl Hloop) as Hcfg.
  destruct (config_savepath _ _ Hcfg) as [Hsp2 _].
  assert (Hdisk : disk (snd s3) !! sp = Some (PthFile bm))
    by (rewrite (select_best_world _ _ _ _ Hsel), <- Hsp, <- Hsp2;
        exact Hfile).
  exists s1, s2, acc, bm.
  split; [exact Hsetup|]. split; [exact Hloop|]. split; [exact Hlast|].
  split; [exact Hdisk|]. split; [exact (select_best_kept _ _ _ Hsel)|].
  split; [exact (select_best_model _ _ _ Hsel)|].
  intros Hne Hsame. rewrite Hdisk in Hsame. injection Hsame as ->.
  apply Hne. reflexivity.
Qed.

End Checkpoint.

(** ** What prediction and sampling read and write *)

Section ReadOnly.
Context {F : Float64} {T : Torch F} {U : Utils F}.

(** [predict] writes the mode flag of the model and the state of the
    generator, and nothing else. *)
Lemma predict_frame X_new e w :
  snd (predict X_new (e, w)) =
  (set_training false e, set_rng (rng_after_predict X_new e (rng w)) w).
Proof.
  unfold rng_after_predict.
  unfold predict, kernel, bind, assign, self, attr, lift, ret, raise.
  cbn [fst snd].
  change (scale_data (set_training false e)) with (scale_data e).
  change (scx (set_training false e)) with (scx e).
  change (scy (set_training false e)) with (scy e).
  change (model (set_training false e)) with (model e).
  change (device (set_training false e)) with (device e).
  change (X_train (set_training false e)) with (X_train e).
  change (y_train (set_training false e)) with (y_train e).
  destruct (scale_data e).
  - destruct (scx e) as [sx|]; cbn [fst snd].
    + destruct (predictive _ _ _ _ _ _) as [[d|ex] g]; cbn [fst snd];
        [destruct (scy e)|]; reflexivity.
    + destruct w; reflexivity.
  - cbn [fst snd].
    destruct (predictive _ _ _ _ _ _) as [[d|ex] g]; reflexivity.
Qed.

Lemma wp_predict X_new (Q : result (list float * list float) -> St -> Prop) s :
  (forall r, Q r (set_training false (fst s),
                  set_rng (rng_after_predict X_new (fst s) (rng (snd s)))
                          (snd s))) ->
  wp (predict X_new) Q s.
Proof.
  intros HQ. unfold wp. destruct s as [e w].
  rewrite predict_frame. apply HQ.
Qed.

Lemma predict_reads X_new e1 w1 e2 w2 :
  fitted e1 = fitted e2 -> rng w1 = rng w2 ->
  fst (predict X_new (e1, w1)) = fst (predict X_new (e2, w2)) /\
  rng_after_predict X_new e1 (rng w1) = rng_after_predict X_new e2 (rng w2).
Proof.
  unfold fitted. intros [= Hsd Hscx Hscy HX Hy Hdev Hm] Hrng.
  destruct w1 as [r1 d1 o1], w2 as [r2 d2 o2]. cbn in Hrng. subst r2.
  unfold rng_after_predict.
  unfold predict, kernel, bind, assign, self, attr, lift, ret, raise.
  cbn. rewrite Hsd, Hscx, Hscy, HX, Hy, Hdev, Hm.
  destruct (scale_data e2); [destruct (scx e2); [|split; reflexivity]|]; cbn;
    destruct (predictive _ _ _ _ _ _) as [[d|ex] g]; cbn;
    try (split; reflexivity);
    destruct (scy e2); split; reflexivity.
Qed.

(** X4.  [predict] reads the scalers, the training tensors, the device
    and the state of the model, and the state of the random generator,
    and nothing else of the object or the world: on two emulators that
    agree on these it gives the same answer, or raises the same
    exception, and leaves the generator in the same state.  It writes
    the mode flag of the model and the generator, which it leaves as
    the forward pass of line 218 leaves it, and nothing else: no other
    attribute, no file, no output. *)
Theorem predict_reads_fitted_state X_new e1 w1 e2 w2 :
  fitted e1 = fitted e2 ->
  rng w1 = rng w2 ->
  fst (predict X_new (e1, w1)) = fst (predict X_new (e2, w2)) /\
  rng (snd (snd (predict X_new (e1, w1)))) =
  rng (snd (snd (predict X_new (e2, w2)))) /\
  snd (predict X_new (e1, w1)) =
  (set_training false e1,
   set_rng (rng_after_predict X_new e1 (rng w1)) w1).
Proof.
  intros Hfit Hrng.
  destruct (predict_reads X_new _ _ _ _ Hfit Hrng) as [Hres Hgen].
  split; [exact Hres|]. rewrite !predict_frame. cbn [fst snd].
  split; [|reflexivity]. destruct w1, w2. exact Hgen.
Qed.

(** X5.  [sample] reads the same attributes as [predict], and the
    random generator; it writes the mode flag of the model and the
    state of the generator, and nothing else: no other attribute, no
    file, no output. *)
Theorem sample_reads_fitted_state X_new n_draws e1 w1 e2 w2 :
  fitted e1 = fitted e2 ->
  rng w1 = rng w2 ->
  fst (sample X_new n_draws (e1, w1)) = fst (sample X_new n_draws (e2, w2)) /\
  rng (snd (snd (sample X_new n_draws (e1, w1)))) =
  rng (snd (snd (sample X_new n_draws (e2, w2)))) /\
  fst (snd (sample X_new n_draws (e1, w1))) = set_training false e1 /\
  disk (snd (snd (sample X_new n_draws (e1, w1)))) = disk w1 /\
  stdout (snd (snd (sample X_new n_draws (e1, w1)))) = stdout w1.
Proof.
  intros Hfit Hrng. split; [|split].
  - unfold fitted in Hfit. injection Hfit as Hsd Hscx Hscy HX Hy Hdev Hm.
    destruct w1 as [r1 d1 o1], w2 as [r2 d2 o2]. cbn in Hrng. subst r2.
    unfold sample, kernel, bind, assign, self, attr, lift, ret, raise.
    cbn. rewrite Hsd, Hscx, Hscy, HX, Hy, Hdev, Hm.
    destruct (scale_data e2); [destruct (scx e2); [|reflexivity]|]; cbn;
      destruct (predictive _ _ _ _ _ _) as [[d|ex] g]; cbn; try reflexivity;
      destruct (mvn_sample _ _ _) as [[ys|ex] g']; cbn; try reflexivity;
      destruct (scy e2); cbn; try reflexivity;
      destruct (unscale_rows _ _ _ _); reflexivity.
  - unfold fitted in Hfit. injection Hfit as Hsd Hscx Hscy HX Hy Hdev Hm.
    destruct w1 as [r1 d1 o1], w2 as [r2 d2 o2]. cbn in Hrng. subst r2.
    unfold sample, kernel, bind, assign, self, attr, lift, ret, raise.
    cbn. rewrite Hsd, Hscx, Hscy, HX, Hy, Hdev, Hm.
    destruct (scale_data e2); [destruct (scx e2); [|reflexivity]|]; cbn;
      destruct (predictive _ _ _ _ _ _) as [[d|ex] g]; cbn; try reflexivity;
      destruct (mvn_sample _ _ _) as [[ys|ex] g']; cbn; try reflexivity;
      destruct (scy e2); cbn; try reflexivity;
      destruct (unscale_rows _ _ _ _); reflexivity.
  - change (wp (sample X_new n_draws)
               (fun _ s' => fst s' = set_training false e1 /\
                            disk (snd s') = disk w1 /\
                            stdout (snd s') = stdout w1) (e1, w1)).
    unfold sample. repeat wp_step; repeat split; reflexivity.
Qed.

End ReadOnly.

(** ** Loading: what is read, restored and reported *)

Section LoadEdges.
Context {F : Float64} {T : Torch F} {U : Utils F}.


End LoadEdges.

Section LoadResult.
Context {F : Float64} {T : Torch F} {U : Utils F}.

Lemma wp_predict_result X_new
    (Q : result (list float * list float) -> St -> Prop) s :
  Q (fst (predict X_new s))
    (set_training false (fst s),
     set_rng (rng_after_predict X_new (fst s) (rng (snd s))) (snd s)) ->
  wp (predict X_new) Q s.
Proof.
  unfold wp. destruct s as [e w]. rewrite predict_frame. auto.
Qed.

Lemma load_into_result outpath bestsplit wv wm sy e w s' :
  scale_data e = true ->
  scy e = Some sy ->
  load_into outpath bestsplit wv wm (e, w) = (Ok tt, s') ->
  exists st,
    disk w !! (outpath +:+ bestsplit +:+ "_gpe.pth") = Some (PthFile st) /\
    model (fst s') = st /\
    with_val (fst s') = wv /\
    disk (snd s') = disk w /\
    stdout (snd s') =
      stdout w ++
      [PrintDone;
       PrintStats (bias st) (weights st) (outputscale st) (lengthscale st)
                  (if learn_noise e then Some (noise st) else None)
                  (if wv then metric_score (fst s') else None)] /\
    (wv = false -> rng (snd s') = rng w) /\
    (wv = true ->
     exists Xv yv m p,
       disk w !! (outpath +:+ bestsplit +:+ "_X_val.txt") = Some (TxtFile Xv) /\
       disk w !! (outpath +:+ bestsplit +:+ "_y_val.txt") = Some (TxtFile yv) /\
       metrics_dict wm = Some m /\
       watch_metric (fst s') = wm /\
       fst (predict Xv (fst s', set_rng (rng w) (snd s'))) = Ok p /\
       rng (snd s') = rng_after_predict Xv (fst s') (rng w) /\
       metric_score (fst s') =
         Some (metric_fn m
                 (tensorize (ravel (transform sy (reshape_col yv))))
                 (tensorize (ravel (transform sy
                                      (reshape_col (Arr1 (fst p)))))))).
Proof.
  intros Hsd Hscy Hrun.
  refine (wp_run _ (fun r s' => r = Ok tt -> _) _ _ _ Hrun _ eq_refl).
  clear Hrun. unfold load_into, torch_load, np_loadtxt, print_stats.
  destruct wv.
  - repeat (first [apply wp_predict_result | wp_step]);
      try discriminate; intros _;
      cbn -[predict rng_after_predict] in *; try congruence.
    all: rewrite Hscy in *.
    all: repeat match goal with
                | H : Some _ = Some _ |- _ => injection H as <-
                end.
    all: eexists; split; [reflexivity|].
    all: repeat split; try reflexivity; try discriminate.
    + rewrite <- app_assoc. reflexivity.
    + intros _. exists a, a0, m, a1. repeat split; try reflexivity.
      rewrite <- Heqr. apply predict_reads; [reflexivity|].
      destruct w; reflexivity.
  - repeat wp_step; try discriminate; intros _; cbn in *; try congruence.
    all: eexists; split; [reflexivity|].
    all: repeat split; try reflexivity; try discriminate.
    rewrite <- app_assoc. reflexivity.
Qed.

(** X10.  The emulator [load_emulator] returns holds the persisted
    snapshot as the live state of its model, the bound of the noise
    included, while its [init_state] is the one the constructor made
    from the training files: training it again starts from there, not
    from the snapshot.  Loading writes no file and prints the banner,
    the closing line and the statistics of the snapshot, in this order
    and without the noise.  The random generator is advanced by the
    constructor of the model, and without validation by nothing
    else. *)
Theorem load_emulator_restores_snapshot
    outpath bestsplit wv wm dev w e' w' :
  load_emulator outpath bestsplit wv wm dev w = (Ok e', w') ->
  exists X y st,
    disk w !! (outpath +:+ bestsplit +:+ "_X_train.txt") = Some (TxtFile X) /\
    disk w !! (outpath +:+ bestsplit +:+ "_y_train.txt") = Some (TxtFile y) /\
    disk w !! (outpath +:+ bestsplit +:+ "_gpe.pth") = Some (PthFile st) /\
    model e' = st /\
    init_state e' = init_state (GPEmul_init X y dev false true) /\
    with_val e' = wv /\
    disk w' = disk w /\
    stdout w' =
      stdout w ++
      [PrintLoading; PrintDone;
       PrintStats (bias st) (weights st) (outputscale st) (lengthscale st)
                  None (if wv then metric_score e' else None)] /\
    let built :=
      module_init (n_in_features (GPEmul_init X y dev false true)) (rng w) in
    (wv = false -> rng w' = built) /\
    (wv = true ->
     exists Xv,
       disk w !! (outpath +:+ bestsplit +:+ "_X_val.txt")
       = Some (TxtFile Xv) /\
       rng w' = rng_after_predict Xv e' built).
Proof.
  unfold load_emulator. cbn [disk set_stdout].
  destruct (disk w !! (outpath +:+ bestsplit +:+ "_X_train.txt"))
    as [[X|]|]; try discriminate.
  destruct (disk w !! (outpath +:+ bestsplit +:+ "_y_train.txt"))
    as [[y|]|]; try discriminate.
  unfold GPEmul_new.
  destruct (load_into _ _ _ _ _) as [r [e1 w1]] eqn:Hinto.
  destruct r as [[]|]; intros [= <- <-].
  pose proof (preserved_run _ _ _ _ _
                (load_into_frozen _ outpath bestsplit wv wm) eq_refl Hinto)
    as Hfz.
  destruct (frozen_noise_attrs _ _ Hfz) as [_ Hinit].
  destruct (load_into_result _ _ _ _ (Scaler_fit (reshape_col y))
              (GPEmul_init X y dev false true) _ _ eq_refl eq_refl Hinto)
    as (st & Hpth & Hmodel & Hwv & Hdisk & Hout & Hrng & Hval).
  cbn [fst snd disk rng stdout set_stdout set_rng learn_noise GPEmul_init]
    in *.
  exists X, y, st.
  split; [reflexivity|]. split; [reflexivity|]. split; [exact Hpth|].
  split; [exact Hmodel|]. split; [exact Hinit|]. split; [exact Hwv|].
  split; [exact Hdisk|].
  split; [rewrite Hout, <- app_assoc; reflexivity|].
  split; [exact Hrng|].
  intros Htrue.
  destruct (Hval Htrue) as (Xv & yv & m & p & HXv & _ & _ & _ & _ & Hg & _).
  exists Xv. split; [exact HXv | exact Hg].
Qed.

(** X11.  With [with_val] the score [load_emulator] keeps and prints is
    the watched metric between the stored validation targets and the
    means the returned emulator itself predicts at the stored
    validation inputs, from the state in which the constructor left the
    random generator, both taken through the target scaler that was
    fitted on the training targets. *)
Theorem load_emulator_scores_validation
    outpath bestsplit wm dev w e' w' :
  load_emulator outpath bestsplit true wm dev w = (Ok e', w') ->
  exists X y Xv yv m p,
    disk w !! (outpath +:+ bestsplit +:+ "_X_train.txt") = Some (TxtFile X) /\
    disk w !! (outpath +:+ bestsplit +:+ "_y_train.txt") = Some (TxtFile y) /\
    disk w !! (outpath +:+ bestsplit +:+ "_X_val.txt") = Some (TxtFile Xv) /\
    disk w !! (outpath +:+ bestsplit +:+ "_y_val.txt") = Some (TxtFile yv) /\
    metrics_dict wm = Some m /\
    watch_metric e' = wm /\
    fst (predict Xv
           (e', set_rng (module_init
                           (n_in_features (GPEmul_init X y dev false true))
                           (rng w)) w')) = Ok p /\
    metric_score e' =
      Some (metric_fn m
              (tensorize (ravel (transform (Scaler_fit (reshape_col y))
                                           (reshape_col yv))))
              (tensorize (ravel (transform (Scaler_fit (reshape_col y))
                                           (reshape_col (Arr1 (fst p))))))).
Proof.
  unfold load_emulator. cbn [disk set_stdout].
  destruct (disk w !! (outpath +:+ bestsplit +:+ "_X_train.txt"))
    as [[X|]|]; try discriminate.
  destruct (disk w !! (outpath +:+ bestsplit +:+ "_y_train.txt"))
    as [[y|]|]; try discriminate.
  unfold GPEmul_new.
  destruct (load_into _ _ _ _ _) as [r [e1 w1]] eqn:Hinto.
  destruct r as [[]|]; intros [= <- <-].
  destruct (load_into_result _ _ _ _ (Scaler_fit (reshape_col y))
              (GPEmul_init X y dev false true) _ _ eq_refl eq_refl Hinto)
    as (st & _ & _ & _ & _ & _ & _ & Hval).
  destruct (Hval eq_refl)
    as (Xv & yv & m & p & HXv & Hyv & Hm & Hwm & Hp & _ & Hms).
  cbn [fst snd disk rng set_stdout set_rng] in *.
  exists X, y, Xv, yv, m, p. repeat split; auto.
Qed.

End LoadResult.
(** ** Training without validation data *)

Section NoValidation.
Context {F : Float64} {T : Torch F} {U : Utils F}.
Context (x : ndarray * ndarray * list float * list float * option float).

Ltac noval_leaf :=
  intros [e w] [Hwv Hx]; cbn [fst] in Hwv, Hx;
  repeat wp_step;
  try (cbn in *; congruence);
  split; cbn; assumption.

Lemma train_step_noval : preserved (without_validation x) train_step.
Proof. unfold train_step. noval_leaf. Qed.

Lemma EarlyStopping_call_noval es loss :
  preserved (without_validation x) (EarlyStopping_call es loss).
Proof. unfold EarlyStopping_call. noval_leaf. Qed.

Lemma reset_noval : preserved (without_validation x) reset.
Proof. unfold reset, rand. noval_leaf. Qed.

Lemma epoch_body_noval epoch es :
  preserved (without_validation x) (epoch_body epoch es).
Proof.
  unfold epoch_body. apply preserved_bind; [apply train_step_noval|].
  intros tl [e w] [Hwv Hx]. cbn [fst] in Hwv, Hx.
  apply wp_bind, wp_self. cbn [fst snd]. rewrite Hwv.
  apply wp_bind, wp_ret. apply wp_bind, wp_effect.
  apply wp_bind, wp_assign. apply wp_bind, wp_ret. cbn [fst snd].
  apply EarlyStopping_call_noval. split; cbn; assumption.
Qed.

Lemma epoch_loop_noval n : forall epoch es,
  preserved (without_validation x) (epoch_loop n epoch es).
Proof.
  induction n as [|n IH]; intros epoch es; simpl.
  - apply preserved_ret.
  - apply preserved_bind; [apply epoch_body_noval|]. intros es1.
    destruct (early_stop es1); [|apply IH].
    apply preserved_bind; [|intros; apply preserved_ret].
    apply preserved_effect. intros e w H. exact H.
Qed.

Lemma finish_noval : preserved (without_validation x) finish.
Proof. unfold finish, torch_load. noval_leaf. Qed.

Lemma train_once_noval : preserved (without_validation x) train_once.
Proof.
  unfold train_once, run_epochs.
  repeat first [ apply reset_noval | apply epoch_loop_noval
               | apply finish_noval | preserved_step ].
Qed.

Lemma record_restart_noval acc :
  preserved (without_validation x) (record_restart acc).
Proof. unfold record_restart. repeat preserved_step. Qed.

Lemma restart_loop_noval n fuel : forall i acc,
  preserved (without_validation x) (restart_loop n fuel i acc).
Proof.
  induction fuel as [|fuel IH]; intros i acc; simpl.
  - destruct (i <? n); apply preserved_ret.
  - destruct (i <? n); [|apply preserved_ret].
    repeat first [ apply train_once_noval | apply record_restart_noval
                 | apply IH
                 | apply preserved_effect; intros ? ? H; exact H
                 | preserved_step ].
Qed.

Lemma select_best_noval acc :
  preserved (without_validation x) (select_best acc).
Proof. unfold select_best. noval_leaf. Qed.

End NoValidation.

Section NoValidationTrain.
Context {F : Float64} {T : Torch F} {U : Utils F}.

(** X12.  A call of [train] that is not given both validation arrays
    runs without validation, and whatever its outcome it leaves alone
    everything that belongs to validation: the validation tensors, the
    two per-epoch validation lists and [metric_score] are what they
    were before the call, so that values of an earlier run with
    validation stay on the object. *)
Theorem train_without_validation_keeps_validation_state
    fuel Xv yv n lr me pa sp wm e w :
  validation_supplied Xv yv = false ->
  with_val (fst (snd (train fuel Xv yv n lr me pa sp wm (e, w)))) = false /\
  validation_state (fst (snd (train fuel Xv yv n lr me pa sp wm (e, w))))
  = validation_state e.
Proof.
  intros Hnone.
  change (wp (train fuel Xv yv n lr me pa sp wm)
             (fun _ s' => without_validation (validation_state e) s') (e, w)).
  unfold train. apply wp_bind.
  apply (wp_mono _ (fun _ s' => without_validation (validation_state e) s')).
  - unfold train_setup.
    destruct Xv as [Xv|], yv as [yv|]; try discriminate;
      repeat wp_step; split; reflexivity.
  - intros [[]|ex] s1 H1; [|exact H1]. revert s1 H1.
    refine (preserved_bind (without_validation (validation_state e))
              _ _ _ _).
    + apply restart_loop_noval.
    + intros [acc|]; [|apply preserved_ret].
      apply preserved_bind; [apply select_best_noval|].
      intros []. apply preserved_ret.
Qed.

End NoValidationTrain.


(** ** The properties above on runs of the executable backend *)

Module EdgeRuns.
Import Toy.

Lemma run_Ok_eq {A S : Type} (r : result A * S) (a : A) :
  fst r = Ok a -> r = (Ok a, snd r).
Proof. destruct r as [r s]. simpl. intros ->. reflexivity. Qed.

Lemma run_Raise_eq {A S : Type} (r : result A * S) (ex : exn) :
  fst r = Raise ex -> r = (Raise ex, snd r).
Proof. destruct r as [r s]. simpl. intros ->. reflexivity. Qed.

Lemma train_unknown_metric_raises_KeyError_witness :
  exists e',
    train 10 None None 2 rate 5 2 "ck.pth" "RMSE" (emul_plain, world0)
    = (Raise KeyError, (e', world0)) /\
    model e' = model emul_plain /\
    frozen e' = frozen emul_plain /\
    with_val e' = validation_supplied None None /\
    watch_metric e' = "RMSE" /\
    metric e' = metric emul_plain /\
    (n_restarts e', learning_rate e', max_epochs e', patience e', savepath e')
    = (n_restarts emul_plain, learning_rate emul_plain, max_epochs emul_plain,
       patience emul_plain, savepath emul_plain).
Proof.
  exact (train_unknown_metric_raises_KeyError (F := QFloat) (T := QTorch)
           (U := QUtils) X3 y3 cpu false false emul_plain world0
           10 None None 2 rate 5 2 "ck.pth" "RMSE" eq_refl eq_refl).
Defined.

(** The head of [train] without validation data, for no restart at all
    and for one restart without epochs. *)
Abbreviation setup_none :=
  (train_setup None None 0 rate 5 2 "ck.pth" "MSE" (emul_plain, world0)).

Abbreviation setup_no_epochs :=
  (train_setup None None 1 rate 0 2 "ck.pth" "MSE" (emul_plain, world0)).

Abbreviation setup_negative_rate :=
  (train_setup None None 1 negative_rate 0 2 "ck.pth" "MSE"
               (emul_plain, world0)).

Lemma train_without_restarts_raises_ValueError_witness :
  train 3 None None 0 rate 5 2 "ck.pth" "MSE" (emul_plain, world0)
  = (Raise ValueError, snd setup_none).
Proof.
  assert (Hfst : fst setup_none = Ok tt) by (vm_compute; reflexivity).
  refine (train_without_restarts_raises_ValueError (F := QFloat)
            (T := QTorch) (U := QUtils) 3 None None 0 rate 5 2 "ck.pth" "MSE"
            (emul_plain, world0) (snd setup_none)
            (run_Ok_eq setup_none tt Hfst) _).
  lia.
Defined.

Lemma train_without_epochs_fails_witness :
  (exists s',
     train 3 None None 1 rate 0 2 "ck.pth" "MSE" (emul_plain, world0)
     = (Raise OSError, s')) /\
  (exists s',
     train 3 None None 1 negative_rate 0 2 "ck.pth" "MSE" (emul_plain, world0)
     = (Raise ValueError, s')).
Proof.
  assert (Hfst : fst setup_no_epochs = Ok tt) by (vm_compute; reflexivity).
  assert (Hfst' : fst setup_negative_rate = Ok tt)
    by (vm_compute; reflexivity).
  assert (Hn : 0 < 1) by lia.
  assert (Hme : 0 <= 0) by lia.
  assert (Hfuel : (0 < 3)%nat) by lia.
  assert (Hnone : disk (snd (snd setup_no_epochs)) !! "ck.pth" = None)
    by (vm_compute; reflexivity).
  assert (Hlr : f_le (f_lit 0) rate = true) by (vm_compute; reflexivity).
  assert (Hlr' : f_le (f_lit 0) negative_rate = false)
    by (vm_compute; reflexivity).
  split.
  - exact (proj1 (proj2 (train_without_epochs_fails (F := QFloat)
                           (T := QTorch) (U := QUtils) 3 None None 1 rate 0 2
                           "ck.pth" "MSE" (emul_plain, world0)
                           (snd setup_no_epochs)
                           (run_Ok_eq setup_no_epochs tt Hfst) Hn Hme Hfuel)
                        Hlr)
                 Hnone).
  - exact (proj1 (train_without_epochs_fails (F := QFloat)
                    (T := QTorch) (U := QUtils) 3 None None 1 negative_rate
                    0 2 "ck.pth" "MSE" (emul_plain, world0)
                    (snd setup_negative_rate)
                    (run_Ok_eq setup_negative_rate tt Hfst') Hn Hme Hfuel)
                 Hlr').
Defined.

Lemma predict_reads_fitted_state_witness :
  fst (predict X3 (emul_scaled, world0)) =
  fst (predict X3 (set_training false emul_scaled, world_saved)) /\
  rng (snd (snd (predict X3 (emul_scaled, world0)))) =
  rng (snd (snd (predict X3 (set_training false emul_scaled, world_saved)))) /\
  snd (predict X3 (emul_scaled, world0)) =
  (set_training false emul_scaled,
   set_rng (rng_after_predict X3 emul_scaled (rng world0)) world0) /\
  rng_after_predict X3 emul_scaled (rng world0) = 1%nat.
Proof.
  destruct (predict_reads_fitted_state (F := QFloat) (T := QTorch)
              (U := QUtils) X3 emul_scaled world0
              (set_training false emul_scaled) world_saved eq_refl eq_refl)
    as (Hres & Hgen & Hst).
  split; [exact Hres|]. split; [exact Hgen|]. split; [exact Hst|].
  vm_compute. reflexivity.
Defined.

Lemma sample_reads_fitted_state_witness :
  fst (sample X3 2 (emul_scaled, world0)) =
  fst (sample X3 2 (set_training false emul_scaled, world_saved)) /\
  rng (snd (snd (sample X3 2 (emul_scaled, world0)))) =
  rng (snd (snd (sample X3 2 (set_training false emul_scaled, world_saved)))) /\
  fst (snd (sample X3 2 (emul_scaled, world0))) =
  set_training false emul_scaled /\
  disk (snd (snd (sample X3 2 (emul_scaled, world0)))) = disk world0 /\
  stdout (snd (snd (sample X3 2 (emul_scaled, world0)))) = stdout world0.
Proof.
  exact (sample_reads_fitted_state (F := QFloat) (T := QTorch) (U := QUtils)
           X3 2 emul_scaled world0 (set_training false emul_scaled)
           world_saved eq_refl eq_refl).
Defined.

(** One restart with validation data, from the world whose generator
    has made its first draw. *)
Abbreviation setup_validated :=
  (train_setup (Some X3) (Some y3) 2 rate 5 2 "ck.pth" "R2Score"
               (emul_scaled, world1)).

Abbreviation one_restart := (train_once (snd setup_validated)).

Lemma completed_restart_is_recorded_witness :
  aligned (fst (snd one_restart)) /\
  (idx_best (fst (snd one_restart))
   < length (train_loss_list (fst (snd one_restart))))%nat /\
  exists acc',
    record_restart no_restart (snd one_restart) = (Ok acc', snd one_restart) /\
    length (c_model_state acc') = S (length (c_model_state no_restart)).
Proof.
  assert (Hfst : fst one_restart = Ok tt) by (vm_compute; reflexivity).
  exact (completed_restart_is_recorded (F := QFloat) (T := QTorch)
           (U := QUtils) no_restart (snd setup_validated) (snd one_restart)
           (run_Ok_eq one_restart tt Hfst)).
Defined.

(** The loop on one restart without epochs. *)
Abbreviation failing_loop :=
  (restart_loop 1 3 0 no_restart (snd setup_no_epochs)).

Lemma restart_loop_fails_only_in_train_once_witness :
  OSError <> RuntimeError /\
  exists s0, train_once s0 = (Raise OSError, snd failing_loop).
Proof.
  assert (Hfst : fst failing_loop = Raise OSError) by (vm_compute; reflexivity).
  exact (restart_loop_fails_only_in_train_once (F := QFloat) (T := QTorch)
           (U := QUtils) 1 3 0 no_restart (snd setup_no_epochs) OSError
           (snd failing_loop) (run_Raise_eq failing_loop OSError Hfst)).
Defined.

(** Two restarts with validation data.  Both reach the same validation
    loss, so that the first is selected, while the file at [savepath]
    holds the snapshot of the second, drawn with other lengthscales. *)
Abbreviation validated_run :=
  (train 10 (Some X3) (Some y3) 2 rate 5 2 "ck.pth" "R2Score"
         (emul_scaled, world0)).

Lemma train_leaves_last_checkpoint_witness :
  exists s1 s2 acc bm,
    train_setup (Some X3) (Some y3) 2 rate 5 2 "ck.pth" "R2Score"
                (emul_scaled, world0) = (Ok tt, s1) /\
    restart_loop 2 10 0 no_restart s1 = (Ok (Some acc), s2) /\
    last (c_model_state acc) = Some bm /\
    disk (snd (snd validated_run)) !! "ck.pth" = Some (PthFile bm) /\
    best_model (fst (snd validated_run))
    = Some (model (fst (snd validated_run))) /\
    (exists idx,
       c_model_state acc !! idx = Some (model (fst (snd validated_run)))) /\
    raw_lengthscale (model (fst (snd validated_run)))
    = [Some (81 # 20)%Q; Some (81 # 20)%Q] /\
    raw_lengthscale bm = [Some (147 # 20)%Q; Some (147 # 20)%Q] /\
    disk (snd (snd validated_run)) !! "ck.pth"
    <> Some (PthFile (model (fst (snd validated_run)))).
Proof.
  assert (Hfst : fst validated_run = Ok (Some tt)) by (vm_compute; reflexivity).
  assert (Hsel : raw_lengthscale (model (fst (snd validated_run)))
                 = [Some (81 # 20)%Q; Some (81 # 20)%Q])
    by (vm_compute; reflexivity).
  assert (Hfile : match disk (snd (snd validated_run)) !! "ck.pth" with
                  | Some (PthFile st) => raw_lengthscale st
                  | _ => []
                  end = [Some (147 # 20)%Q; Some (147 # 20)%Q])
    by (vm_compute; reflexivity).
  destruct (train_leaves_last_checkpoint (F := QFloat) (T := QTorch)
              (U := QUtils) 10 (Some X3) (Some y3) 2 rate 5 2 "ck.pth"
              "R2Score" (emul_scaled, world0) (snd validated_run)
              (run_Ok_eq validated_run (Some tt) Hfst))
    as (s1 & s2 & acc & bm & Hsetup & Hloop & Hlast & Hdisk & Hkept & Hidx
        & Hother).
  rewrite Hdisk in Hfile.
  exists s1, s2, acc, bm.
  split; [exact Hsetup|]. split; [exact Hloop|]. split; [exact Hlast|].
  split; [exact Hdisk|]. split; [exact Hkept|]. split; [exact Hidx|].
  split; [exact Hsel|]. split; [exact Hfile|].
  apply Hother. intros Hsame. rewrite <- Hsame, Hsel in Hfile.
  discriminate Hfile.
Defined.


Lemma load_emulator_restores_snapshot_witness :
  exists X y st,
    disk world_saved !! ("out/" +:+ "1" +:+ "_X_train.txt") = Some (TxtFile X) /\
    disk world_saved !! ("out/" +:+ "1" +:+ "_y_train.txt") = Some (TxtFile y) /\
    disk world_saved !! ("out/" +:+ "1" +:+ "_gpe.pth") = Some (PthFile st) /\
    model LoadRun.loaded = st /\
    init_state LoadRun.loaded = init_state (GPEmul_init X y cpu false true) /\
    with_val LoadRun.loaded = false /\
    disk (snd LoadRun.the_load) = disk world_saved /\
    stdout (snd LoadRun.the_load) =
      stdout world_saved ++
      [PrintLoading; PrintDone;
       PrintStats (bias st) (weights st) (outputscale st) (lengthscale st)
                  None None] /\
    rng (snd LoadRun.the_load)
    = module_init (n_in_features (GPEmul_init X y cpu false true))
                  (rng world_saved).
Proof.
  destruct (load_emulator_restores_snapshot (F := QFloat) (T := QTorch)
              (U := QUtils) "out/" "1" false "R2Score" cpu world_saved
              LoadRun.loaded (snd LoadRun.the_load) LoadRun.the_load_succeeds)
    as (X & y & st & HX & Hy & Hst & Hm & Hinit & Hwv & Hdisk & Hout & Hrng
        & _).
  exists X, y, st. repeat split; auto.
Defined.

Abbreviation validated_load :=
  (load_emulator "out/" "1" true "MSE" cpu world_validated).

Abbreviation loaded_validated :=
  (match fst validated_load with
   | Ok e => e
   | Raise _ => emul_scaled
   end).

Lemma validated_load_succeeds :
  validated_load = (Ok loaded_validated, snd validated_load).
Proof.
  assert (Hok : match fst validated_load with
                | Ok _ => true
                | Raise _ => false
                end = true) by (vm_compute; reflexivity).
  destruct validated_load as [[e|ex] w]; [reflexivity | discriminate].
Qed.

Lemma load_emulator_scores_validation_witness :
  exists X y Xv yv m p,
    disk world_validated !! ("out/" +:+ "1" +:+ "_X_train.txt")
    = Some (TxtFile X) /\
    disk world_validated !! ("out/" +:+ "1" +:+ "_y_train.txt")
    = Some (TxtFile y) /\
    disk world_validated !! ("out/" +:+ "1" +:+ "_X_val.txt")
    = Some (TxtFile Xv) /\
    disk world_validated !! ("out/" +:+ "1" +:+ "_y_val.txt")
    = Some (TxtFile yv) /\
    metrics_dict "MSE" = Some m /\
    watch_metric loaded_validated = "MSE" /\
    fst (predict Xv
           (loaded_validated,
            set_rng (module_init
                       (n_in_features (GPEmul_init X y cpu false true))
                       (rng world_validated))
                    (snd validated_load))) = Ok p /\
    metric_score loaded_validated =
      Some (metric_fn m
              (tensorize (ravel (transform (Scaler_fit (reshape_col y))
                                           (reshape_col yv))))
              (tensorize (ravel (transform (Scaler_fit (reshape_col y))
                                           (reshape_col (Arr1 (fst p))))))).
Proof.
  exact (load_emulator_scores_validation (F := QFloat) (T := QTorch)
           (U := QUtils) "out/" "1" "MSE" cpu world_validated
           loaded_validated (snd validated_load) validated_load_succeeds).
Defined.

Lemma train_without_validation_keeps_validation_state_witness :
  with_val (fst (snd (train 10 (Some X3) None 2 rate 5 2 "ck.pth" "R2Score"
                            (emul_scaled, world0)))) = false /\
  validation_state
    (fst (snd (train 10 (Some X3) None 2 rate 5 2 "ck.pth" "R2Score"
                     (emul_scaled, world0))))
  = validation_state emul_scaled.
Proof.
  exact (train_without_validation_keeps_validation_state (F := QFloat)
           (T := QTorch) (U := QUtils) 10 (Some X3) None 2 rate 5 2
           "ck.pth" "R2Score" emul_scaled world0 eq_refl).
Defined.

End EdgeRuns.
